(** * Order validation and scheduling engine

    A shallow embedding of [back/src/domain/order/order.ts] and of
    [closing-period.ts], together with the properties of the
    scheduling rules.

    Conventions of the embedding:
    - a JavaScript [Date] is its time value, an integer number of
      milliseconds since the epoch (UTC), and the Invalid Date is left
      out;
    - the order rules read the local fields ([getDay], [getHours], ...)
      through a fixed offset of the local time zone, on whose calendar
      every day lasts 24 hours: their properties are stated at the
      granularity of days, not of the instant a date falls on across
      a clock change;
    - the closing periods, whose check sets the time of day of a date
      and compares instants, read local time through a time zone with
      its clock changes ([TimeZone]);
    - a number is an integer, printed with all its decimal digits, as
      a template literal prints a safe integer (a magnitude below
      2^53); the messages that print a number of a request are stated
      for safe integers;
    - [undefined] and [null] are kept apart ([nullable]);
    - an exception is a result ([Throw]), a loop that does not end is
      [Hang], reached when the fuel of the loop runs out;
    - a method that assigns fields of [this] is a function from the
      object before the call to the result and the object after it, so
      that what was written before an exception stays written. *)

From Stdlib Require Import ZArith List String Ascii Bool Lia QArith.
From Stdlib Require Import DecimalString.
Import ListNotations.
Local Open Scope string_scope.
Local Open Scope Z_scope.

(** ** JavaScript values *)

Inductive nullable (A : Type) : Type :=
| Undefined
| Null
| Value (a : A).
Arguments Undefined {A}.
Arguments Null {A}.
Arguments Value {A} a.

(** [!x] for a value that is an object when present. *)
Definition isAbsent {A} (x : nullable A) : bool :=
  match x with Value _ => false | _ => true end.

(** lodash's [isEmpty] on a string that may be absent. *)
Definition isEmptyString (s : nullable string) : bool :=
  match s with
  | Value s => match s with EmptyString => true | String _ _ => false end
  | _ => true
  end.

(** lodash's [isEmpty] on an array. *)
Definition isEmptyArray {A} (l : list A) : bool :=
  match l with [] => true | _ :: _ => false end.

(** Template-literal rendering of a safe integer (a magnitude below
    2^53): its decimal digits.  Beyond, JavaScript rounds the digits
    and, from 1e21, prints the exponent form; such numbers are outside
    the statements that print one. *)
Definition numberToString (n : Z) : string :=
  NilZero.string_of_int (Z.to_int n).

Definition nullableNumberToString (n : nullable Z) : string :=
  match n with
  | Undefined => "undefined"
  | Null => "null"
  | Value n => numberToString n
  end.

(** [a === b] on numbers that may be absent. *)
Definition strictEqualNumber (a b : nullable Z) : bool :=
  match a, b with
  | Undefined, Undefined => true
  | Null, Null => true
  | Value x, Value y => x =? y
  | _, _ => false
  end.

(** ** Errors and results *)

Inductive Error : Type :=
| InvalidOrderError (message : string)
| InvalidUserError (message : string)
| InvalidClosingPeriodError (message : string)
| TypeError.  (* a method called on [undefined] or [null] *)

Inductive completion (A : Type) : Type :=
| Return (a : A)
| Throw (e : Error)
| Hang.
Arguments Return {A} a.
Arguments Throw {A} e.
Arguments Hang {A}.

(** Sequencing of static checks: the first one that does not return
    decides. *)
Definition andThen {A B} (c : completion A) (k : A -> completion B) : completion B :=
  match c with
  | Return a => k a
  | Throw e => Throw e
  | Hang => Hang
  end.

Notation "c1 ;; c2" := (andThen c1 (fun _ => c2))
  (at level 61, right associativity).

(** [array.forEach(check)] where [check] may throw. *)
Fixpoint forEach {A} (check : A -> completion unit) (l : list A) : completion unit :=
  match l with
  | [] => Return tt
  | x :: rest => check x ;; forEach check rest
  end.

(** [array.map(f)] where [f] may throw. *)
Fixpoint mapThrowing {A B} (f : A -> completion B) (l : list A) : completion (list B) :=
  match l with
  | [] => Return []
  | x :: rest =>
      andThen (f x) (fun y =>
      andThen (mapThrowing f rest) (fun ys => Return (y :: ys)))
  end.

(** ** Dates *)

Definition Date : Type := Z.

Definition msPerSecond : Z := 1000.
Definition msPerMinute : Z := 60000.
Definition msPerHour : Z := 3600000.
Definition msPerDay : Z := 86400000.

(** *** Local time at a fixed offset

    The reading of the order rules. *)

Module JsDate.
Section LocalTime.

(** Local time minus UTC, in milliseconds. *)
Variable timeZoneOffset : Z.

Definition localTime (d : Date) : Z := d + timeZoneOffset.

(** Number of the local calendar day, counted from the epoch. *)
Definition calendarDay (d : Date) : Z := localTime d / msPerDay.

Definition getTime (d : Date) : Z := d.

(** The epoch was a Thursday (4). *)
Definition getDay (d : Date) : Z := (calendarDay d + 4) mod 7.

Definition getHours (d : Date) : Z := (localTime d / msPerHour) mod 24.

(** [d.setDate(d.getDate() + 1)]: the following local day at the same
    time of day, which on the calendar of a fixed offset is 24 hours
    later. *)
Definition setDateToFollowingDay (d : Date) : Date := d + msPerDay.

End LocalTime.

(** *** [toISOString] *)

(** Civil date of a day number counted from 1970-01-01. *)
Definition civilFromDays (z : Z) : Z * Z * Z :=
  let z := z + 719468 in
  let era := z / 146097 in
  let doe := z - era * 146097 in
  let yoe := (doe - doe / 1460 + doe / 36524 - doe / 146096) / 365 in
  let y := yoe + era * 400 in
  let doy := doe - (365 * yoe + yoe / 4 - yoe / 100) in
  let mp := (5 * doy + 2) / 153 in
  let d := doy - (153 * mp + 2) / 5 + 1 in
  let m := if mp <? 10 then mp + 3 else mp - 9 in
  (if m <=? 2 then y + 1 else y, m, d).

Fixpoint zeros (n : nat) : string :=
  match n with O => "" | S n => "0" ++ zeros n end.

Definition padded (width : nat) (n : Z) : string :=
  let s := numberToString n in
  zeros (width - String.length s) ++ s.

Definition yearToString (y : Z) : string :=
  if (0 <=? y) && (y <=? 9999) then padded 4 y
  else if y <? 0 then "-" ++ padded 6 (- y)
  else "+" ++ padded 6 y.

Definition toISOString (d : Date) : string :=
  let '(y, m, day) := civilFromDays (d / msPerDay) in
  yearToString y ++ "-" ++ padded 2 m ++ "-" ++ padded 2 day ++ "T"
  ++ padded 2 ((d / msPerHour) mod 24) ++ ":"
  ++ padded 2 ((d / msPerMinute) mod 60) ++ ":"
  ++ padded 2 ((d / msPerSecond) mod 60) ++ "."
  ++ padded 3 (d mod msPerSecond) ++ "Z".

End JsDate.

(** *** Local time of a time zone

    [Date.prototype.setHours] and the getters of the time of day work
    on the wall clock of the time zone, whose offset to UTC changes at
    the clock changes.  A time zone is given by the two conversions of
    ECMAScript:
    - [LocalTime(t)], the time value the wall clock shows at the
      instant [t]: [t] plus the offset in force at [t];
    - [UTC(t)], the instant at which the wall clock shows the time
      value [t]: the earliest one when the wall clock shows [t] twice,
      and [t] minus the offset in force before the change when a clock
      change skips [t]. *)

Record TimeZone : Type := {
  LocalTime : Date -> Z;
  UTC : Z -> Date
}.

Module ZonedDate.
Section Zone.

Variable zone : TimeZone.

Definition getTime (d : Date) : Z := d.

(** [Day(LocalTime(t))]: the number of the local calendar day. *)
Definition calendarDay (d : Date) : Z := LocalTime zone d / msPerDay.

Definition getHours (d : Date) : Z := (LocalTime zone d / msPerHour) mod 24.
Definition getMinutes (d : Date) : Z := (LocalTime zone d / msPerMinute) mod 60.
Definition getSeconds (d : Date) : Z := (LocalTime zone d / msPerSecond) mod 60.
Definition getMilliseconds (d : Date) : Z := LocalTime zone d mod msPerSecond.

(** [d.setHours(h, m, s, ms)]:
    [UTC(MakeDate(Day(LocalTime(d)), MakeTime(h, m, s, ms)))]. *)
Definition setHours (d : Date) (h m s ms : Z) : Date :=
  UTC zone
    (calendarDay d * msPerDay
     + (h * msPerHour + m * msPerMinute + s * msPerSecond + ms)).

End Zone.
End ZonedDate.

(** ** Regular expressions

    The matcher behind [RegExp.prototype.test] for a pattern anchored at
    both ends and built from character classes, sequence, alternation
    and repetition: Brzozowski derivatives.  Characters are 8-bit code
    units. *)

Module Regex.

Inductive re : Type :=
| Nothing
| Epsilon
| Class (member : ascii -> bool)
| Seq (r1 r2 : re)
| Alt (r1 r2 : re)
| Star (r : re).

Fixpoint acceptsEmpty (r : re) : bool :=
  match r with
  | Nothing => false
  | Epsilon => true
  | Class _ => false
  | Seq r1 r2 => acceptsEmpty r1 && acceptsEmpty r2
  | Alt r1 r2 => acceptsEmpty r1 || acceptsEmpty r2
  | Star _ => true
  end.

Fixpoint derive (c : ascii) (r : re) : re :=
  match r with
  | Nothing => Nothing
  | Epsilon => Nothing
  | Class member => if member c then Epsilon else Nothing
  | Seq r1 r2 =>
      if acceptsEmpty r1
      then Alt (Seq (derive c r1) r2) (derive c r2)
      else Seq (derive c r1) r2
  | Alt r1 r2 => Alt (derive c r1) (derive c r2)
  | Star r1 => Seq (derive c r1) (Star r1)
  end.

Fixpoint matches (r : re) (s : string) : bool :=
  match s with
  | EmptyString => acceptsEmpty r
  | String c rest => matches (derive c r) rest
  end.

Definition plus (r : re) : re := Seq r (Star r).

Fixpoint sequence (rs : list re) : re :=
  match rs with
  | [] => Epsilon
  | r :: rest => Seq r (sequence rest)
  end.

(** [r{1,3}] *)
Definition oneToThree (r : re) : re :=
  Seq r (Alt Epsilon (Seq r (Alt Epsilon r))).

(** [r{2,}] *)
Definition twoOrMore (r : re) : re := Seq r (plus r).

Definition code (c : ascii) : N := N_of_ascii c.

Definition char (n : N) : re := Class (fun c => N.eqb (code c) n).

Definition inRange (lo hi : N) (c : ascii) : bool :=
  (N.leb lo (code c) && N.leb (code c) hi)%bool.

Definition isDigit (c : ascii) : bool := inRange 48 57 c.
Definition isLetter (c : ascii) : bool := (inRange 65 90 c || inRange 97 122 c)%bool.

(** [\s] *)
Definition isWhiteSpace (c : ascii) : bool :=
  (inRange 9 13 c || N.eqb (code c) 32 || N.eqb (code c) 160)%bool.

(** The line terminators, which [.] does not match. *)
Definition isLineTerminator (c : ascii) : bool :=
  (N.eqb (code c) 10 || N.eqb (code c) 13)%bool.

End Regex.

(** ** Shared date constants and helpers *)

(** Modelled from the spec: [date.constants.ts] is not among the
    sources; the weekday numbers are those of [Date.prototype.getDay]
    and a week has seven days. *)
Module Day.
Definition SUNDAY : Z := 0.
Definition MONDAY : Z := 1.
Definition TUESDAY : Z := 2.
Definition WEDNESDAY : Z := 3.
Definition THURSDAY : Z := 4.
Definition FRIDAY : Z := 5.
Definition SATURDAY : Z := 6.
End Day.

(** Modelled from the spec: of [date.constants.ts] too; the rules count
    in weeks of 7 days. *)
Definition NUMBER_OF_DAYS_IN_A_WEEK : Z := 7.

(** Modelled from the spec: [date.utils.ts] is not among the sources.
    The spec compares dates at day granularity, ignoring the time of
    day. *)
Definition isFirstDateBeforeSecondDateIgnoringHours
  (timeZoneOffset : Z) (firstDate secondDate : Date) : bool :=
  JsDate.calendarDay timeZoneOffset firstDate
  <? JsDate.calendarDay timeZoneOffset secondDate.

(** Modelled from the spec: of [date.utils.ts] too.  The spec counts
    the days from one date to another in calendar days, so that a date a
    week later is 7 days out whatever the two times of day. *)
Definition getNumberOfDaysBetweenFirstDateAndSecondDate
  (timeZoneOffset : Z) (firstDate secondDate : Date) : Z :=
  JsDate.calendarDay timeZoneOffset secondDate
  - JsDate.calendarDay timeZoneOffset firstDate.

(** Modelled from the spec: the clock.  A call reads [new Date()] and
    [getCurrentDateAtCanadaEasternTimeZone()] (of [date.utils.ts], not
    among the sources: now in the business time zone); one call sees one
    value of each. *)
Record Clock : Type := {
  newDate : Date;
  getCurrentDateAtCanadaEasternTimeZone : Date
}.

(** ** Order constraints *)

(** Modelled from the spec: [order-type.ts] is not among the sources;
    the enumeration has the members PICK_UP, DELIVERY and RESERVATION,
    each one its own name as a string. *)
Module OrderType.
Definition PICK_UP : string := "PICK_UP".
Definition DELIVERY : string := "DELIVERY".
Definition RESERVATION : string := "RESERVATION".
(** [Object.keys(OrderType)] *)
Definition keys : list string := [PICK_UP; DELIVERY; RESERVATION].
End OrderType.

(** Modelled from the spec: [order-pick-up-constraints.ts] is not among
    the sources.  Sunday and Monday are the closing days and an order
    placed at 19:00 or later counts as placed the following day.  The
    table [AVAILABLE_DAYS_FOR_A_PICK_UP_ORDER] itself is a parameter of
    the engine below. *)
Definition CLOSING_DAYS : list Z := [Day.SUNDAY; Day.MONDAY].

(** Modelled from the spec: the cutoff hour of a pick-up order, 19:00. *)
Definition MAXIMUM_HOUR_TO_PLACE_A_PICK_UP_ORDER_BEFORE_BEING_CONSIDERED_AS_PLACED_THE_FOLLOWING_DAY
  : Z := 19.

(** An entry of the pick-up table, with the fields [order.ts] reads. *)
Record AvailableDayForAPickUpOrder : Type := {
  whenOrderIsPlacedOn : Z;
  firstAvailableDay : Z
}.

(** Modelled from the spec: [order-delivery-constraints.ts] is not among
    the sources.  Delivery happens on Thursday; the same week can be
    promised until Tuesday 19:00. *)
Definition DELIVERY_DAY : Z := Day.THURSDAY.

(** Modelled from the spec: the last day of the same-week cutoff,
    Tuesday. *)
Definition MAXIMUM_DAY_FOR_DELIVERY_SAME_WEEK : Z := Day.TUESDAY.

(** Modelled from the spec: the hour of the same-week cutoff, 19:00. *)
Definition MAXIMUM_HOUR_FOR_DELIVERY_SAME_WEEK : Z := 19.

(** ** Products, closing periods and commands

    The interfaces and commands with the fields [order.ts],
    [closing-period.ts] and their test suites read and write. *)

Module Product.
Record t : Type := {
  id : Z;
  name : string;
  description : string;
  price : Q;
  status : string
}.
End Product.

Module ProductIdWithQuantity.
Record t : Type := { productId : Z; quantity : Z }.
End ProductIdWithQuantity.

Module ProductWithQuantity.
Record t : Type := { product : Product.t; quantity : Z }.
End ProductWithQuantity.

Module ClosingPeriodInterface.
Record t : Type := { id : nullable Z; startDate : Date; endDate : Date }.
End ClosingPeriodInterface.

Module NewOrderCommand.
Record t : Type := {
  clientName : nullable string;
  clientPhoneNumber : nullable string;
  clientEmailAddress : nullable string;
  products : list ProductIdWithQuantity.t;
  type : nullable string;
  pickUpDate : nullable Date;
  deliveryDate : nullable Date;
  deliveryAddress : nullable string;
  reservationDate : nullable Date;
  note : nullable string
}.
End NewOrderCommand.

Module UpdateOrderCommand.
Record t : Type := {
  orderId : nullable Z;
  products : list ProductIdWithQuantity.t;
  type : nullable string;
  pickUpDate : nullable Date;
  deliveryDate : nullable Date;
  deliveryAddress : nullable string;
  reservationDate : nullable Date;
  note : nullable string
}.
End UpdateOrderCommand.

(** [NewOrderCommand | UpdateOrderCommand], with the fields the two
    share. *)
Module AnyOrderCommand.
Definition t : Type := (NewOrderCommand.t + UpdateOrderCommand.t)%type.

Definition products (c : t) : list ProductIdWithQuantity.t :=
  match c with
  | inl c => NewOrderCommand.products c
  | inr c => UpdateOrderCommand.products c
  end.
Definition type (c : t) : nullable string :=
  match c with
  | inl c => NewOrderCommand.type c
  | inr c => UpdateOrderCommand.type c
  end.
Definition pickUpDate (c : t) : nullable Date :=
  match c with
  | inl c => NewOrderCommand.pickUpDate c
  | inr c => UpdateOrderCommand.pickUpDate c
  end.
Definition deliveryDate (c : t) : nullable Date :=
  match c with
  | inl c => NewOrderCommand.deliveryDate c
  | inr c => UpdateOrderCommand.deliveryDate c
  end.
Definition deliveryAddress (c : t) : nullable string :=
  match c with
  | inl c => NewOrderCommand.deliveryAddress c
  | inr c => UpdateOrderCommand.deliveryAddress c
  end.
Definition reservationDate (c : t) : nullable Date :=
  match c with
  | inl c => NewOrderCommand.reservationDate c
  | inr c => UpdateOrderCommand.reservationDate c
  end.
End AnyOrderCommand.

(** ** The order aggregate *)

Module Order.

Record t : Type := {
  id : nullable Z;
  clientName : nullable string;
  clientPhoneNumber : nullable string;
  clientEmailAddress : nullable string;
  products : nullable (list ProductWithQuantity.t);
  type : nullable string;
  pickUpDate : nullable Date;
  deliveryDate : nullable Date;
  deliveryAddress : nullable string;
  reservationDate : nullable Date;
  note : nullable string
}.

(** The object a constructor starts from: no field assigned yet. *)
Definition blank : t :=
  {| id := Undefined; clientName := Undefined; clientPhoneNumber := Undefined;
     clientEmailAddress := Undefined; products := Undefined; type := Undefined;
     pickUpDate := Undefined; deliveryDate := Undefined;
     deliveryAddress := Undefined; reservationDate := Undefined;
     note := Undefined |}.

(** *** Assignments [this.field = v] *)

Definition set_id (v : nullable Z) (o : t) : t :=
  {| id := v; clientName := clientName o; clientPhoneNumber := clientPhoneNumber o;
     clientEmailAddress := clientEmailAddress o; products := products o;
     type := type o; pickUpDate := pickUpDate o; deliveryDate := deliveryDate o;
     deliveryAddress := deliveryAddress o; reservationDate := reservationDate o;
     note := note o |}.

Definition set_clientName (v : nullable string) (o : t) : t :=
  {| id := id o; clientName := v; clientPhoneNumber := clientPhoneNumber o;
     clientEmailAddress := clientEmailAddress o; products := products o;
     type := type o; pickUpDate := pickUpDate o; deliveryDate := deliveryDate o;
     deliveryAddress := deliveryAddress o; reservationDate := reservationDate o;
     note := note o |}.

Definition set_clientPhoneNumber (v : nullable string) (o : t) : t :=
  {| id := id o; clientName := clientName o; clientPhoneNumber := v;
     clientEmailAddress := clientEmailAddress o; products := products o;
     type := type o; pickUpDate := pickUpDate o; deliveryDate := deliveryDate o;
     deliveryAddress := deliveryAddress o; reservationDate := reservationDate o;
     note := note o |}.

Definition set_clientEmailAddress (v : nullable string) (o : t) : t :=
  {| id := id o; clientName := clientName o; clientPhoneNumber := clientPhoneNumber o;
     clientEmailAddress := v; products := products o;
     type := type o; pickUpDate := pickUpDate o; deliveryDate := deliveryDate o;
     deliveryAddress := deliveryAddress o; reservationDate := reservationDate o;
     note := note o |}.

Definition set_products (v : nullable (list ProductWithQuantity.t)) (o : t) : t :=
  {| id := id o; clientName := clientName o; clientPhoneNumber := clientPhoneNumber o;
     clientEmailAddress := clientEmailAddress o; products := v;
     type := type o; pickUpDate := pickUpDate o; deliveryDate := deliveryDate o;
     deliveryAddress := deliveryAddress o; reservationDate := reservationDate o;
     note := note o |}.

Definition set_type (v : nullable string) (o : t) : t :=
  {| id := id o; clientName := clientName o; clientPhoneNumber := clientPhoneNumber o;
     clientEmailAddress := clientEmailAddress o; products := products o;
     type := v; pickUpDate := pickUpDate o; deliveryDate := deliveryDate o;
     deliveryAddress := deliveryAddress o; reservationDate := reservationDate o;
     note := note o |}.

Definition set_pickUpDate (v : nullable Date) (o : t) : t :=
  {| id := id o; clientName := clientName o; clientPhoneNumber := clientPhoneNumber o;
     clientEmailAddress := clientEmailAddress o; products := products o;
     type := type o; pickUpDate := v; deliveryDate := deliveryDate o;
     deliveryAddress := deliveryAddress o; reservationDate := reservationDate o;
     note := note o |}.

Definition set_deliveryDate (v : nullable Date) (o : t) : t :=
  {| id := id o; clientName := clientName o; clientPhoneNumber := clientPhoneNumber o;
     clientEmailAddress := clientEmailAddress o; products := products o;
     type := type o; pickUpDate := pickUpDate o; deliveryDate := v;
     deliveryAddress := deliveryAddress o; reservationDate := reservationDate o;
     note := note o |}.

Definition set_deliveryAddress (v : nullable string) (o : t) : t :=
  {| id := id o; clientName := clientName o; clientPhoneNumber := clientPhoneNumber o;
     clientEmailAddress := clientEmailAddress o; products := products o;
     type := type o; pickUpDate := pickUpDate o; deliveryDate := deliveryDate o;
     deliveryAddress := v; reservationDate := reservationDate o;
     note := note o |}.

Definition set_reservationDate (v : nullable Date) (o : t) : t :=
  {| id := id o; clientName := clientName o; clientPhoneNumber := clientPhoneNumber o;
     clientEmailAddress := clientEmailAddress o; products := products o;
     type := type o; pickUpDate := pickUpDate o; deliveryDate := deliveryDate o;
     deliveryAddress := deliveryAddress o; reservationDate := v;
     note := note o |}.

Definition set_note (v : nullable string) (o : t) : t :=
  {| id := id o; clientName := clientName o; clientPhoneNumber := clientPhoneNumber o;
     clientEmailAddress := clientEmailAddress o; products := products o;
     type := type o; pickUpDate := pickUpDate o; deliveryDate := deliveryDate o;
     deliveryAddress := deliveryAddress o; reservationDate := reservationDate o;
     note := v |}.

(** *** Methods: computations on [this] *)

Definition method (A : Type) : Type := t -> completion A * t.

(** A static check called from a method: [this] is not touched. *)
Definition static {A} (c : completion A) : method A :=
  fun this => (c, this).

Definition assign (write : t -> t) : method unit :=
  fun this => (Return tt, write this).

Definition skip : method unit := fun this => (Return tt, this).

Definition thenDo {A B} (m : method A) (k : A -> method B) : method B :=
  fun this =>
    match m this with
    | (Return a, this') => k a this'
    | (Throw e, this') => (Throw e, this')
    | (Hang, this') => (Hang, this')
    end.

Notation "m1 >> m2" := (thenDo m1 (fun _ => m2))
  (at level 62, right associativity).

(** *** Values of JavaScript used by the checks *)

(** [`${s}`] *)
Definition stringOf (s : nullable string) : string :=
  match s with
  | Undefined => "undefined"
  | Null => "null"
  | Value s => s
  end.

(** [a === b] on strings that may be absent. *)
Definition strictEqualString (a b : nullable string) : bool :=
  match a, b with
  | Undefined, Undefined => true
  | Null, Null => true
  | Value x, Value y => String.eqb x y
  | _, _ => false
  end.

(** [keys.includes(x)] *)
Definition includesString (keys : list string) (x : nullable string) : bool :=
  existsb (fun k => strictEqualString x (Value k)) keys.

(** [days.includes(d)] *)
Definition includesDay (days : list Z) (d : Z) : bool :=
  existsb (fun k => k =? d) days.

(** [array[0]] *)
Definition first {A} (l : list A) : nullable A :=
  match l with
  | [] => Undefined
  | x :: _ => Value x
  end.

(** *** The pattern of e-mail addresses *)

Definition localPartChar (c : ascii) : bool :=
  negb (existsb (N.eqb (Regex.code c)) [60; 62; 40; 41; 91; 93; 92; 46; 44; 59; 58; 64; 34]%N
        || Regex.isWhiteSpace c).

Definition domainLabelChar (c : ascii) : bool :=
  (Regex.isLetter c || N.eqb (Regex.code c) 45 || Regex.isDigit c)%bool.

Definition EMAIL_REGEX : Regex.re :=
  let atom := Regex.plus (Regex.Class localPartChar) in
  let dot := Regex.char 46 in
  let quote := Regex.char 34 in
  let anything := Regex.Class (fun c => negb (Regex.isLineTerminator c)) in
  let number := Regex.oneToThree (Regex.Class Regex.isDigit) in
  let localPart :=
    Regex.Alt
      (Regex.Seq atom (Regex.Star (Regex.Seq dot atom)))
      (Regex.sequence [quote; Regex.plus anything; quote]) in
  let domain :=
    Regex.Alt
      (Regex.sequence
         [Regex.char 91; number; dot; number; dot; number; dot; number; Regex.char 93])
      (Regex.Seq
         (Regex.plus (Regex.Seq (Regex.plus (Regex.Class domainLabelChar)) dot))
         (Regex.twoOrMore (Regex.Class Regex.isLetter))) in
  Regex.sequence [localPart; Regex.char 64; domain].

Definition EMAIL_REGEX_test (s : nullable string) : bool :=
  Regex.matches EMAIL_REGEX (stringOf s).

(** *** The engine *)

Section Engine.

Variable timeZoneOffset : Z.
Variable clock : Clock.
Variable AVAILABLE_DAYS_FOR_A_PICK_UP_ORDER : list AvailableDayForAPickUpOrder.

Definition assertClientNameIsValid (clientName : nullable string) : completion unit :=
  if isEmptyString clientName
  then Throw (InvalidOrderError "client name has to be defined")
  else Return tt.

Definition assertClientPhoneNumberIsValid (clientPhoneNumber : nullable string)
  : completion unit :=
  if isEmptyString clientPhoneNumber
  then Throw (InvalidOrderError "client phone number has to be defined")
  else Return tt.

Definition assertClientEmailAddressIsValid (clientEmailAddress : nullable string)
  : completion unit :=
  if isEmptyString clientEmailAddress
  then Throw (InvalidOrderError "client email address has to be defined")
  else if negb (EMAIL_REGEX_test clientEmailAddress)
  then Throw (InvalidOrderError
                ("invalid client email address " ++ stringOf clientEmailAddress))
  else Return tt.

Definition assertTypeIsValid (type : nullable string) (isAdmin : bool)
  : completion unit :=
  if isEmptyString type
  then Throw (InvalidOrderError "order type has to be defined")
  else if negb (includesString OrderType.keys type)
  then Throw (InvalidOrderError ("unknown order type " ++ stringOf type))
  else if strictEqualString type (Value OrderType.RESERVATION) && negb isAdmin
  then Throw (InvalidUserError "RESERVATION order type requires to be ADMIN")
  else Return tt.

Definition assertProductsAreValid (products : list ProductIdWithQuantity.t)
  : completion unit :=
  if isEmptyArray products
  then Throw (InvalidOrderError "an order must have at least one product")
  else
    forEach
      (fun productWithQuantity =>
         if ProductIdWithQuantity.quantity productWithQuantity <? 1
         then Throw (InvalidOrderError
                       ("product quantity "
                        ++ numberToString (ProductIdWithQuantity.quantity productWithQuantity)
                        ++ " has to be positive"))
         else Return tt)
      products.

(** The test each of the three date checks runs over the closing
    periods, with the message of the check. *)
Definition assertOutsideClosingPeriods
  (closingPeriods : list ClosingPeriodInterface.t) (date : Date) (message : string)
  : completion unit :=
  forEach
    (fun closingPeriod =>
       if (JsDate.getTime (ClosingPeriodInterface.startDate closingPeriod)
           <=? JsDate.getTime date)
          && (JsDate.getTime date
              <=? JsDate.getTime (ClosingPeriodInterface.endDate closingPeriod))
       then Throw (InvalidOrderError message)
       else Return tt)
    closingPeriods.

Definition assertPickUpDateIsValid
  (type : nullable string) (closingPeriods : list ClosingPeriodInterface.t)
  (pickUpDate : nullable Date) : completion unit :=
  if strictEqualString type (Value OrderType.PICK_UP) then
    match pickUpDate with
    | Value pickUpDate =>
        let now := getCurrentDateAtCanadaEasternTimeZone clock in
        if isFirstDateBeforeSecondDateIgnoringHours timeZoneOffset pickUpDate now
        then Throw (InvalidOrderError
                      ("pick-up date " ++ JsDate.toISOString pickUpDate
                       ++ " has to be in the future"))
        else if includesDay CLOSING_DAYS (JsDate.getDay timeZoneOffset pickUpDate)
        then Throw (InvalidOrderError
                      ("pick-up date " ++ JsDate.toISOString pickUpDate
                       ++ " has to be between a Tuesday and a Saturday"))
        else
          assertOutsideClosingPeriods closingPeriods pickUpDate
            ("pick-up date " ++ JsDate.toISOString pickUpDate
             ++ " has to be outside closing periods")
    | _ =>
        Throw (InvalidOrderError
                 "a pick-up date has to be defined when order type is pick-up")
    end
  else Return tt.

(** The [do ... while] loop of [getNextDateHavingDay]; [fuel] bounds
    the number of passes through its body. *)
Fixpoint getNextDateHavingDay_loop
  (fuel : nat) (day : nullable Z) (firstAvailableDate : Date) : completion Date :=
  match fuel with
  | O => Hang
  | S fuel =>
      let firstAvailableDate := JsDate.setDateToFollowingDay firstAvailableDate in
      if negb (strictEqualNumber (Value (JsDate.getDay timeZoneOffset firstAvailableDate)) day)
      then getNextDateHavingDay_loop fuel day firstAvailableDate
      else Return firstAvailableDate
  end.

Definition getNextDateHavingDay (fuel : nat) (day : nullable Z) : completion Date :=
  getNextDateHavingDay_loop fuel day (newDate clock).

Definition assertPickUpDateIsEqualOrAfterTheFirstAvailableDay
  (fuel : nat) (type : nullable string) (pickUpDate : nullable Date)
  : completion unit :=
  if strictEqualString type (Value OrderType.PICK_UP) then
    match pickUpDate with
    | Value pickUpDate =>
        let now := getCurrentDateAtCanadaEasternTimeZone clock in
        let now :=
          if MAXIMUM_HOUR_TO_PLACE_A_PICK_UP_ORDER_BEFORE_BEING_CONSIDERED_AS_PLACED_THE_FOLLOWING_DAY
             <=? JsDate.getHours timeZoneOffset now
          then JsDate.setDateToFollowingDay now
          else now in
        let numberOfDaysBetweenNowAndPickUpDate :=
          getNumberOfDaysBetweenFirstDateAndSecondDate timeZoneOffset now pickUpDate in
        let isPickUpDateInTheNextSixDays :=
          numberOfDaysBetweenNowAndPickUpDate <? NUMBER_OF_DAYS_IN_A_WEEK in
        let currentDay := JsDate.getDay timeZoneOffset now in
        if isPickUpDateInTheNextSixDays && (currentDay - JsDate.getDay timeZoneOffset pickUpDate =? 0)
        then Throw (InvalidOrderError
                      ("pick-up date " ++ JsDate.toISOString pickUpDate
                       ++ " cannot be same day as now"))
        else
          let firstAvailableDay :=
            first
              (map firstAvailableDay
                 (filter
                    (fun availableDayForAPickUpOrder =>
                       whenOrderIsPlacedOn availableDayForAPickUpOrder =? currentDay)
                    AVAILABLE_DAYS_FOR_A_PICK_UP_ORDER)) in
          andThen (getNextDateHavingDay fuel firstAvailableDay)
            (fun firstAvailableDate =>
               if isFirstDateBeforeSecondDateIgnoringHours timeZoneOffset
                    pickUpDate firstAvailableDate
               then
                 let numberOfDaysBetweenNowAndFirstAvailableDate :=
                   getNumberOfDaysBetweenFirstDateAndSecondDate timeZoneOffset
                     now firstAvailableDate in
                 Throw (InvalidOrderError
                          ("pick-up date " ++ JsDate.toISOString pickUpDate
                           ++ " has to be at least "
                           ++ numberToString numberOfDaysBetweenNowAndFirstAvailableDate
                           ++ " days after now"))
               else Return tt)
    | _ => Throw TypeError  (* a method of [pickUpDate], which is no date *)
    end
  else Return tt.

Definition assertDeliveryAddressIsValid
  (type : nullable string) (deliveryAddress : nullable string) : completion unit :=
  if strictEqualString type (Value OrderType.DELIVERY) && isEmptyString deliveryAddress
  then Throw (InvalidOrderError
                "a delivery address has to be defined when order type is delivery")
  else Return tt.

Definition assertDeliveryDateIsValid
  (type : nullable string) (closingPeriods : list ClosingPeriodInterface.t)
  (deliveryDate : nullable Date) : completion unit :=
  if strictEqualString type (Value OrderType.DELIVERY) then
    match deliveryDate with
    | Value deliveryDate =>
        let now := getCurrentDateAtCanadaEasternTimeZone clock in
        if isFirstDateBeforeSecondDateIgnoringHours timeZoneOffset deliveryDate now
        then Throw (InvalidOrderError
                      ("delivery date " ++ JsDate.toISOString deliveryDate
                       ++ " has to be in the future"))
        else
          assertOutsideClosingPeriods closingPeriods deliveryDate
            ("delivery date " ++ JsDate.toISOString deliveryDate
             ++ " has to be outside closing periods") ;;
          if negb (JsDate.getDay timeZoneOffset deliveryDate =? DELIVERY_DAY)
          then Throw (InvalidOrderError
                        ("delivery date " ++ JsDate.toISOString deliveryDate
                         ++ " has to be a Thursday"))
          else Return tt
    | _ =>
        Throw (InvalidOrderError
                 "a delivery date has to be defined when order type is delivery")
    end
  else Return tt.

Definition assertDeliveryDateIsEqualOrAfterTheFirstAvailableDay
  (type : nullable string) (deliveryDate : nullable Date) : completion unit :=
  if strictEqualString type (Value OrderType.DELIVERY) then
    match deliveryDate with
    | Value deliveryDate =>
        let now := getCurrentDateAtCanadaEasternTimeZone clock in
        let numberOfDaysBetweenNowAndDeliveryDate :=
          getNumberOfDaysBetweenFirstDateAndSecondDate timeZoneOffset now deliveryDate in
        let isDeliveryDateInTheSameWeekAsNow :=
          (numberOfDaysBetweenNowAndDeliveryDate <? NUMBER_OF_DAYS_IN_A_WEEK)
          && (JsDate.getDay timeZoneOffset now <=? JsDate.getDay timeZoneOffset deliveryDate) in
        if isDeliveryDateInTheSameWeekAsNow
           && ((MAXIMUM_DAY_FOR_DELIVERY_SAME_WEEK <? JsDate.getDay timeZoneOffset now)
               || ((JsDate.getDay timeZoneOffset now =? MAXIMUM_DAY_FOR_DELIVERY_SAME_WEEK)
                   && (MAXIMUM_HOUR_FOR_DELIVERY_SAME_WEEK <=? JsDate.getHours timeZoneOffset now)))
        then Throw (InvalidOrderError
                      ("delivery date " ++ JsDate.toISOString deliveryDate
                       ++ " has to be one of the next available Thursday"))
        else Return tt
    | _ => Throw TypeError  (* a method of [deliveryDate], which is no date *)
    end
  else Return tt.

Definition assertReservationDateIsValid
  (type : nullable string) (closingPeriods : list ClosingPeriodInterface.t)
  (reservationDate : nullable Date) : completion unit :=
  if strictEqualString type (Value OrderType.RESERVATION) then
    match reservationDate with
    | Value reservationDate =>
        let now := getCurrentDateAtCanadaEasternTimeZone clock in
        if isFirstDateBeforeSecondDateIgnoringHours timeZoneOffset reservationDate now
        then Throw (InvalidOrderError
                      ("reservation date " ++ JsDate.toISOString reservationDate
                       ++ " has to be in the future"))
        else if includesDay CLOSING_DAYS (JsDate.getDay timeZoneOffset reservationDate)
        then Throw (InvalidOrderError
                      ("reservation date " ++ JsDate.toISOString reservationDate
                       ++ " has to be between a Tuesday and a Saturday"))
        else
          assertOutsideClosingPeriods closingPeriods reservationDate
            ("reservation date " ++ JsDate.toISOString reservationDate
             ++ " has to be outside closing periods")
    | _ =>
        Throw (InvalidOrderError
                 "a reservation date has to be defined when order type is reservation")
    end
  else Return tt.

Definition toProductWithQuantity
  (productIdWithQuantity : ProductIdWithQuantity.t) (activeProducts : list Product.t)
  : completion ProductWithQuantity.t :=
  match
    find (fun product =>
            Product.id product =? ProductIdWithQuantity.productId productIdWithQuantity)
         activeProducts
  with
  | None =>
      Throw (InvalidOrderError
               ("product with id "
                ++ numberToString (ProductIdWithQuantity.productId productIdWithQuantity)
                ++ " not found"))
  | Some foundProduct =>
      Return {| ProductWithQuantity.product := foundProduct;
                ProductWithQuantity.quantity :=
                  ProductIdWithQuantity.quantity productIdWithQuantity |}
  end.

Definition bindContactDetails (command : NewOrderCommand.t) : method unit :=
  static (assertClientNameIsValid (NewOrderCommand.clientName command)) >>
  static (assertClientPhoneNumberIsValid (NewOrderCommand.clientPhoneNumber command)) >>
  static (assertClientEmailAddressIsValid (NewOrderCommand.clientEmailAddress command)) >>
  assign (set_clientName (NewOrderCommand.clientName command)) >>
  assign (set_clientPhoneNumber (NewOrderCommand.clientPhoneNumber command)) >>
  assign (set_clientEmailAddress (NewOrderCommand.clientEmailAddress command)).

Definition bindProductSelection
  (command : AnyOrderCommand.t) (activeProducts : list Product.t) : method unit :=
  static (assertProductsAreValid (AnyOrderCommand.products command)) >>
  thenDo
    (static (mapThrowing
               (fun productIdWithQuantity =>
                  toProductWithQuantity productIdWithQuantity activeProducts)
               (AnyOrderCommand.products command)))
    (fun resolved => assign (set_products (Value resolved))).

Definition bindOrderTypeSelection
  (command : AnyOrderCommand.t) (closingPeriods : list ClosingPeriodInterface.t)
  (isAdmin : bool) : method unit :=
  static (assertTypeIsValid (AnyOrderCommand.type command) isAdmin) >>
  static (assertPickUpDateIsValid (AnyOrderCommand.type command) closingPeriods
            (AnyOrderCommand.pickUpDate command)) >>
  static (assertDeliveryDateIsValid (AnyOrderCommand.type command) closingPeriods
            (AnyOrderCommand.deliveryDate command)) >>
  static (assertDeliveryAddressIsValid (AnyOrderCommand.type command)
            (AnyOrderCommand.deliveryAddress command)) >>
  static (assertReservationDateIsValid (AnyOrderCommand.type command) closingPeriods
            (AnyOrderCommand.reservationDate command)) >>
  assign (set_type (AnyOrderCommand.type command)) >>
  assign (set_pickUpDate Null) >>
  assign (set_deliveryDate Null) >>
  assign (set_deliveryAddress Null) >>
  assign (set_reservationDate Null) >>
  fun this =>
    if strictEqualString (type this) (Value OrderType.PICK_UP)
    then assign (set_pickUpDate (AnyOrderCommand.pickUpDate command)) this
    else if strictEqualString (type this) (Value OrderType.DELIVERY)
    then (assign (set_deliveryDate (AnyOrderCommand.deliveryDate command)) >>
          assign (set_deliveryAddress (AnyOrderCommand.deliveryAddress command))) this
    else if strictEqualString (type this) (Value OrderType.RESERVATION)
    then assign (set_reservationDate (AnyOrderCommand.reservationDate command)) this
    else skip this.

(** The constructor on an empty [order] argument, which is how
    [factory.create] calls it. *)
Definition construct
  (fuel : nat) (command : NewOrderCommand.t) (activeProducts : list Product.t)
  (closingPeriods : list ClosingPeriodInterface.t) (isAdmin : bool) : method unit :=
  assign (set_id Undefined) >>
  bindContactDetails command >>
  bindProductSelection (inl command) activeProducts >>
  bindOrderTypeSelection (inl command) closingPeriods isAdmin >>
  assign (set_note (NewOrderCommand.note command)) >>
  if negb isAdmin
  then
    static (assertPickUpDateIsEqualOrAfterTheFirstAvailableDay fuel
              (NewOrderCommand.type command) (NewOrderCommand.pickUpDate command)) >>
    static (assertDeliveryDateIsEqualOrAfterTheFirstAvailableDay
              (NewOrderCommand.type command) (NewOrderCommand.deliveryDate command))
  else skip.

(** [Order.factory.create]: the new object when the constructor
    returns. *)
Definition create
  (fuel : nat) (command : NewOrderCommand.t) (activeProducts : list Product.t)
  (closingPeriods : list ClosingPeriodInterface.t) (isAdmin : bool) : completion t :=
  match construct fuel command activeProducts closingPeriods isAdmin blank with
  | (Return _, this) => Return this
  | (Throw e, _) => Throw e
  | (Hang, _) => Hang
  end.

Definition updateWith
  (command : UpdateOrderCommand.t) (activeProducts : list Product.t)
  (closingPeriods : list ClosingPeriodInterface.t) : method unit :=
  fun this =>
    if negb (strictEqualNumber (id this) (UpdateOrderCommand.orderId command))
    then
      (Throw (InvalidOrderError
                ("existing order id " ++ nullableNumberToString (id this)
                 ++ " does not match command order id "
                 ++ nullableNumberToString (UpdateOrderCommand.orderId command))),
       this)
    else
      let isAdmin := true in
      (bindProductSelection (inr command) activeProducts >>
       bindOrderTypeSelection (inr command) closingPeriods isAdmin >>
       assign (set_note (UpdateOrderCommand.note command))) this.

End Engine.

End Order.

(** ** Closing periods *)

Module NewClosingPeriodCommand.
Record t : Type := { startDate : nullable Date; endDate : nullable Date }.
End NewClosingPeriodCommand.

Module ClosingPeriod.

Record t : Type := {
  id : nullable Z;
  startDate : nullable Date;
  endDate : nullable Date
}.

Section Factory.

Variable zone : TimeZone.
Variable clock : Clock.

Definition isBeforeNowIgnoringHours (date : Date) : bool :=
  let now := newDate clock in
  let now :=
    ZonedDate.setHours zone now
      (ZonedDate.getHours zone date) (ZonedDate.getMinutes zone date)
      (ZonedDate.getSeconds zone date) (ZonedDate.getMilliseconds zone date) in
  ZonedDate.getTime date <? ZonedDate.getTime now.

Definition assertStartDateIsValid (startDate : nullable Date) : completion unit :=
  match startDate with
  | Value startDate =>
      if isBeforeNowIgnoringHours startDate
      then Throw (InvalidClosingPeriodError "start date has to be in the future")
      else Return tt
  | _ => Throw (InvalidClosingPeriodError "start date has to be defined")
  end.

Definition assertEndDateIsValid (startDate endDate : nullable Date) : completion unit :=
  match endDate with
  | Value endDate =>
      if isBeforeNowIgnoringHours endDate
      then Throw (InvalidClosingPeriodError "end date has to be in the future")
      else
        match startDate with
        | Value startDate =>
            if ZonedDate.getTime endDate <? ZonedDate.getTime startDate
            then Throw (InvalidClosingPeriodError
                          "end date has to be greater than start date")
            else Return tt
        | _ => Throw TypeError  (* [startDate.getTime()], on no date *)
        end
  | _ => Throw (InvalidClosingPeriodError "end date has to be defined")
  end.

(** [ClosingPeriod.factory.create]: the constructor checks, then
    assigns the two dates; [id] is left unassigned. *)
Definition create (command : NewClosingPeriodCommand.t) : completion t :=
  assertStartDateIsValid (NewClosingPeriodCommand.startDate command) ;;
  assertEndDateIsValid (NewClosingPeriodCommand.startDate command)
    (NewClosingPeriodCommand.endDate command) ;;
  Return {| id := Undefined;
            startDate := NewClosingPeriodCommand.startDate command;
            endDate := NewClosingPeriodCommand.endDate command |}.

End Factory.

End ClosingPeriod.

(** ** Notions used to state the properties *)

(** The instant the pick-up rule reasons from: the business clock, moved
    to the following calendar day at 19:00 or later. *)
Definition effectiveNow (timeZoneOffset : Z) (clock : Clock) : Date :=
  let now := getCurrentDateAtCanadaEasternTimeZone clock in
  if 19 <=? JsDate.getHours timeZoneOffset now then now + msPerDay else now.

(** Number of days from a day of weekday [fromDay] to the next day of
    weekday [day], at least one and at most seven. *)
Definition daysUntilNext (fromDay day : Z) : Z := (day - fromDay - 1) mod 7 + 1.

(** The next calendar occurrence of weekday [day] strictly after
    [from], at the time of day of [from]. *)
Definition nextOccurrence (timeZoneOffset : Z) (from : Date) (day : Z) : Date :=
  from + daysUntilNext (JsDate.getDay timeZoneOffset from) day * msPerDay.

(** The entry of the pick-up table for a placement weekday. *)
Definition tableEntry (table : list AvailableDayForAPickUpOrder) (placedOn : Z)
  : option Z :=
  option_map firstAvailableDay
    (find (fun entry => whenOrderIsPlacedOn entry =? placedOn) table).

(** The table the expectations of [order.spec.ts] determine, used for
    the worked examples. *)
Definition tableOfTheTestSuite : list AvailableDayForAPickUpOrder :=
  [ {| whenOrderIsPlacedOn := Day.SUNDAY; firstAvailableDay := Day.TUESDAY |};
    {| whenOrderIsPlacedOn := Day.MONDAY; firstAvailableDay := Day.THURSDAY |};
    {| whenOrderIsPlacedOn := Day.TUESDAY; firstAvailableDay := Day.THURSDAY |};
    {| whenOrderIsPlacedOn := Day.WEDNESDAY; firstAvailableDay := Day.SATURDAY |};
    {| whenOrderIsPlacedOn := Day.THURSDAY; firstAvailableDay := Day.TUESDAY |};
    {| whenOrderIsPlacedOn := Day.FRIDAY; firstAvailableDay := Day.TUESDAY |};
    {| whenOrderIsPlacedOn := Day.SATURDAY; firstAvailableDay := Day.TUESDAY |} ].

(** Eastern daylight time, the zone of the dates of the test suite. *)
Definition easternDaylightTime : Z := - 4 * msPerHour.

(** Both clock readings at the same instant. *)
Definition clockAt (now : Date) : Clock :=
  {| newDate := now; getCurrentDateAtCanadaEasternTimeZone := now |}.

(** A local date and time of April 2030 in the zone of the test suite
    (the first of April 2030 is a Monday). *)
Definition april2030 (dayOfMonth hours minutes seconds : Z) : Date :=
  1901246400000 + (dayOfMonth - 1) * msPerDay
  + hours * msPerHour + minutes * msPerMinute + seconds * msPerSecond.

Definition fakeProduct : Product.t :=
  {| Product.id := 42; Product.name := "fake product"; Product.description := "";
     Product.price := 1; Product.status := "ACTIVE" |}.

Definition johnDoeOrders (type : string) (date : Date) : NewOrderCommand.t :=
  {| NewOrderCommand.clientName := Value "John Doe";
     NewOrderCommand.clientPhoneNumber := Value "514-123-4567";
     NewOrderCommand.clientEmailAddress := Value "test@example.org";
     NewOrderCommand.products :=
       [ {| ProductIdWithQuantity.productId := 42; ProductIdWithQuantity.quantity := 1 |} ];
     NewOrderCommand.type := Value type;
     NewOrderCommand.pickUpDate := Value date;
     NewOrderCommand.deliveryDate := Value date;
     NewOrderCommand.deliveryAddress := Value "Montreal";
     NewOrderCommand.reservationDate := Value date;
     NewOrderCommand.note := Value "a note" |}.


(** *** The checks and the writes of the binding methods

    Each binding method runs its checks and then assigns; these are the
    two halves, used to state what a call leaves behind. *)

Definition contactDetailsChecks (command : NewOrderCommand.t) : completion unit :=
  Order.assertClientNameIsValid (NewOrderCommand.clientName command) ;;
  Order.assertClientPhoneNumberIsValid (NewOrderCommand.clientPhoneNumber command) ;;
  Order.assertClientEmailAddressIsValid (NewOrderCommand.clientEmailAddress command).

Definition withContactDetails (command : NewOrderCommand.t) (o : Order.t) : Order.t :=
  Order.set_clientEmailAddress (NewOrderCommand.clientEmailAddress command)
    (Order.set_clientPhoneNumber (NewOrderCommand.clientPhoneNumber command)
       (Order.set_clientName (NewOrderCommand.clientName command) o)).

(** The product stage: [assertProductsAreValid], then the resolution of
    every product id. *)
Definition productSelectionChecks
  (products : list ProductIdWithQuantity.t) (activeProducts : list Product.t)
  : completion (list ProductWithQuantity.t) :=
  Order.assertProductsAreValid products ;;
  mapThrowing (fun p => Order.toProductWithQuantity p activeProducts) products.

Definition orderTypeSelectionChecks
  (timeZoneOffset : Z) (clock : Clock) (command : AnyOrderCommand.t)
  (closingPeriods : list ClosingPeriodInterface.t) (isAdmin : bool) : completion unit :=
  Order.assertTypeIsValid (AnyOrderCommand.type command) isAdmin ;;
  Order.assertPickUpDateIsValid timeZoneOffset clock (AnyOrderCommand.type command)
    closingPeriods (AnyOrderCommand.pickUpDate command) ;;
  Order.assertDeliveryDateIsValid timeZoneOffset clock (AnyOrderCommand.type command)
    closingPeriods (AnyOrderCommand.deliveryDate command) ;;
  Order.assertDeliveryAddressIsValid (AnyOrderCommand.type command)
    (AnyOrderCommand.deliveryAddress command) ;;
  Order.assertReservationDateIsValid timeZoneOffset clock (AnyOrderCommand.type command)
    closingPeriods (AnyOrderCommand.reservationDate command).

Definition isType (type : nullable string) (member : string) : bool :=
  Order.strictEqualString type (Value member).

Definition withOrderTypeSelection (command : AnyOrderCommand.t) (o : Order.t) : Order.t :=
  let type := AnyOrderCommand.type command in
  {| Order.id := Order.id o;
     Order.clientName := Order.clientName o;
     Order.clientPhoneNumber := Order.clientPhoneNumber o;
     Order.clientEmailAddress := Order.clientEmailAddress o;
     Order.products := Order.products o;
     Order.type := type;
     Order.pickUpDate :=
       if isType type OrderType.PICK_UP then AnyOrderCommand.pickUpDate command else Null;
     Order.deliveryDate :=
       if isType type OrderType.PICK_UP then Null
       else if isType type OrderType.DELIVERY then AnyOrderCommand.deliveryDate command
       else Null;
     Order.deliveryAddress :=
       if isType type OrderType.PICK_UP then Null
       else if isType type OrderType.DELIVERY then AnyOrderCommand.deliveryAddress command
       else Null;
     Order.reservationDate :=
       if isType type OrderType.PICK_UP then Null
       else if isType type OrderType.DELIVERY then Null
       else if isType type OrderType.RESERVATION then AnyOrderCommand.reservationDate command
       else Null;
     Order.note := Order.note o |}.

Definition isNull {A} (x : nullable A) : bool :=
  match x with Null => true | _ => false end.

(** The date of the type of the order is there (with the address for a
    delivery) and every other date field is [null]. *)
Definition fieldsMatchType (o : Order.t) : bool :=
  if isType (Order.type o) OrderType.PICK_UP then
    negb (isAbsent (Order.pickUpDate o)) && isNull (Order.deliveryDate o)
    && isNull (Order.deliveryAddress o) && isNull (Order.reservationDate o)
  else if isType (Order.type o) OrderType.DELIVERY then
    isNull (Order.pickUpDate o) && negb (isAbsent (Order.deliveryDate o))
    && negb (isEmptyString (Order.deliveryAddress o)) && isNull (Order.reservationDate o)
  else if isType (Order.type o) OrderType.RESERVATION then
    isNull (Order.pickUpDate o) && isNull (Order.deliveryDate o)
    && isNull (Order.deliveryAddress o) && negb (isAbsent (Order.reservationDate o))
  else false.

(** The object [create] returns for a command whose products resolved
    to [resolved]. *)
Definition newOrder (command : NewOrderCommand.t) (resolved : list ProductWithQuantity.t)
  : Order.t :=
  Order.set_note (NewOrderCommand.note command)
    (withOrderTypeSelection (inl command)
       (Order.set_products (Value resolved)
          (withContactDetails command (Order.set_id Undefined Order.blank)))).

(** The two checks the constructor adds for a caller who is not an
    admin. *)
Definition leadTimeChecks
  (timeZoneOffset : Z) (clock : Clock) (table : list AvailableDayForAPickUpOrder)
  (fuel : nat) (command : NewOrderCommand.t) : completion unit :=
  Order.assertPickUpDateIsEqualOrAfterTheFirstAvailableDay timeZoneOffset clock table fuel
    (NewOrderCommand.type command) (NewOrderCommand.pickUpDate command) ;;
  Order.assertDeliveryDateIsEqualOrAfterTheFirstAvailableDay timeZoneOffset clock
    (NewOrderCommand.type command) (NewOrderCommand.deliveryDate command).

(** The order [updateWith] leaves when every check passes. *)
Definition updatedOrder
  (command : UpdateOrderCommand.t) (resolved : list ProductWithQuantity.t) (this : Order.t)
  : Order.t :=
  Order.set_note (UpdateOrderCommand.note command)
    (withOrderTypeSelection (inr command) (Order.set_products (Value resolved) this)).

(** An order as [copy] rebuilds it from the store, and an update of it
    whose products resolve but whose pick-up date is before today. *)
Definition storedOrder : Order.t :=
  {| Order.id := Value 7;
     Order.clientName := Value "John Doe";
     Order.clientPhoneNumber := Value "514-123-4567";
     Order.clientEmailAddress := Value "test@example.org";
     Order.products :=
       Value [ {| ProductWithQuantity.product := fakeProduct;
                  ProductWithQuantity.quantity := 1 |} ];
     Order.type := Value OrderType.PICK_UP;
     Order.pickUpDate := Value (april2030 4 12 0 0);
     Order.deliveryDate := Null;
     Order.deliveryAddress := Null;
     Order.reservationDate := Null;
     Order.note := Value "a note" |}.

Definition lateUpdate : UpdateOrderCommand.t :=
  {| UpdateOrderCommand.orderId := Value 7;
     UpdateOrderCommand.products :=
       [ {| ProductIdWithQuantity.productId := 42; ProductIdWithQuantity.quantity := 5 |} ];
     UpdateOrderCommand.type := Value OrderType.PICK_UP;
     UpdateOrderCommand.pickUpDate := Value (april2030 1 12 0 0);
     UpdateOrderCommand.deliveryDate := Undefined;
     UpdateOrderCommand.deliveryAddress := Undefined;
     UpdateOrderCommand.reservationDate := Undefined;
     UpdateOrderCommand.note := Value "another note" |}.

(** An update of [storedOrder] into a delivery on Thursday 4 April
    2030. *)
Definition sameWeekDeliveryUpdate : UpdateOrderCommand.t :=
  {| UpdateOrderCommand.orderId := Value 7;
     UpdateOrderCommand.products :=
       [ {| ProductIdWithQuantity.productId := 42; ProductIdWithQuantity.quantity := 2 |} ];
     UpdateOrderCommand.type := Value OrderType.DELIVERY;
     UpdateOrderCommand.pickUpDate := Undefined;
     UpdateOrderCommand.deliveryDate := Value (april2030 4 19 0 0);
     UpdateOrderCommand.deliveryAddress := Value "Montreal";
     UpdateOrderCommand.reservationDate := Undefined;
     UpdateOrderCommand.note := Undefined |}.

(** A product id of a command resolves when an active product has
    it. *)
Definition resolves (activeProducts : list Product.t) (p : ProductIdWithQuantity.t) : bool :=
  existsb (fun product => Product.id product =? ProductIdWithQuantity.productId p)
    activeProducts.

(** The snapshot [resolved] is the one of the line [p]: a product of
    the active list with the id of the line, in the quantity of the
    line. *)
Definition snapshotOf (activeProducts : list Product.t)
  (p : ProductIdWithQuantity.t) (resolved : ProductWithQuantity.t) : Prop :=
  In (ProductWithQuantity.product resolved) activeProducts
  /\ Product.id (ProductWithQuantity.product resolved) = ProductIdWithQuantity.productId p
  /\ ProductWithQuantity.quantity resolved = ProductIdWithQuantity.quantity p.

(** The errors of the order validations proper. *)
Definition isInvalidOrderError (e : Error) : Prop :=
  exists message, e = InvalidOrderError message.

(** Proof steps for a check that ends in a [Throw] of an InvalidOrder
    error or in a [Return]. *)
Ltac invalid_order :=
  match goal with
  | |- isInvalidOrderError (InvalidOrderError ?m) => exists m; reflexivity
  end.

Ltac settle_outcome :=
  split; [discriminate | intros ? H; first [discriminate H | injection H as <-; invalid_order]].

(** The command of [johnDoeOrders] with the client name left empty. *)
Definition namelessOrders (type : string) (date : Date) : NewOrderCommand.t :=
  {| NewOrderCommand.clientName := Value "";
     NewOrderCommand.clientPhoneNumber := Value "514-123-4567";
     NewOrderCommand.clientEmailAddress := Value "test@example.org";
     NewOrderCommand.products :=
       [ {| ProductIdWithQuantity.productId := 42; ProductIdWithQuantity.quantity := 1 |} ];
     NewOrderCommand.type := Value type;
     NewOrderCommand.pickUpDate := Value date;
     NewOrderCommand.deliveryDate := Value date;
     NewOrderCommand.deliveryAddress := Value "Montreal";
     NewOrderCommand.reservationDate := Value date;
     NewOrderCommand.note := Value "a note" |}.

(** An update of order 7 into a pick-up of the given product lines. *)
Definition pickUpUpdateOf (products : list ProductIdWithQuantity.t) (date : Date)
  : UpdateOrderCommand.t :=
  {| UpdateOrderCommand.orderId := Value 7;
     UpdateOrderCommand.products := products;
     UpdateOrderCommand.type := Value OrderType.PICK_UP;
     UpdateOrderCommand.pickUpDate := Value date;
     UpdateOrderCommand.deliveryDate := Undefined;
     UpdateOrderCommand.deliveryAddress := Undefined;
     UpdateOrderCommand.reservationDate := Undefined;
     UpdateOrderCommand.note := Undefined |}.

(** The date is outside every closing period, bounds included in the
    period, compared as instants. *)
Definition outsideClosingPeriods
  (closingPeriods : list ClosingPeriodInterface.t) (date : Date) : Prop :=
  forall period, In period closingPeriods ->
                 ~ (ClosingPeriodInterface.startDate period <= date
                    <= ClosingPeriodInterface.endDate period).

(** The date is inside one of the closing periods. *)
Definition insideAClosingPeriod
  (closingPeriods : list ClosingPeriodInterface.t) (date : Date) : Prop :=
  exists period, In period closingPeriods
                 /\ ClosingPeriodInterface.startDate period <= date
                    <= ClosingPeriodInterface.endDate period.

(** The calendar day of the business clock, the day the date checks
    call today. *)
Definition currentDay (timeZoneOffset : Z) (clock : Clock) : Z :=
  JsDate.calendarDay timeZoneOffset (getCurrentDateAtCanadaEasternTimeZone clock).

(** An update command that asks for what a create command asks:
    the same products, type, dates, address and note. *)
Definition sameSelection (created : NewOrderCommand.t) (update : UpdateOrderCommand.t)
  : Prop :=
  UpdateOrderCommand.products update = NewOrderCommand.products created
  /\ UpdateOrderCommand.type update = NewOrderCommand.type created
  /\ UpdateOrderCommand.pickUpDate update = NewOrderCommand.pickUpDate created
  /\ UpdateOrderCommand.deliveryDate update = NewOrderCommand.deliveryDate created
  /\ UpdateOrderCommand.deliveryAddress update = NewOrderCommand.deliveryAddress created
  /\ UpdateOrderCommand.reservationDate update = NewOrderCommand.reservationDate created
  /\ UpdateOrderCommand.note update = NewOrderCommand.note created.

(** The create command with the dates and the address of the types it
    does not have left out. *)
Definition withoutFieldsOfOtherTypes (command : NewOrderCommand.t) : NewOrderCommand.t :=
  let type := NewOrderCommand.type command in
  {| NewOrderCommand.clientName := NewOrderCommand.clientName command;
     NewOrderCommand.clientPhoneNumber := NewOrderCommand.clientPhoneNumber command;
     NewOrderCommand.clientEmailAddress := NewOrderCommand.clientEmailAddress command;
     NewOrderCommand.products := NewOrderCommand.products command;
     NewOrderCommand.type := type;
     NewOrderCommand.pickUpDate :=
       if isType type OrderType.PICK_UP
       then NewOrderCommand.pickUpDate command else Undefined;
     NewOrderCommand.deliveryDate :=
       if isType type OrderType.DELIVERY
       then NewOrderCommand.deliveryDate command else Undefined;
     NewOrderCommand.deliveryAddress :=
       if isType type OrderType.DELIVERY
       then NewOrderCommand.deliveryAddress command else Undefined;
     NewOrderCommand.reservationDate :=
       if isType type OrderType.RESERVATION
       then NewOrderCommand.reservationDate command else Undefined;
     NewOrderCommand.note := NewOrderCommand.note command |}.

(** The strings a pattern stands for: what [Regex.matches] decides. *)
Inductive denotes : Regex.re -> string -> Prop :=
| denotes_epsilon : denotes Regex.Epsilon ""
| denotes_class (member : ascii -> bool) (c : ascii) :
    member c = true -> denotes (Regex.Class member) (String c "")
| denotes_seq (r1 r2 : Regex.re) (s1 s2 : string) :
    denotes r1 s1 -> denotes r2 s2 -> denotes (Regex.Seq r1 r2) (s1 ++ s2)
| denotes_alt_l (r1 r2 : Regex.re) (s : string) :
    denotes r1 s -> denotes (Regex.Alt r1 r2) s
| denotes_alt_r (r1 r2 : Regex.re) (s : string) :
    denotes r2 s -> denotes (Regex.Alt r1 r2) s
| denotes_star_nil (r : Regex.re) : denotes (Regex.Star r) ""
| denotes_star_more (r : Regex.re) (s1 s2 : string) :
    denotes r s1 -> denotes (Regex.Star r) s2 -> denotes (Regex.Star r) (s1 ++ s2).

(** Every character of the string is in the class. *)
Fixpoint allChars (member : ascii -> bool) (s : string) : bool :=
  match s with
  | EmptyString => true
  | String c rest => member c && allChars member rest
  end.


(** A string that is not empty, of characters of the class. *)
Definition wordOf (member : ascii -> bool) (s : string) : Prop :=
  s <> "" /\ allChars member s = true.

(** The string of the single character of code [n]. *)
Definition charOf (n : N) : string := String (ascii_of_N n) "".

(** The atoms of a local part after the first, each behind its dot. *)
Fixpoint dotTail (atoms : list string) : string :=
  match atoms with
  | [] => ""
  | atom :: rest => "." ++ atom ++ dotTail rest
  end.

(** The labels of a domain, each followed by its dot. *)
Fixpoint labelled (labels : list string) : string :=
  match labels with
  | [] => ""
  | label :: rest => label ++ "." ++ labelled rest
  end.

(** One to three digits. *)
Definition isShortNumber (s : string) : Prop :=
  allChars Regex.isDigit s = true /\ (1 <= String.length s <= 3)%nat.

(** The local parts of the pattern: atoms joined by dots, or anything
    but line terminators between two quotes. *)
Definition isLocalPart (s : string) : Prop :=
  (exists atom atoms,
      s = atom ++ dotTail atoms
      /\ wordOf Order.localPartChar atom
      /\ Forall (wordOf Order.localPartChar) atoms)
  \/ (exists body,
         s = charOf 34 ++ body ++ charOf 34
         /\ wordOf (fun c => negb (Regex.isLineTerminator c)) body).

(** The domains of the pattern: four short numbers between brackets,
    or labels followed by dots and then two letters or more. *)
Definition isDomain (s : string) : Prop :=
  (exists n1 n2 n3 n4,
      s = "[" ++ n1 ++ "." ++ n2 ++ "." ++ n3 ++ "." ++ n4 ++ "]"
      /\ isShortNumber n1 /\ isShortNumber n2 /\ isShortNumber n3 /\ isShortNumber n4)
  \/ (exists labels tld,
         s = labelled labels ++ tld
         /\ labels <> []
         /\ Forall (wordOf Order.domainLabelChar) labels
         /\ allChars Regex.isLetter tld = true
         /\ (2 <= String.length tld)%nat).

(** [Number.isSafeInteger]: the integers a template literal prints
    with all their digits. *)
Definition isSafeInteger (n : Z) : Prop :=
  - 9007199254740991 <= n <= 9007199254740991.

Definition isSafeNumber (n : nullable Z) : Prop :=
  match n with
  | Value n => isSafeInteger n
  | _ => True
  end.

(** The offset of the time zone in force at an instant. *)
Definition offsetAt (zone : TimeZone) (t : Date) : Z := LocalTime zone t - t.

(** What the two conversions of a time zone owe each other: [UTC]
    takes an offset of the zone off the wall-clock value; of the
    instants at which the wall clock shows a value, it gives the
    earliest; and the offsets of the zone are less than a day
    apart. *)
Definition wellFormedZone (zone : TimeZone) : Prop :=
  (forall l, exists t, l - UTC zone l = offsetAt zone t)
  /\ (forall t, UTC zone (LocalTime zone t) <= t)
  /\ (forall a b, offsetAt zone a - offsetAt zone b < msPerDay).

(** A time zone without clock changes. *)
Definition fixedOffset (offset : Z) : TimeZone :=
  {| LocalTime := fun t => t + offset; UTC := fun l => l - offset |}.

(** Eastern time around the clock change of Sunday 3 November 2030: at
    06:00 UTC the wall clock goes from 02:00 back to 01:00, and the
    offset from -4 to -5 hours.  The wall-clock values from 01:00 to
    02:00 of that day are shown twice; [UTC] gives the first. *)
Definition clockChangeOfNovember2030 : Date := 1919916000000.

Definition easternTimeOfAutumn2030 : TimeZone :=
  {| LocalTime :=
       fun t =>
         if t <? clockChangeOfNovember2030
         then t - 4 * msPerHour else t - 5 * msPerHour;
     UTC :=
       fun l =>
         if l <? clockChangeOfNovember2030 - 4 * msPerHour
         then l + 4 * msPerHour else l + 5 * msPerHour |}.

(** A local date and time of November 2030 before the clock change
    (daylight time) and after it (standard time). *)
Definition november2030Daylight (dayOfMonth hours minutes : Z) : Date :=
  1919736000000 + (dayOfMonth - 1) * msPerDay
  + hours * msPerHour + minutes * msPerMinute.

Definition november2030Standard (dayOfMonth hours minutes : Z) : Date :=
  1919739600000 + (dayOfMonth - 1) * msPerDay
  + hours * msPerHour + minutes * msPerMinute.

(** * Properties *)

(** ** Calendar arithmetic *)

Section CalendarFacts.

Variable timeZoneOffset : Z.

Lemma getDay_range (d : Date) : 0 <= JsDate.getDay timeZoneOffset d < 7.
Proof. unfold JsDate.getDay. apply Z.mod_pos_bound. lia. Qed.

Lemma calendarDay_plus_days (d : Date) (k : Z) :
  JsDate.calendarDay timeZoneOffset (d + k * msPerDay)
  = JsDate.calendarDay timeZoneOffset d + k.
Proof.
  unfold JsDate.calendarDay, JsDate.localTime.
  replace (d + k * msPerDay + timeZoneOffset)
    with (d + timeZoneOffset + k * msPerDay) by ring.
  apply Z.div_add. unfold msPerDay. lia.
Qed.

Lemma getDay_plus_days (d : Date) (k : Z) :
  JsDate.getDay timeZoneOffset (d + k * msPerDay)
  = (JsDate.getDay timeZoneOffset d + k) mod 7.
Proof.
  unfold JsDate.getDay. rewrite calendarDay_plus_days.
  rewrite Zplus_mod_idemp_l. f_equal. lia.
Qed.

Lemma daysUntilNext_range (fromDay day : Z) : 1 <= daysUntilNext fromDay day <= 7.
Proof.
  unfold daysUntilNext.
  pose proof (Z.mod_pos_bound (day - fromDay - 1) 7). lia.
Qed.

(** [daysUntilNext] days later the weekday is the wanted one, and no
    day in between has it. *)
Lemma daysUntilNext_hits (d : Date) (day : Z) :
  0 <= day < 7 ->
  JsDate.getDay timeZoneOffset
    (d + daysUntilNext (JsDate.getDay timeZoneOffset d) day * msPerDay) = day.
Proof.
  intros Hday. rewrite getDay_plus_days.
  pose proof (getDay_range d) as Hd.
  unfold daysUntilNext.
  generalize dependent (JsDate.getDay timeZoneOffset d). intros g Hg.
  Z.div_mod_to_equations. lia.
Qed.

Lemma daysUntilNext_first (d : Date) (day j : Z) :
  1 <= j < daysUntilNext (JsDate.getDay timeZoneOffset d) day ->
  JsDate.getDay timeZoneOffset (d + j * msPerDay) <> day.
Proof.
  intros Hj. rewrite getDay_plus_days.
  pose proof (getDay_range d) as Hd.
  unfold daysUntilNext in Hj.
  generalize dependent (JsDate.getDay timeZoneOffset d). intros g Hj Hg.
  Z.div_mod_to_equations. lia.
Qed.

End CalendarFacts.

(** ** The projection loop *)

Section ProjectionLoop.

Variable timeZoneOffset : Z.

Lemma loop_reaches (day : Z) (n : nat) :
  forall (start : Date) (fuel : nat),
    (forall j, 1 <= j <= Z.of_nat n ->
               JsDate.getDay timeZoneOffset (start + j * msPerDay) <> day) ->
    JsDate.getDay timeZoneOffset (start + (Z.of_nat n + 1) * msPerDay) = day ->
    (n < fuel)%nat ->
    Order.getNextDateHavingDay_loop timeZoneOffset fuel (Value day) start
    = Return (start + (Z.of_nat n + 1) * msPerDay).
Proof.
  induction n as [|n IH]; intros start fuel Hmiss Hhit Hfuel;
    (destruct fuel as [|fuel]; [lia|]);
    cbn [Order.getNextDateHavingDay_loop strictEqualNumber];
    unfold JsDate.setDateToFollowingDay.
  - replace (start + (Z.of_nat 0 + 1) * msPerDay) with (start + msPerDay) in * by lia.
    rewrite Hhit, Z.eqb_refl. reflexivity.
  - assert (Hfirst : JsDate.getDay timeZoneOffset (start + msPerDay) <> day).
    { specialize (Hmiss 1). replace (start + 1 * msPerDay) with (start + msPerDay) in Hmiss by lia.
      apply Hmiss. lia. }
    apply Z.eqb_neq in Hfirst. rewrite Hfirst. cbn [negb].
    rewrite (IH (start + msPerDay) fuel).
    + f_equal. lia.
    + intros j Hj. specialize (Hmiss (j + 1)).
      replace (start + msPerDay + j * msPerDay) with (start + (j + 1) * msPerDay) by lia.
      apply Hmiss. lia.
    + replace (start + msPerDay + (Z.of_nat n + 1) * msPerDay)
        with (start + (Z.of_nat (S n) + 1) * msPerDay) by lia.
      exact Hhit.
    + lia.
Qed.

Lemma loop_starves (day : Z) (fuel : nat) :
  forall start : Date,
    (forall j, 1 <= j <= Z.of_nat fuel ->
               JsDate.getDay timeZoneOffset (start + j * msPerDay) <> day) ->
    Order.getNextDateHavingDay_loop timeZoneOffset fuel (Value day) start = Hang.
Proof.
  induction fuel as [|fuel IH]; intros start Hmiss;
    cbn [Order.getNextDateHavingDay_loop strictEqualNumber]; [reflexivity|].
  unfold JsDate.setDateToFollowingDay.
  assert (Hfirst : JsDate.getDay timeZoneOffset (start + msPerDay) <> day).
  { specialize (Hmiss 1). replace (start + 1 * msPerDay) with (start + msPerDay) in Hmiss by lia.
    apply Hmiss. lia. }
  apply Z.eqb_neq in Hfirst. rewrite Hfirst. cbn [negb].
  apply IH. intros j Hj. specialize (Hmiss (j + 1)).
  replace (start + msPerDay + j * msPerDay) with (start + (j + 1) * msPerDay) by lia.
  apply Hmiss. lia.
Qed.

Lemma loop_undefined (fuel : nat) :
  forall start : Date,
    Order.getNextDateHavingDay_loop timeZoneOffset fuel Undefined start = Hang.
Proof.
  induction fuel as [|fuel IH]; intros start; simpl; [reflexivity | apply IH].
Qed.

Lemma loop_never_throws (day : nullable Z) (fuel : nat) :
  forall (start : Date) (e : Error),
    Order.getNextDateHavingDay_loop timeZoneOffset fuel day start <> Throw e.
Proof.
  induction fuel as [|fuel IH]; intros start e;
    cbn [Order.getNextDateHavingDay_loop]; [discriminate|].
  destruct (negb _); [apply IH | discriminate].
Qed.

(** With enough fuel the loop returns the next occurrence of the
    weekday; with less it has not finished. *)
Lemma loop_next_occurrence (day : Z) (start : Date) (fuel : nat) :
  0 <= day < 7 ->
  daysUntilNext (JsDate.getDay timeZoneOffset start) day <= Z.of_nat fuel ->
  Order.getNextDateHavingDay_loop timeZoneOffset fuel (Value day) start
  = Return (nextOccurrence timeZoneOffset start day).
Proof.
  intros Hday Hfuel. unfold nextOccurrence.
  pose proof (daysUntilNext_range (JsDate.getDay timeZoneOffset start) day) as Hk.
  set (k := daysUntilNext (JsDate.getDay timeZoneOffset start) day) in *.
  replace k with (Z.of_nat (Z.to_nat (k - 1)) + 1) by lia.
  apply loop_reaches.
  - intros j Hj. apply daysUntilNext_first. fold k. lia.
  - replace (Z.of_nat (Z.to_nat (k - 1)) + 1) with k by lia.
    apply daysUntilNext_hits. exact Hday.
  - lia.
Qed.

Lemma loop_too_short (day : Z) (start : Date) (fuel : nat) :
  Z.of_nat fuel < daysUntilNext (JsDate.getDay timeZoneOffset start) day ->
  Order.getNextDateHavingDay_loop timeZoneOffset fuel (Value day) start = Hang.
Proof.
  intros Hfuel. apply loop_starves. intros j Hj.
  apply daysUntilNext_first. lia.
Qed.

(** What [filter(...).map(...)[0]] reads in the pick-up table. *)
Lemma first_of_table (table : list AvailableDayForAPickUpOrder) (placedOn : Z) :
  Order.first
    (map firstAvailableDay
       (filter (fun entry => whenOrderIsPlacedOn entry =? placedOn) table))
  = match tableEntry table placedOn with
    | Some day => Value day
    | None => Undefined
    end.
Proof.
  unfold tableEntry.
  induction table as [|entry table IH]; simpl; [reflexivity|].
  destruct (whenOrderIsPlacedOn entry =? placedOn); simpl; [reflexivity | exact IH].
Qed.

End ProjectionLoop.

(** ** What a binding method leaves behind *)

Section Bindings.

Variable timeZoneOffset : Z.
Variable clock : Clock.

Lemma bindContactDetails_spec (command : NewOrderCommand.t) (this : Order.t) :
  Order.bindContactDetails command this
  = match contactDetailsChecks command with
    | Return _ => (Return tt, withContactDetails command this)
    | Throw e => (Throw e, this)
    | Hang => (Hang, this)
    end.
Proof.
  unfold Order.bindContactDetails, contactDetailsChecks, withContactDetails,
    Order.thenDo, Order.static, Order.assign, andThen.
  destruct (Order.assertClientNameIsValid _) as [[]|e|]; try reflexivity.
  destruct (Order.assertClientPhoneNumberIsValid _) as [[]|e|]; reflexivity.
Qed.

Lemma bindProductSelection_spec
  (command : AnyOrderCommand.t) (activeProducts : list Product.t) (this : Order.t) :
  Order.bindProductSelection command activeProducts this
  = match productSelectionChecks (AnyOrderCommand.products command) activeProducts with
    | Return resolved => (Return tt, Order.set_products (Value resolved) this)
    | Throw e => (Throw e, this)
    | Hang => (Hang, this)
    end.
Proof.
  unfold Order.bindProductSelection, productSelectionChecks,
    Order.thenDo, Order.static, Order.assign, andThen.
  destruct (Order.assertProductsAreValid _) as [[]|e|]; reflexivity.
Qed.

Lemma bindOrderTypeSelection_spec
  (command : AnyOrderCommand.t) (closingPeriods : list ClosingPeriodInterface.t)
  (isAdmin : bool) (this : Order.t) :
  Order.bindOrderTypeSelection timeZoneOffset clock command closingPeriods isAdmin this
  = match orderTypeSelectionChecks timeZoneOffset clock command closingPeriods isAdmin with
    | Return _ => (Return tt, withOrderTypeSelection command this)
    | Throw e => (Throw e, this)
    | Hang => (Hang, this)
    end.
Proof.
  unfold Order.bindOrderTypeSelection, orderTypeSelectionChecks,
    Order.thenDo, Order.static, Order.assign, Order.skip, andThen.
  destruct (Order.assertTypeIsValid _ _) as [[]|e|]; try reflexivity.
  destruct (Order.assertPickUpDateIsValid _ _ _ _ _) as [[]|e|]; try reflexivity.
  destruct (Order.assertDeliveryDateIsValid _ _ _ _ _) as [[]|e|]; try reflexivity.
  destruct (Order.assertDeliveryAddressIsValid _ _) as [[]|e|]; try reflexivity.
  destruct (Order.assertReservationDateIsValid _ _ _ _ _) as [[]|e|];
    [|reflexivity|reflexivity].
  unfold withOrderTypeSelection, isType. cbn.
  destruct (Order.strictEqualString (AnyOrderCommand.type command) (Value OrderType.PICK_UP));
    [reflexivity|].
  destruct (Order.strictEqualString (AnyOrderCommand.type command) (Value OrderType.DELIVERY));
    [reflexivity|].
  destruct (Order.strictEqualString (AnyOrderCommand.type command) (Value OrderType.RESERVATION));
    reflexivity.
Qed.

End Bindings.

(** ** [create] and [updateWith] as a sequence of checks *)

Section EntryPoints.

Variable timeZoneOffset : Z.
Variable clock : Clock.
Variable table : list AvailableDayForAPickUpOrder.

Lemma create_spec
  (fuel : nat) (command : NewOrderCommand.t) (activeProducts : list Product.t)
  (closingPeriods : list ClosingPeriodInterface.t) (isAdmin : bool) :
  Order.create timeZoneOffset clock table fuel command activeProducts closingPeriods isAdmin
  = (contactDetailsChecks command ;;
     andThen (productSelectionChecks (NewOrderCommand.products command) activeProducts)
       (fun resolved =>
          orderTypeSelectionChecks timeZoneOffset clock (inl command) closingPeriods isAdmin ;;
          (if negb isAdmin
           then leadTimeChecks timeZoneOffset clock table fuel command
           else Return tt) ;;
          Return (newOrder command resolved))).
Proof.
  unfold Order.create, Order.construct.
  unfold Order.thenDo at 1. cbn [Order.assign].
  unfold Order.thenDo at 1. rewrite bindContactDetails_spec.
  destruct (contactDetailsChecks command) as [[]|e|]; cbn [andThen]; try reflexivity.
  unfold Order.thenDo at 1. rewrite bindProductSelection_spec. cbn [AnyOrderCommand.products].
  destruct (productSelectionChecks _ _) as [resolved|e|]; cbn [andThen]; try reflexivity.
  unfold Order.thenDo at 1. rewrite bindOrderTypeSelection_spec.
  destruct (orderTypeSelectionChecks _ _ _ _ _) as [[]|e|]; cbn [andThen]; try reflexivity.
  unfold Order.thenDo at 1. cbn [Order.assign].
  destruct isAdmin; cbn [negb].
  - reflexivity.
  - unfold leadTimeChecks, Order.thenDo, Order.static.
    destruct (Order.assertPickUpDateIsEqualOrAfterTheFirstAvailableDay _ _ _ _ _ _)
      as [[]|e|]; reflexivity.
Qed.

Lemma updateWith_spec
  (command : UpdateOrderCommand.t) (activeProducts : list Product.t)
  (closingPeriods : list ClosingPeriodInterface.t) (this : Order.t) :
  Order.updateWith timeZoneOffset clock command activeProducts closingPeriods this
  = if negb (strictEqualNumber (Order.id this) (UpdateOrderCommand.orderId command))
    then
      (Throw (InvalidOrderError
                ("existing order id " ++ nullableNumberToString (Order.id this)
                 ++ " does not match command order id "
                 ++ nullableNumberToString (UpdateOrderCommand.orderId command))),
       this)
    else
      match productSelectionChecks (UpdateOrderCommand.products command) activeProducts with
      | Return resolved =>
          match orderTypeSelectionChecks timeZoneOffset clock (inr command)
                  closingPeriods true with
          | Return _ => (Return tt, updatedOrder command resolved this)
          | Throw e => (Throw e, Order.set_products (Value resolved) this)
          | Hang => (Hang, Order.set_products (Value resolved) this)
          end
      | Throw e => (Throw e, this)
      | Hang => (Hang, this)
      end.
Proof.
  unfold Order.updateWith.
  destruct (negb (strictEqualNumber _ _)); [reflexivity|].
  unfold Order.thenDo at 1. rewrite bindProductSelection_spec. cbn [AnyOrderCommand.products].
  destruct (productSelectionChecks _ _) as [resolved|e|]; try reflexivity.
  unfold Order.thenDo at 1. rewrite bindOrderTypeSelection_spec.
  destruct (orderTypeSelectionChecks _ _ _ _ _) as [[]|e|]; reflexivity.
Qed.

Lemma assertTypeIsValid_not_reservation (type : nullable string) (isAdmin : bool) :
  isType type OrderType.RESERVATION = false ->
  Order.assertTypeIsValid type isAdmin = Order.assertTypeIsValid type true.
Proof.
  unfold isType, Order.assertTypeIsValid. intros ->. reflexivity.
Qed.

(** For a type other than RESERVATION the caller who is not an admin
    passes the shared checks exactly when an admin does, and then
    meets the two lead-time checks. *)
Lemma create_non_admin
  (fuel : nat) (command : NewOrderCommand.t) (activeProducts : list Product.t)
  (closingPeriods : list ClosingPeriodInterface.t) (order : Order.t) :
  isType (NewOrderCommand.type command) OrderType.RESERVATION = false ->
  Order.create timeZoneOffset clock table fuel command activeProducts closingPeriods true
  = Return order ->
  Order.create timeZoneOffset clock table fuel command activeProducts closingPeriods false
  = (leadTimeChecks timeZoneOffset clock table fuel command ;; Return order).
Proof.
  intros Htype. rewrite !create_spec.
  unfold orderTypeSelectionChecks. cbn [AnyOrderCommand.type negb].
  rewrite (assertTypeIsValid_not_reservation _ false Htype).
  destruct (contactDetailsChecks command) as [[]|e|]; cbn [andThen]; try discriminate.
  destruct (productSelectionChecks _ _) as [resolved|e|]; cbn [andThen]; try discriminate.
  destruct (Order.assertTypeIsValid _ true ;; _) as [[]|e|]; cbn [andThen]; try discriminate.
  intros H. injection H as <-. reflexivity.
Qed.

(** ... and is refused as an admin is when a shared check fails. *)
Lemma create_non_admin_rejected
  (fuel : nat) (command : NewOrderCommand.t) (activeProducts : list Product.t)
  (closingPeriods : list ClosingPeriodInterface.t) (e : Error) :
  isType (NewOrderCommand.type command) OrderType.RESERVATION = false ->
  Order.create timeZoneOffset clock table fuel command activeProducts closingPeriods true
  = Throw e ->
  Order.create timeZoneOffset clock table fuel command activeProducts closingPeriods false
  = Throw e.
Proof.
  intros Htype. rewrite !create_spec.
  unfold orderTypeSelectionChecks. cbn [AnyOrderCommand.type negb].
  rewrite (assertTypeIsValid_not_reservation _ false Htype).
  destruct (contactDetailsChecks command) as [[]|e'|]; cbn [andThen]; try discriminate;
    [| intros H; exact H].
  destruct (productSelectionChecks _ _) as [resolved|e'|]; cbn [andThen]; try discriminate;
    [| intros H; exact H].
  destruct (Order.assertTypeIsValid _ true ;; _) as [[]|e'|]; cbn [andThen];
    try discriminate.
  intros H; exact H.
Qed.

End EntryPoints.

(** ** The lead-time rules of a caller who is not an admin *)

Lemma append_cancel_l (s a b : string) : s ++ a = s ++ b -> a = b.
Proof.
  induction s as [|c s IH]; cbn; intros H; [exact H|].
  injection H as H. exact (IH H).
Qed.

Section LeadTimeRules.

Variable timeZoneOffset : Z.
Variable clock : Clock.
Variable table : list AvailableDayForAPickUpOrder.

Local Notation "'calendarDay' d" := (JsDate.calendarDay timeZoneOffset d)
  (at level 10, d at level 9).
Local Notation "'weekday' d" := (JsDate.getDay timeZoneOffset d)
  (at level 10, d at level 9).

(** The pick-up rule on a PICK_UP order, step by step. *)
Lemma pick_up_rule_steps (fuel : nat) (pickUpDate : Date) :
  let now := effectiveNow timeZoneOffset clock in
  Order.assertPickUpDateIsEqualOrAfterTheFirstAvailableDay timeZoneOffset clock table fuel
    (Value OrderType.PICK_UP) (Value pickUpDate)
  = if (calendarDay pickUpDate - calendarDay now <? 7)
       && (weekday now - weekday pickUpDate =? 0)
    then Throw (InvalidOrderError
                  ("pick-up date " ++ JsDate.toISOString pickUpDate
                   ++ " cannot be same day as now"))
    else
      andThen
        (Order.getNextDateHavingDay_loop timeZoneOffset fuel
           match tableEntry table (weekday now) with
           | Some day => Value day
           | None => Undefined
           end
           (newDate clock))
        (fun firstAvailableDate =>
           if calendarDay pickUpDate <? calendarDay firstAvailableDate
           then Throw (InvalidOrderError
                         ("pick-up date " ++ JsDate.toISOString pickUpDate
                          ++ " has to be at least "
                          ++ numberToString
                               (calendarDay firstAvailableDate - calendarDay now)
                          ++ " days after now"))
           else Return tt).
Proof.
  intros now.
  unfold Order.assertPickUpDateIsEqualOrAfterTheFirstAvailableDay.
  rewrite first_of_table. reflexivity.
Qed.

Lemma pick_up_rule_other_type (fuel : nat) (type : nullable string)
  (pickUpDate : nullable Date) :
  isType type OrderType.PICK_UP = false ->
  Order.assertPickUpDateIsEqualOrAfterTheFirstAvailableDay timeZoneOffset clock table fuel
    type pickUpDate = Return tt.
Proof.
  unfold isType, Order.assertPickUpDateIsEqualOrAfterTheFirstAvailableDay.
  intros ->. reflexivity.
Qed.

Lemma delivery_rule_other_type (type : nullable string) (deliveryDate : nullable Date) :
  isType type OrderType.DELIVERY = false ->
  Order.assertDeliveryDateIsEqualOrAfterTheFirstAvailableDay timeZoneOffset clock
    type deliveryDate = Return tt.
Proof.
  unfold isType, Order.assertDeliveryDateIsEqualOrAfterTheFirstAvailableDay.
  intros ->. reflexivity.
Qed.

(** For a PICK_UP command the admin accepts, the other caller gets
    the verdict of the pick-up rule. *)
Lemma create_pick_up_non_admin
  (fuel : nat) (command : NewOrderCommand.t) (activeProducts : list Product.t)
  (closingPeriods : list ClosingPeriodInterface.t) (order : Order.t)
  (pickUpDate : Date) :
  NewOrderCommand.type command = Value OrderType.PICK_UP ->
  NewOrderCommand.pickUpDate command = Value pickUpDate ->
  Order.create timeZoneOffset clock table fuel command activeProducts closingPeriods true
  = Return order ->
  Order.create timeZoneOffset clock table fuel command activeProducts closingPeriods false
  = (Order.assertPickUpDateIsEqualOrAfterTheFirstAvailableDay timeZoneOffset clock table
       fuel (Value OrderType.PICK_UP) (Value pickUpDate) ;;
     Return order).
Proof.
  intros Htype Hdate Hadmin.
  rewrite (create_non_admin timeZoneOffset clock table fuel command activeProducts
             closingPeriods order); [| rewrite Htype; reflexivity | exact Hadmin].
  unfold leadTimeChecks. rewrite Htype, Hdate.
  rewrite delivery_rule_other_type by reflexivity.
  destruct (Order.assertPickUpDateIsEqualOrAfterTheFirstAvailableDay _ _ _ _ _ _)
    as [[]|e|]; reflexivity.
Qed.

Lemma create_delivery_non_admin
  (fuel : nat) (command : NewOrderCommand.t) (activeProducts : list Product.t)
  (closingPeriods : list ClosingPeriodInterface.t) (order : Order.t)
  (deliveryDate : Date) :
  NewOrderCommand.type command = Value OrderType.DELIVERY ->
  NewOrderCommand.deliveryDate command = Value deliveryDate ->
  Order.create timeZoneOffset clock table fuel command activeProducts closingPeriods true
  = Return order ->
  Order.create timeZoneOffset clock table fuel command activeProducts closingPeriods false
  = (Order.assertDeliveryDateIsEqualOrAfterTheFirstAvailableDay timeZoneOffset clock
       (Value OrderType.DELIVERY) (Value deliveryDate) ;;
     Return order).
Proof.
  intros Htype Hdate Hadmin.
  rewrite (create_non_admin timeZoneOffset clock table fuel command activeProducts
             closingPeriods order); [| rewrite Htype; reflexivity | exact Hadmin].
  unfold leadTimeChecks. rewrite Htype, Hdate.
  rewrite pick_up_rule_other_type by reflexivity. reflexivity.
Qed.

End LeadTimeRules.

(** A pick-up order placed on Saturday 6 April 2030 at noon for Monday
    8 April: the same-weekday rule does not reject it and Monday is
    before the first available day (Tuesday, the entry of the table for
    Saturday), yet creation fails with the message of the closing days,
    which are checked first. *)
Lemma lead_time_message_comes_after_date_checks :
  Order.create easternDaylightTime (clockAt (april2030 6 12 0 0)) tableOfTheTestSuite 7
    (johnDoeOrders OrderType.PICK_UP (april2030 8 12 0 0)) [fakeProduct] [] false
  = Throw (InvalidOrderError
             "pick-up date 2030-04-08T16:00:00.000Z has to be between a Tuesday and a Saturday")
  /\ Order.create easternDaylightTime (clockAt (april2030 6 12 0 0)) tableOfTheTestSuite 7
       (johnDoeOrders OrderType.PICK_UP (april2030 8 12 0 0)) [fakeProduct] [] false
     <> Throw (InvalidOrderError
                 "pick-up date 2030-04-08T16:00:00.000Z has to be at least 3 days after now")
  /\ JsDate.getDay easternDaylightTime (april2030 8 12 0 0)
     <> JsDate.getDay easternDaylightTime
          (effectiveNow easternDaylightTime (clockAt (april2030 6 12 0 0)))
  /\ tableEntry tableOfTheTestSuite
       (JsDate.getDay easternDaylightTime
          (effectiveNow easternDaylightTime (clockAt (april2030 6 12 0 0))))
     = Some Day.TUESDAY
  /\ JsDate.calendarDay easternDaylightTime (april2030 8 12 0 0)
     < JsDate.calendarDay easternDaylightTime
         (nextOccurrence easternDaylightTime (april2030 6 12 0 0) Day.TUESDAY).
Proof.
  vm_compute. repeat split; discriminate.
Qed.

(** C1, amended.  The pick-up lead-time check, on a PICK_UP order the
    same-weekday rule does not reject, throws
    [pick-up date {date} has to be at least {n} days after now] exactly
    when the calendar day of the pick-up date is earlier than the next
    calendar occurrence of the weekday the lookup table gives for the
    placement weekday, the placement weekday being read from the
    business clock moved one day forward at 19:00 or later; otherwise the
    check passes.  The next occurrence is counted from [new Date()] and
    [n] is the number of days from the placement day to it.  A create by
    a caller who is not an admin fails with that message under the same
    condition, and succeeds otherwise, when the command passes the
    shared validations, that is, when an admin would have it accepted;
    when a shared validation fails, the create fails with its error. *)
Theorem pick_up_lead_time_rule :
  forall (timeZoneOffset : Z) (clock : Clock) (table : list AvailableDayForAPickUpOrder)
         (fuel : nat) (pickUpDate : Date) (firstDay : Z),
    let calendarDay := JsDate.calendarDay timeZoneOffset in
    let now := effectiveNow timeZoneOffset clock in
    let firstAvailableDate := nextOccurrence timeZoneOffset (newDate clock) firstDay in
    let rejection :=
      InvalidOrderError
        ("pick-up date " ++ JsDate.toISOString pickUpDate ++ " has to be at least "
         ++ numberToString (calendarDay firstAvailableDate - calendarDay now)
         ++ " days after now") in
    (7 <= fuel)%nat ->
    tableEntry table (JsDate.getDay timeZoneOffset now) = Some firstDay ->
    0 <= firstDay < 7 ->
    ~ (calendarDay pickUpDate - calendarDay now < 7
       /\ JsDate.getDay timeZoneOffset pickUpDate = JsDate.getDay timeZoneOffset now) ->
    (Order.assertPickUpDateIsEqualOrAfterTheFirstAvailableDay timeZoneOffset clock table
       fuel (Value OrderType.PICK_UP) (Value pickUpDate) = Throw rejection
     <-> calendarDay pickUpDate < calendarDay firstAvailableDate)
    /\ (~ calendarDay pickUpDate < calendarDay firstAvailableDate ->
        Order.assertPickUpDateIsEqualOrAfterTheFirstAvailableDay timeZoneOffset clock table
          fuel (Value OrderType.PICK_UP) (Value pickUpDate) = Return tt)
    /\ (forall (command : NewOrderCommand.t) (activeProducts : list Product.t)
               (closingPeriods : list ClosingPeriodInterface.t) (order : Order.t),
        NewOrderCommand.type command = Value OrderType.PICK_UP ->
        NewOrderCommand.pickUpDate command = Value pickUpDate ->
        Order.create timeZoneOffset clock table fuel command activeProducts closingPeriods true
        = Return order ->
        (Order.create timeZoneOffset clock table fuel command activeProducts closingPeriods
           false = Throw rejection
         <-> calendarDay pickUpDate < calendarDay firstAvailableDate)
        /\ (~ calendarDay pickUpDate < calendarDay firstAvailableDate ->
            Order.create timeZoneOffset clock table fuel command activeProducts
              closingPeriods false = Return order))
    /\ forall (command : NewOrderCommand.t) (activeProducts : list Product.t)
              (closingPeriods : list ClosingPeriodInterface.t) (e : Error),
        NewOrderCommand.type command = Value OrderType.PICK_UP ->
        Order.create timeZoneOffset clock table fuel command activeProducts closingPeriods true
        = Throw e ->
        Order.create timeZoneOffset clock table fuel command activeProducts closingPeriods
          false = Throw e.
Proof.
  intros tz clock table fuel pickUpDate firstDay calendarDay now firstAvailableDate
    rejection Hfuel Hentry Hday Hsame.
  assert (Hrule :
    Order.assertPickUpDateIsEqualOrAfterTheFirstAvailableDay tz clock table
      fuel (Value OrderType.PICK_UP) (Value pickUpDate)
    = if calendarDay pickUpDate <? calendarDay firstAvailableDate
      then Throw rejection else Return tt).
  { rewrite pick_up_rule_steps. fold now. rewrite Hentry.
    replace ((JsDate.calendarDay tz pickUpDate - JsDate.calendarDay tz now <? 7)
             && (JsDate.getDay tz now - JsDate.getDay tz pickUpDate =? 0)) with false.
    - rewrite loop_next_occurrence; [reflexivity | exact Hday |].
      pose proof (daysUntilNext_range (JsDate.getDay tz (newDate clock)) firstDay). lia.
    - symmetry. apply andb_false_iff.
      destruct (Z.ltb_spec (JsDate.calendarDay tz pickUpDate - JsDate.calendarDay tz now) 7);
        [right | left; reflexivity].
      apply Z.eqb_neq. intros Heq. apply Hsame. split; [assumption | lia]. }
  assert (Hcases :
    forall (A : Type) (result : completion A) (accepted : A),
      result = (if calendarDay pickUpDate <? calendarDay firstAvailableDate
                then Throw rejection else Return accepted) ->
      (result = Throw rejection <-> calendarDay pickUpDate < calendarDay firstAvailableDate)
      /\ (~ calendarDay pickUpDate < calendarDay firstAvailableDate ->
          result = Return accepted)).
  { intros A result accepted ->.
    destruct (Z.ltb_spec (calendarDay pickUpDate) (calendarDay firstAvailableDate)).
    - split; [split; auto | intros; lia].
    - split; [split; [discriminate | lia] | reflexivity]. }
  split; [apply (Hcases unit _ tt Hrule) |].
  split; [apply (Hcases unit _ tt Hrule) |].
  split.
  - intros command activeProducts closingPeriods order Htype Hdate Hadmin.
    apply Hcases.
    rewrite (create_pick_up_non_admin tz clock table fuel command activeProducts
               closingPeriods order pickUpDate Htype Hdate Hadmin).
    rewrite Hrule.
    destruct (calendarDay pickUpDate <? calendarDay firstAvailableDate); reflexivity.
  - intros command activeProducts closingPeriods e Htype.
    apply create_non_admin_rejected. rewrite Htype. reflexivity.
Qed.

Lemma pick_up_lead_time_rule_witness :
  Order.create easternDaylightTime (clockAt (april2030 1 18 59 59)) tableOfTheTestSuite 7
    (johnDoeOrders OrderType.PICK_UP (april2030 2 18 59 59)) [fakeProduct] [] false
  = Throw (InvalidOrderError
             "pick-up date 2030-04-02T22:59:59.000Z has to be at least 3 days after now")
  /\ exists order,
      Order.create easternDaylightTime (clockAt (april2030 1 18 59 59)) tableOfTheTestSuite 7
        (johnDoeOrders OrderType.PICK_UP (april2030 4 18 59 59)) [fakeProduct] [] false
      = Return order.
Proof.
  split.
  - refine (proj2 (proj1 (proj1 (proj2 (proj2
             (pick_up_lead_time_rule easternDaylightTime (clockAt (april2030 1 18 59 59))
                tableOfTheTestSuite 7 (april2030 2 18 59 59) Day.THURSDAY
                (le_n 7) eq_refl _ _)))
             (johnDoeOrders OrderType.PICK_UP (april2030 2 18 59 59)) [fakeProduct] []
             (newOrder (johnDoeOrders OrderType.PICK_UP (april2030 2 18 59 59))
                [ {| ProductWithQuantity.product := fakeProduct;
                     ProductWithQuantity.quantity := 1 |} ])
             eq_refl eq_refl eq_refl)) _).
    + vm_compute. split; [discriminate | reflexivity].
    + vm_compute. intros [_ H]. discriminate H.
    + vm_compute. reflexivity.
  - eexists.
    refine (proj2 (proj1 (proj2 (proj2
             (pick_up_lead_time_rule easternDaylightTime (clockAt (april2030 1 18 59 59))
                tableOfTheTestSuite 7 (april2030 4 18 59 59) Day.THURSDAY
                (le_n 7) eq_refl _ _)))
             (johnDoeOrders OrderType.PICK_UP (april2030 4 18 59 59)) [fakeProduct] []
             (newOrder (johnDoeOrders OrderType.PICK_UP (april2030 4 18 59 59))
                [ {| ProductWithQuantity.product := fakeProduct;
                     ProductWithQuantity.quantity := 1 |} ])
             eq_refl eq_refl eq_refl) _).
    + vm_compute. split; [discriminate | reflexivity].
    + vm_compute. intros [_ H]. discriminate H.
    + vm_compute. discriminate.
Defined.

(** A pick-up order placed on Sunday 31 March 2030 at noon for the same
    day: same weekday, fewer than 7 days out, yet creation fails with the
    message of the closing days, which are checked first. *)
Lemma same_day_message_comes_after_date_checks :
  Order.create easternDaylightTime (clockAt (april2030 0 12 0 0)) tableOfTheTestSuite 7
    (johnDoeOrders OrderType.PICK_UP (april2030 0 12 0 0)) [fakeProduct] [] false
  = Throw (InvalidOrderError
             "pick-up date 2030-03-31T16:00:00.000Z has to be between a Tuesday and a Saturday")
  /\ Order.create easternDaylightTime (clockAt (april2030 0 12 0 0)) tableOfTheTestSuite 7
       (johnDoeOrders OrderType.PICK_UP (april2030 0 12 0 0)) [fakeProduct] [] false
     <> Throw (InvalidOrderError
                 "pick-up date 2030-03-31T16:00:00.000Z cannot be same day as now")
  /\ JsDate.getDay easternDaylightTime (april2030 0 12 0 0)
     = JsDate.getDay easternDaylightTime
         (effectiveNow easternDaylightTime (clockAt (april2030 0 12 0 0)))
  /\ JsDate.calendarDay easternDaylightTime (april2030 0 12 0 0)
     - JsDate.calendarDay easternDaylightTime
         (effectiveNow easternDaylightTime (clockAt (april2030 0 12 0 0)))
     < 7.
Proof.
  vm_compute. repeat split. discriminate.
Qed.

(** C2, amended.  On a PICK_UP order, the pick-up check of a caller who
    is not an admin rejects a pick-up date on the weekday of the
    effective now (the business clock, moved one day forward at 19:00 or
    later) and fewer than 7 days after it with
    [pick-up date {date} cannot be same day as now]; on the same weekday
    7 days out or more, this rule does not reject.  A create by such a
    caller fails with that message under the same condition when the
    command passes the shared validations, that is, when an admin would
    have it accepted. *)
Theorem pick_up_same_weekday_rule :
  forall (timeZoneOffset : Z) (clock : Clock) (table : list AvailableDayForAPickUpOrder)
         (fuel : nat) (pickUpDate : Date),
    let calendarDay := JsDate.calendarDay timeZoneOffset in
    let now := effectiveNow timeZoneOffset clock in
    let rejection :=
      InvalidOrderError
        ("pick-up date " ++ JsDate.toISOString pickUpDate ++ " cannot be same day as now") in
    JsDate.getDay timeZoneOffset pickUpDate = JsDate.getDay timeZoneOffset now ->
    (calendarDay pickUpDate - calendarDay now < 7 ->
     Order.assertPickUpDateIsEqualOrAfterTheFirstAvailableDay timeZoneOffset clock table
       fuel (Value OrderType.PICK_UP) (Value pickUpDate) = Throw rejection
     /\ forall (command : NewOrderCommand.t) (activeProducts : list Product.t)
               (closingPeriods : list ClosingPeriodInterface.t) (order : Order.t),
         NewOrderCommand.type command = Value OrderType.PICK_UP ->
         NewOrderCommand.pickUpDate command = Value pickUpDate ->
         Order.create timeZoneOffset clock table fuel command activeProducts closingPeriods
           true = Return order ->
         Order.create timeZoneOffset clock table fuel command activeProducts closingPeriods
           false = Throw rejection)
    /\ (7 <= calendarDay pickUpDate - calendarDay now ->
        Order.assertPickUpDateIsEqualOrAfterTheFirstAvailableDay timeZoneOffset clock table
          fuel (Value OrderType.PICK_UP) (Value pickUpDate) <> Throw rejection
        /\ forall (command : NewOrderCommand.t) (activeProducts : list Product.t)
                  (closingPeriods : list ClosingPeriodInterface.t) (order : Order.t),
            NewOrderCommand.type command = Value OrderType.PICK_UP ->
            NewOrderCommand.pickUpDate command = Value pickUpDate ->
            Order.create timeZoneOffset clock table fuel command activeProducts
              closingPeriods true = Return order ->
            Order.create timeZoneOffset clock table fuel command activeProducts
              closingPeriods false <> Throw rejection).
Proof.
  intros tz clock table fuel pickUpDate calendarDay now rejection Hweekday.
  split.
  - intros Hnear.
    assert (Hrule :
      Order.assertPickUpDateIsEqualOrAfterTheFirstAvailableDay tz clock table
        fuel (Value OrderType.PICK_UP) (Value pickUpDate) = Throw rejection).
    { rewrite pick_up_rule_steps. fold now.
      replace (JsDate.calendarDay tz pickUpDate - JsDate.calendarDay tz now <? 7) with true
        by (symmetry; apply Z.ltb_lt; exact Hnear).
      replace (JsDate.getDay tz now - JsDate.getDay tz pickUpDate =? 0) with true
        by (symmetry; apply Z.eqb_eq; lia).
      reflexivity. }
    split; [exact Hrule |].
    intros command activeProducts closingPeriods order Htype Hdate Hadmin.
    rewrite (create_pick_up_non_admin tz clock table fuel command activeProducts
               closingPeriods order pickUpDate Htype Hdate Hadmin).
    rewrite Hrule. reflexivity.
  - intros Hfar.
    assert (Hrule :
      Order.assertPickUpDateIsEqualOrAfterTheFirstAvailableDay tz clock table
        fuel (Value OrderType.PICK_UP) (Value pickUpDate) <> Throw rejection).
    { rewrite pick_up_rule_steps. fold now.
      replace (JsDate.calendarDay tz pickUpDate - JsDate.calendarDay tz now <? 7) with false
        by (symmetry; apply Z.ltb_ge; exact Hfar).
      cbn [andb].
      destruct (Order.getNextDateHavingDay_loop _ _ _ _) as [first|e|] eqn:Hloop;
        cbn [andThen]; [| exfalso; exact (loop_never_throws _ _ _ _ _ Hloop) | discriminate].
      destruct (_ <? _); [| discriminate].
      intros H. injection H as H.
      apply append_cancel_l in H. discriminate H. }
    split; [exact Hrule |].
    intros command activeProducts closingPeriods order Htype Hdate Hadmin.
    rewrite (create_pick_up_non_admin tz clock table fuel command activeProducts
               closingPeriods order pickUpDate Htype Hdate Hadmin).
    destruct (Order.assertPickUpDateIsEqualOrAfterTheFirstAvailableDay _ _ _ _ _ _)
      as [[]|e|]; cbn [andThen]; congruence.
Qed.

Lemma pick_up_same_weekday_rule_witness :
  Order.create easternDaylightTime (clockAt (april2030 2 18 59 59)) tableOfTheTestSuite 7
    (johnDoeOrders OrderType.PICK_UP (april2030 2 18 59 59)) [fakeProduct] [] false
  = Throw (InvalidOrderError
             "pick-up date 2030-04-02T22:59:59.000Z cannot be same day as now")
  /\ Order.create easternDaylightTime (clockAt (april2030 2 18 59 59)) tableOfTheTestSuite 7
       (johnDoeOrders OrderType.PICK_UP (april2030 9 18 59 59)) [fakeProduct] [] false
     <> Throw (InvalidOrderError
                 "pick-up date 2030-04-09T22:59:59.000Z cannot be same day as now").
Proof.
  split.
  - refine (proj2 (proj1
             (pick_up_same_weekday_rule easternDaylightTime (clockAt (april2030 2 18 59 59))
                tableOfTheTestSuite 7 (april2030 2 18 59 59) eq_refl) _)
             (johnDoeOrders OrderType.PICK_UP (april2030 2 18 59 59)) [fakeProduct] []
             (newOrder (johnDoeOrders OrderType.PICK_UP (april2030 2 18 59 59))
                [ {| ProductWithQuantity.product := fakeProduct;
                     ProductWithQuantity.quantity := 1 |} ])
             eq_refl eq_refl eq_refl).
    vm_compute. reflexivity.
  - refine (proj2 (proj2
             (pick_up_same_weekday_rule easternDaylightTime (clockAt (april2030 2 18 59 59))
                tableOfTheTestSuite 7 (april2030 9 18 59 59) eq_refl) _)
             (johnDoeOrders OrderType.PICK_UP (april2030 9 18 59 59)) [fakeProduct] []
             (newOrder (johnDoeOrders OrderType.PICK_UP (april2030 9 18 59 59))
                [ {| ProductWithQuantity.product := fakeProduct;
                     ProductWithQuantity.quantity := 1 |} ])
             eq_refl eq_refl eq_refl).
    vm_compute. discriminate.
Defined.

(** A delivery ordered on Wednesday 3 April 2030 at noon for Friday
    5 April: fewer than 7 days out, later in the week than now, and now
    is after Tuesday, yet creation fails with the message of the
    delivery day, which is checked first. *)
Lemma cutoff_message_comes_after_date_checks :
  Order.create easternDaylightTime (clockAt (april2030 3 12 0 0)) tableOfTheTestSuite 7
    (johnDoeOrders OrderType.DELIVERY (april2030 5 12 0 0)) [fakeProduct] [] false
  = Throw (InvalidOrderError
             "delivery date 2030-04-05T16:00:00.000Z has to be a Thursday")
  /\ Order.create easternDaylightTime (clockAt (april2030 3 12 0 0)) tableOfTheTestSuite 7
       (johnDoeOrders OrderType.DELIVERY (april2030 5 12 0 0)) [fakeProduct] [] false
     <> Throw (InvalidOrderError
                 "delivery date 2030-04-05T16:00:00.000Z has to be one of the next available Thursday")
  /\ JsDate.calendarDay easternDaylightTime (april2030 5 12 0 0)
     - JsDate.calendarDay easternDaylightTime (april2030 3 12 0 0) < 7
  /\ JsDate.getDay easternDaylightTime (april2030 3 12 0 0)
     <= JsDate.getDay easternDaylightTime (april2030 5 12 0 0)
  /\ Day.TUESDAY < JsDate.getDay easternDaylightTime (april2030 3 12 0 0).
Proof.
  vm_compute. repeat split; discriminate.
Qed.

(** C3, amended.  On a DELIVERY order, the same-week cutoff rule of a
    caller who is not an admin rejects with
    [delivery date {date} has to be one of the next available Thursday]
    exactly when the delivery date is fewer than 7 days after now, the
    weekday of now is at most the weekday of the delivery date, and now
    is after Tuesday or on Tuesday at 19:00 or later; otherwise the rule
    does not reject.  A create by such a caller fails with that message
    under the same condition, and succeeds otherwise, when the command
    passes the shared validations, that is, when an admin would have it
    accepted; when a shared validation fails, the create fails with its
    error. *)
Theorem delivery_same_week_cutoff_rule :
  forall (timeZoneOffset : Z) (clock : Clock) (deliveryDate : Date),
    let calendarDay := JsDate.calendarDay timeZoneOffset in
    let weekday := JsDate.getDay timeZoneOffset in
    let now := getCurrentDateAtCanadaEasternTimeZone clock in
    let rejection :=
      InvalidOrderError
        ("delivery date " ++ JsDate.toISOString deliveryDate
         ++ " has to be one of the next available Thursday") in
    let pastTheCutoff :=
      calendarDay deliveryDate - calendarDay now < 7
      /\ weekday now <= weekday deliveryDate
      /\ (Day.TUESDAY < weekday now
          \/ (weekday now = Day.TUESDAY /\ 19 <= JsDate.getHours timeZoneOffset now)) in
    (Order.assertDeliveryDateIsEqualOrAfterTheFirstAvailableDay timeZoneOffset clock
       (Value OrderType.DELIVERY) (Value deliveryDate) = Throw rejection
     <-> pastTheCutoff)
    /\ (~ pastTheCutoff ->
        Order.assertDeliveryDateIsEqualOrAfterTheFirstAvailableDay timeZoneOffset clock
          (Value OrderType.DELIVERY) (Value deliveryDate) = Return tt)
    /\ (forall (table : list AvailableDayForAPickUpOrder) (fuel : nat)
               (command : NewOrderCommand.t) (activeProducts : list Product.t)
               (closingPeriods : list ClosingPeriodInterface.t) (order : Order.t),
        NewOrderCommand.type command = Value OrderType.DELIVERY ->
        NewOrderCommand.deliveryDate command = Value deliveryDate ->
        Order.create timeZoneOffset clock table fuel command activeProducts closingPeriods true
        = Return order ->
        (Order.create timeZoneOffset clock table fuel command activeProducts closingPeriods
           false = Throw rejection
         <-> pastTheCutoff)
        /\ (~ pastTheCutoff ->
            Order.create timeZoneOffset clock table fuel command activeProducts
              closingPeriods false = Return order))
    /\ forall (table : list AvailableDayForAPickUpOrder) (fuel : nat)
              (command : NewOrderCommand.t) (activeProducts : list Product.t)
              (closingPeriods : list ClosingPeriodInterface.t) (e : Error),
        NewOrderCommand.type command = Value OrderType.DELIVERY ->
        Order.create timeZoneOffset clock table fuel command activeProducts closingPeriods true
        = Throw e ->
        Order.create timeZoneOffset clock table fuel command activeProducts closingPeriods
          false = Throw e.
Proof.
  intros tz clock deliveryDate calendarDay weekday now rejection pastTheCutoff.
  set (cutoff :=
         (calendarDay deliveryDate - calendarDay now <? 7)
         && (weekday now <=? weekday deliveryDate)
         && ((Day.TUESDAY <? weekday now)
             || ((weekday now =? Day.TUESDAY) && (19 <=? JsDate.getHours tz now)))).
  assert (Hcutoff : cutoff = true <-> pastTheCutoff).
  { unfold cutoff, pastTheCutoff.
    rewrite !andb_true_iff, orb_true_iff, andb_true_iff.
    rewrite Z.ltb_lt, Z.leb_le, Z.ltb_lt, Z.eqb_eq, Z.leb_le. tauto. }
  assert (Hrule :
    Order.assertDeliveryDateIsEqualOrAfterTheFirstAvailableDay tz clock
      (Value OrderType.DELIVERY) (Value deliveryDate)
    = if cutoff then Throw rejection else Return tt) by reflexivity.
  assert (Hcases :
    forall (A : Type) (result : completion A) (accepted : A),
      result = (if cutoff then Throw rejection else Return accepted) ->
      (result = Throw rejection <-> pastTheCutoff)
      /\ (~ pastTheCutoff -> result = Return accepted)).
  { intros A result accepted ->. destruct cutoff.
    - split; [split; [intros _; apply Hcutoff; reflexivity | reflexivity] |].
      intros Hnot. exfalso. apply Hnot, Hcutoff. reflexivity.
    - split; [split; [discriminate |] | reflexivity].
      intros Hpast. apply Hcutoff in Hpast. discriminate Hpast. }
  split; [apply (Hcases unit _ tt Hrule) |].
  split; [apply (Hcases unit _ tt Hrule) |].
  split.
  - intros table fuel command activeProducts closingPeriods order Htype Hdate Hadmin.
    apply Hcases.
    rewrite (create_delivery_non_admin tz clock table fuel command activeProducts
               closingPeriods order deliveryDate Htype Hdate Hadmin).
    rewrite Hrule. destruct cutoff; reflexivity.
  - intros table fuel command activeProducts closingPeriods e Htype.
    apply create_non_admin_rejected. rewrite Htype. reflexivity.
Qed.

Lemma delivery_same_week_cutoff_rule_witness :
  Order.create easternDaylightTime (clockAt (april2030 2 19 0 0)) tableOfTheTestSuite 7
    (johnDoeOrders OrderType.DELIVERY (april2030 4 19 0 0)) [fakeProduct] [] false
  = Throw (InvalidOrderError
             "delivery date 2030-04-04T23:00:00.000Z has to be one of the next available Thursday")
  /\ exists order,
      Order.create easternDaylightTime (clockAt (april2030 2 19 0 0)) tableOfTheTestSuite 7
        (johnDoeOrders OrderType.DELIVERY (april2030 11 19 0 0)) [fakeProduct] [] false
      = Return order.
Proof.
  split.
  - refine (proj2 (proj1 (proj1 (proj2 (proj2
             (delivery_same_week_cutoff_rule easternDaylightTime
                (clockAt (april2030 2 19 0 0)) (april2030 4 19 0 0))))
             tableOfTheTestSuite 7%nat
             (johnDoeOrders OrderType.DELIVERY (april2030 4 19 0 0)) [fakeProduct] []
             (newOrder (johnDoeOrders OrderType.DELIVERY (april2030 4 19 0 0))
                [ {| ProductWithQuantity.product := fakeProduct;
                     ProductWithQuantity.quantity := 1 |} ])
             eq_refl eq_refl eq_refl)) _).
    vm_compute. split; [reflexivity | split; [discriminate | right; split; [reflexivity | discriminate]]].
  - eexists.
    refine (proj2 (proj1 (proj2 (proj2
             (delivery_same_week_cutoff_rule easternDaylightTime
                (clockAt (april2030 2 19 0 0)) (april2030 11 19 0 0))))
             tableOfTheTestSuite 7%nat
             (johnDoeOrders OrderType.DELIVERY (april2030 11 19 0 0)) [fakeProduct] []
             (newOrder (johnDoeOrders OrderType.DELIVERY (april2030 11 19 0 0))
                [ {| ProductWithQuantity.product := fakeProduct;
                     ProductWithQuantity.quantity := 1 |} ])
             eq_refl eq_refl eq_refl) _).
    vm_compute. intros [H _]. discriminate H.
Defined.

(** C10. For every weekday 0..6, [getNextDateHavingDay] ends after at
    most 7 passes through its loop and returns a date of that weekday
    on the first calendar day after the one of [new Date()] that has
    it.  It ends only because the pick-up table has an entry for the
    placement weekday: when the filter over the table finds none, the
    weekday passed is [undefined], the loop never ends and neither does
    the pick-up check. *)
Theorem getNextDateHavingDay_terminates :
  forall (timeZoneOffset : Z) (clock : Clock),
    (forall day : Z,
        0 <= day < 7 ->
        let today := JsDate.calendarDay timeZoneOffset (newDate clock) in
        let passes := daysUntilNext (JsDate.getDay timeZoneOffset (newDate clock)) day in
        1 <= passes <= 7
        /\ (forall fuel : nat,
               passes <= Z.of_nat fuel ->
               exists found,
                 Order.getNextDateHavingDay timeZoneOffset clock fuel (Value day)
                 = Return found
                 /\ JsDate.getDay timeZoneOffset found = day
                 /\ JsDate.calendarDay timeZoneOffset found = today + passes)
        /\ (forall fuel : nat,
               Z.of_nat fuel < passes ->
               Order.getNextDateHavingDay timeZoneOffset clock fuel (Value day) = Hang)
        /\ (forall j : Z, 1 <= j < passes -> (today + j + 4) mod 7 <> day))
    /\ (forall fuel : nat,
           Order.getNextDateHavingDay timeZoneOffset clock fuel Undefined = Hang)
    /\ (forall (table : list AvailableDayForAPickUpOrder) (fuel : nat) (pickUpDate : Date),
           let now := effectiveNow timeZoneOffset clock in
           filter (fun entry => whenOrderIsPlacedOn entry
                                =? JsDate.getDay timeZoneOffset now) table = [] ->
           ~ (JsDate.calendarDay timeZoneOffset pickUpDate
              - JsDate.calendarDay timeZoneOffset now < 7
              /\ JsDate.getDay timeZoneOffset pickUpDate
                 = JsDate.getDay timeZoneOffset now) ->
           Order.assertPickUpDateIsEqualOrAfterTheFirstAvailableDay timeZoneOffset clock
             table fuel (Value OrderType.PICK_UP) (Value pickUpDate) = Hang).
Proof.
  intros tz clock. split; [| split].
  - intros day Hday today passes.
    pose proof (daysUntilNext_range (JsDate.getDay tz (newDate clock)) day) as Hpasses.
    split; [exact Hpasses |].
    split.
    { intros fuel Hfuel. exists (nextOccurrence tz (newDate clock) day).
      split; [apply loop_next_occurrence; assumption |].
      split; [apply daysUntilNext_hits; exact Hday | apply calendarDay_plus_days]. }
    split; [intros fuel Hfuel; apply loop_too_short; assumption |].
    intros j Hj.
    pose proof (daysUntilNext_first tz (newDate clock) day j Hj) as Hmiss.
    unfold JsDate.getDay in Hmiss. rewrite calendarDay_plus_days in Hmiss.
    exact Hmiss.
  - intros fuel. apply loop_undefined.
  - intros table fuel pickUpDate now Hempty Hsame.
    unfold Order.assertPickUpDateIsEqualOrAfterTheFirstAvailableDay.
    cbn [Order.strictEqualString]. change (String.eqb OrderType.PICK_UP OrderType.PICK_UP) with true.
    cbv beta iota zeta.
    change (if MAXIMUM_HOUR_TO_PLACE_A_PICK_UP_ORDER_BEFORE_BEING_CONSIDERED_AS_PLACED_THE_FOLLOWING_DAY
               <=? JsDate.getHours tz (getCurrentDateAtCanadaEasternTimeZone clock)
            then JsDate.setDateToFollowingDay (getCurrentDateAtCanadaEasternTimeZone clock)
            else getCurrentDateAtCanadaEasternTimeZone clock) with now.
    rewrite Hempty.
    replace ((getNumberOfDaysBetweenFirstDateAndSecondDate tz now pickUpDate
              <? NUMBER_OF_DAYS_IN_A_WEEK)
             && (JsDate.getDay tz now - JsDate.getDay tz pickUpDate =? 0)) with false.
    + cbn [map Order.first]. unfold Order.getNextDateHavingDay.
      rewrite loop_undefined. reflexivity.
    + symmetry. apply andb_false_iff.
      unfold getNumberOfDaysBetweenFirstDateAndSecondDate, NUMBER_OF_DAYS_IN_A_WEEK.
      destruct (Z.ltb_spec (JsDate.calendarDay tz pickUpDate - JsDate.calendarDay tz now) 7);
        [right | left; reflexivity].
      apply Z.eqb_neq. intros Heq. apply Hsame. split; [assumption | lia].
Qed.

(** From Monday 1 April 2030 the next Thursday is found in 3 passes,
    and not in 2; with an empty table the pick-up check does not
    end. *)
Lemma getNextDateHavingDay_terminates_witness :
  (exists found,
      Order.getNextDateHavingDay easternDaylightTime (clockAt (april2030 1 18 59 59)) 3
        (Value Day.THURSDAY) = Return found
      /\ JsDate.getDay easternDaylightTime found = Day.THURSDAY
      /\ JsDate.calendarDay easternDaylightTime found
         = JsDate.calendarDay easternDaylightTime (april2030 1 18 59 59) + 3)
  /\ Order.getNextDateHavingDay easternDaylightTime (clockAt (april2030 1 18 59 59)) 2
       (Value Day.THURSDAY)
     = Hang
  /\ Order.assertPickUpDateIsEqualOrAfterTheFirstAvailableDay easternDaylightTime
       (clockAt (april2030 1 18 59 59)) [] 1000
       (Value OrderType.PICK_UP) (Value (april2030 4 18 59 59))
     = Hang.
Proof.
  assert (Hday : 0 <= Day.THURSDAY < 7) by (vm_compute; split; [discriminate | reflexivity]).
  split; [| split].
  - refine (proj1 (proj2 (proj1
             (getNextDateHavingDay_terminates easternDaylightTime
                (clockAt (april2030 1 18 59 59))) Day.THURSDAY Hday)) 3%nat _).
    vm_compute. discriminate.
  - refine (proj1 (proj2 (proj2 (proj1
             (getNextDateHavingDay_terminates easternDaylightTime
                (clockAt (april2030 1 18 59 59))) Day.THURSDAY Hday))) 2%nat _).
    vm_compute. reflexivity.
  - refine (proj2 (proj2
             (getNextDateHavingDay_terminates easternDaylightTime
                (clockAt (april2030 1 18 59 59)))) nil 1000%nat (april2030 4 18 59 59)
             eq_refl _).
    vm_compute. intros [_ H]. discriminate H.
Defined.

(** ** The date field of the type *)

Section TypeSelection.

Variable timeZoneOffset : Z.
Variable clock : Clock.

(** A type the type check accepts is one of the three members. *)
Lemma assertTypeIsValid_member (type : nullable string) (isAdmin : bool) :
  Order.assertTypeIsValid type isAdmin = Return tt ->
  isType type OrderType.PICK_UP = true
  \/ isType type OrderType.DELIVERY = true
  \/ isType type OrderType.RESERVATION = true.
Proof.
  unfold Order.assertTypeIsValid, Order.includesString, OrderType.keys, isType.
  destruct (isEmptyString type); [discriminate|].
  cbn [existsb].
  destruct (Order.strictEqualString type (Value OrderType.PICK_UP)); [auto|].
  destruct (Order.strictEqualString type (Value OrderType.DELIVERY)); [auto|].
  destruct (Order.strictEqualString type (Value OrderType.RESERVATION)); [auto|].
  cbn. discriminate.
Qed.

Lemma checked_selection_matches_type
  (command : AnyOrderCommand.t) (closingPeriods : list ClosingPeriodInterface.t)
  (isAdmin : bool) (o : Order.t) :
  orderTypeSelectionChecks timeZoneOffset clock command closingPeriods isAdmin = Return tt ->
  fieldsMatchType (withOrderTypeSelection command o) = true.
Proof.
  unfold orderTypeSelectionChecks, fieldsMatchType, withOrderTypeSelection.
  cbn [Order.type Order.pickUpDate Order.deliveryDate Order.deliveryAddress
       Order.reservationDate].
  destruct (Order.assertTypeIsValid _ _) as [[]|e|] eqn:Htype; cbn [andThen];
    try discriminate.
  apply assertTypeIsValid_member in Htype.
  unfold Order.assertPickUpDateIsValid, Order.assertDeliveryDateIsValid,
    Order.assertDeliveryAddressIsValid, Order.assertReservationDateIsValid.
  fold (isType (AnyOrderCommand.type command) OrderType.PICK_UP).
  fold (isType (AnyOrderCommand.type command) OrderType.DELIVERY).
  fold (isType (AnyOrderCommand.type command) OrderType.RESERVATION).
  destruct (isType (AnyOrderCommand.type command) OrderType.PICK_UP).
  { destruct (AnyOrderCommand.pickUpDate command); try discriminate. reflexivity. }
  cbn [andThen].
  destruct (isType (AnyOrderCommand.type command) OrderType.DELIVERY).
  { destruct (AnyOrderCommand.deliveryDate command); try discriminate.
    destruct (isFirstDateBeforeSecondDateIgnoringHours _ _ _); [discriminate|].
    destruct (Order.assertOutsideClosingPeriods _ _ _ ;; _) as [[]|e|]; cbn [andThen];
      try discriminate.
    cbn [andb].
    destruct (isEmptyString (AnyOrderCommand.deliveryAddress command)); [discriminate|].
    reflexivity. }
  cbn [andThen andb].
  destruct (isType (AnyOrderCommand.type command) OrderType.RESERVATION).
  { destruct (AnyOrderCommand.reservationDate command); try discriminate. reflexivity. }
  destruct Htype as [H|[H|H]]; discriminate H.
Qed.

End TypeSelection.

(** What [fieldsMatchType] says, field by field. *)
Lemma fieldsMatchType_reading (o : Order.t) :
  fieldsMatchType o = true ->
  (Order.type o = Value OrderType.PICK_UP
   /\ (exists date, Order.pickUpDate o = Value date)
   /\ Order.deliveryDate o = Null /\ Order.deliveryAddress o = Null
   /\ Order.reservationDate o = Null)
  \/ (Order.type o = Value OrderType.DELIVERY
      /\ Order.pickUpDate o = Null
      /\ (exists date, Order.deliveryDate o = Value date)
      /\ (exists address, Order.deliveryAddress o = Value address /\ address <> "")
      /\ Order.reservationDate o = Null)
  \/ (Order.type o = Value OrderType.RESERVATION
      /\ Order.pickUpDate o = Null /\ Order.deliveryDate o = Null
      /\ Order.deliveryAddress o = Null
      /\ exists date, Order.reservationDate o = Value date).
Proof.
  assert (Hmember : forall (t : nullable string) (member : string),
             isType t member = true -> t = Value member).
  { intros [| |t] member; cbn; try discriminate.
    intros H. apply String.eqb_eq in H. congruence. }
  unfold fieldsMatchType.
  destruct (isType (Order.type o) OrderType.PICK_UP) eqn:Hp.
  { rewrite !andb_true_iff. intros [[[H1 H2] H3] H4]. left.
    split; [apply Hmember; exact Hp |].
    destruct (Order.pickUpDate o) as [| |date]; try discriminate.
    destruct (Order.deliveryDate o); try discriminate.
    destruct (Order.deliveryAddress o); try discriminate.
    destruct (Order.reservationDate o); try discriminate.
    repeat split. exists date. reflexivity. }
  destruct (isType (Order.type o) OrderType.DELIVERY) eqn:Hd.
  { rewrite !andb_true_iff. intros [[[H1 H2] H3] H4]. right. left.
    split; [apply Hmember; exact Hd |].
    destruct (Order.pickUpDate o); try discriminate.
    destruct (Order.deliveryDate o) as [| |date]; try discriminate.
    destruct (Order.deliveryAddress o) as [| |[|c address]]; try discriminate.
    destruct (Order.reservationDate o); try discriminate.
    repeat split; [exists date; reflexivity |].
    exists (String c address). split; [reflexivity | discriminate]. }
  destruct (isType (Order.type o) OrderType.RESERVATION) eqn:Hr; [| discriminate].
  rewrite !andb_true_iff. intros [[[H1 H2] H3] H4]. right. right.
  split; [apply Hmember; exact Hr |].
  destruct (Order.pickUpDate o); try discriminate.
  destruct (Order.deliveryDate o); try discriminate.
  destruct (Order.deliveryAddress o); try discriminate.
  destruct (Order.reservationDate o) as [| |date]; try discriminate.
  repeat split. exists date. reflexivity.
Qed.

(** C4. After every successful [create] and every successful
    [updateWith], whatever the command, the products, the closing
    periods, the admin flag and the order before the update: the date
    field of the type of the order is populated (with a non-empty
    [deliveryAddress] for DELIVERY), and the other date fields, and
    [deliveryAddress] when the type is not DELIVERY, are [null]. *)
Theorem date_field_matches_type :
  forall (timeZoneOffset : Z) (clock : Clock) (table : list AvailableDayForAPickUpOrder),
    (forall (fuel : nat) (command : NewOrderCommand.t) (activeProducts : list Product.t)
            (closingPeriods : list ClosingPeriodInterface.t) (isAdmin : bool)
            (order : Order.t),
        Order.create timeZoneOffset clock table fuel command activeProducts closingPeriods
          isAdmin = Return order ->
        fieldsMatchType order = true
        /\ Order.type order = NewOrderCommand.type command)
    /\ (forall (command : UpdateOrderCommand.t) (activeProducts : list Product.t)
               (closingPeriods : list ClosingPeriodInterface.t) (this this' : Order.t),
           Order.updateWith timeZoneOffset clock command activeProducts closingPeriods this
           = (Return tt, this') ->
           fieldsMatchType this' = true
           /\ Order.type this' = UpdateOrderCommand.type command).
Proof.
  intros tz clock table. split.
  - intros fuel command activeProducts closingPeriods isAdmin order.
    rewrite create_spec.
    destruct (contactDetailsChecks command) as [[]|e|]; cbn [andThen]; try discriminate.
    destruct (productSelectionChecks _ _) as [resolved|e|]; cbn [andThen]; try discriminate.
    destruct (orderTypeSelectionChecks _ _ _ _ _) as [[]|e|] eqn:Hchecks; cbn [andThen];
      try discriminate.
    destruct (if negb isAdmin then _ else _) as [[]|e|]; cbn [andThen]; try discriminate.
    intros H. injection H as <-.
    split; [| reflexivity].
    exact (checked_selection_matches_type tz clock (inl command) closingPeriods isAdmin
             _ Hchecks).
  - intros command activeProducts closingPeriods this this'.
    rewrite updateWith_spec.
    destruct (negb _); [discriminate|].
    destruct (productSelectionChecks _ _) as [resolved|e|]; try discriminate.
    destruct (orderTypeSelectionChecks _ _ _ _ _) as [[]|e|] eqn:Hchecks; try discriminate.
    intros H. injection H as <-.
    split; [| reflexivity].
    exact (checked_selection_matches_type tz clock (inr command) closingPeriods true
             _ Hchecks).
Qed.

Lemma date_field_matches_type_witness :
  fieldsMatchType
    (newOrder (johnDoeOrders OrderType.DELIVERY (april2030 11 19 0 0))
       [ {| ProductWithQuantity.product := fakeProduct;
            ProductWithQuantity.quantity := 1 |} ])
  = true.
Proof.
  exact (proj1 (proj1
           (date_field_matches_type easternDaylightTime (clockAt (april2030 2 19 0 0))
              tableOfTheTestSuite)
           7%nat (johnDoeOrders OrderType.DELIVERY (april2030 11 19 0 0)) [fakeProduct] []
           false
           (newOrder (johnDoeOrders OrderType.DELIVERY (april2030 11 19 0 0))
              [ {| ProductWithQuantity.product := fakeProduct;
                   ProductWithQuantity.quantity := 1 |} ])
           eq_refl)).
Defined.

(** ** What the shared validations can throw *)

Lemma forEach_outcome {A} (check : A -> completion unit) (l : list A) :
  (forall x e, check x = Throw e -> isInvalidOrderError e) ->
  (forall x, check x <> Hang) ->
  forEach check l <> Hang
  /\ forall e, forEach check l = Throw e -> isInvalidOrderError e.
Proof.
  intros Hthrow Hhang.
  induction l as [|x l [IHhang IHthrow]]; cbn [forEach];
    [split; [discriminate | intros e H; discriminate H] |].
  specialize (Hthrow x). specialize (Hhang x).
  destruct (check x) as [[]|e'|]; cbn [andThen].
  - split; assumption.
  - split; [discriminate |]. intros e H. injection H as <-. apply Hthrow. reflexivity.
  - contradiction.
Qed.

Lemma mapThrowing_outcome {A B} (f : A -> completion B) (l : list A) :
  (forall x e, f x = Throw e -> isInvalidOrderError e) ->
  (forall x, f x <> Hang) ->
  mapThrowing f l <> Hang
  /\ forall e, mapThrowing f l = Throw e -> isInvalidOrderError e.
Proof.
  intros Hthrow Hhang.
  induction l as [|x l [IHhang IHthrow]]; cbn [mapThrowing];
    [split; [discriminate | intros e H; discriminate H] |].
  specialize (Hthrow x). specialize (Hhang x).
  destruct (f x) as [y|e'|]; cbn [andThen].
  - destruct (mapThrowing f l) as [ys|e'|]; cbn [andThen].
    + split; [discriminate | intros e H; discriminate H].
    + split; [discriminate |]. intros e H. injection H as <-. apply IHthrow. reflexivity.
    + contradiction.
  - split; [discriminate |]. intros e H. injection H as <-. apply Hthrow. reflexivity.
  - contradiction.
Qed.

Lemma contactDetailsChecks_outcome (command : NewOrderCommand.t) :
  contactDetailsChecks command <> Hang
  /\ forall e, contactDetailsChecks command = Throw e -> isInvalidOrderError e.
Proof.
  unfold contactDetailsChecks, Order.assertClientNameIsValid,
    Order.assertClientPhoneNumberIsValid, Order.assertClientEmailAddressIsValid.
  destruct (isEmptyString (NewOrderCommand.clientName command)); cbn [andThen];
    [settle_outcome |].
  destruct (isEmptyString (NewOrderCommand.clientPhoneNumber command)); cbn [andThen];
    [settle_outcome |].
  destruct (isEmptyString (NewOrderCommand.clientEmailAddress command));
    [settle_outcome |].
  destruct (negb _); settle_outcome.
Qed.

Lemma productSelectionChecks_outcome
  (products : list ProductIdWithQuantity.t) (activeProducts : list Product.t) :
  productSelectionChecks products activeProducts <> Hang
  /\ forall e, productSelectionChecks products activeProducts = Throw e ->
               isInvalidOrderError e.
Proof.
  unfold productSelectionChecks, Order.assertProductsAreValid.
  destruct (isEmptyArray products); cbn [andThen]; [settle_outcome |].
  match goal with
  | |- context [forEach ?check products] =>
      destruct (forEach_outcome check products) as [Hhang Hthrow]
  end.
  { intros x e. destruct (_ <? _); intros H; [injection H as <-; invalid_order | discriminate H]. }
  { intros x. destruct (_ <? _); discriminate. }
  destruct (forEach _ products) as [[]|e'|]; cbn [andThen].
  - apply mapThrowing_outcome.
    + intros x e. unfold Order.toProductWithQuantity.
      destruct (find _ activeProducts); intros H;
        [discriminate H | injection H as <-; invalid_order].
    + intros x. unfold Order.toProductWithQuantity.
      destruct (find _ activeProducts); discriminate.
  - split; [discriminate |]. intros e H. injection H as <-. apply Hthrow. reflexivity.
  - contradiction.
Qed.

Lemma assertOutsideClosingPeriods_outcome
  (closingPeriods : list ClosingPeriodInterface.t) (date : Date) (message : string) :
  Order.assertOutsideClosingPeriods closingPeriods date message <> Hang
  /\ forall e, Order.assertOutsideClosingPeriods closingPeriods date message = Throw e ->
               isInvalidOrderError e.
Proof.
  unfold Order.assertOutsideClosingPeriods. apply forEach_outcome.
  - intros x e. destruct (_ && _); intros H; [injection H as <-; invalid_order | discriminate H].
  - intros x. destruct (_ && _); discriminate.
Qed.

(** With the admin flag set, the type and date checks throw
    InvalidOrder errors only. *)
Lemma orderTypeSelectionChecks_admin_outcome
  (timeZoneOffset : Z) (clock : Clock) (command : AnyOrderCommand.t)
  (closingPeriods : list ClosingPeriodInterface.t) :
  orderTypeSelectionChecks timeZoneOffset clock command closingPeriods true <> Hang
  /\ forall e,
      orderTypeSelectionChecks timeZoneOffset clock command closingPeriods true = Throw e ->
      isInvalidOrderError e.
Proof.
  unfold orderTypeSelectionChecks.
  assert (Htype :
    Order.assertTypeIsValid (AnyOrderCommand.type command) true <> Hang
    /\ forall e, Order.assertTypeIsValid (AnyOrderCommand.type command) true = Throw e ->
                 isInvalidOrderError e).
  { unfold Order.assertTypeIsValid.
    destruct (isEmptyString _); [settle_outcome |].
    destruct (negb _); [settle_outcome |].
    rewrite andb_false_r. settle_outcome. }
  assert (Hpick :
    forall type date,
      Order.assertPickUpDateIsValid timeZoneOffset clock type closingPeriods date <> Hang
      /\ forall e,
          Order.assertPickUpDateIsValid timeZoneOffset clock type closingPeriods date
          = Throw e -> isInvalidOrderError e).
  { intros type date. unfold Order.assertPickUpDateIsValid.
    destruct (Order.strictEqualString _ _); [| settle_outcome].
    destruct date as [| |date]; try settle_outcome.
    cbv zeta. destruct (isFirstDateBeforeSecondDateIgnoringHours _ _ _); [settle_outcome |].
    destruct (Order.includesDay _ _); [settle_outcome |].
    apply assertOutsideClosingPeriods_outcome. }
  assert (Hdelivery :
    forall type date,
      Order.assertDeliveryDateIsValid timeZoneOffset clock type closingPeriods date <> Hang
      /\ forall e,
          Order.assertDeliveryDateIsValid timeZoneOffset clock type closingPeriods date
          = Throw e -> isInvalidOrderError e).
  { intros type date. unfold Order.assertDeliveryDateIsValid.
    destruct (Order.strictEqualString _ _); [| settle_outcome].
    destruct date as [| |date]; try settle_outcome.
    cbv zeta. destruct (isFirstDateBeforeSecondDateIgnoringHours _ _ _); [settle_outcome |].
    match goal with
    | |- context [Order.assertOutsideClosingPeriods ?c ?d ?m] =>
        destruct (assertOutsideClosingPeriods_outcome c d m) as [Hhang Hthrow];
        destruct (Order.assertOutsideClosingPeriods c d m) as [[]|e'|]; cbn [andThen]
    end.
    - destruct (negb _); settle_outcome.
    - split; [discriminate |]. intros e H. injection H as <-. apply Hthrow. reflexivity.
    - contradiction. }
  assert (Haddress :
    forall type address,
      Order.assertDeliveryAddressIsValid type address <> Hang
      /\ forall e, Order.assertDeliveryAddressIsValid type address = Throw e ->
                   isInvalidOrderError e).
  { intros type address. unfold Order.assertDeliveryAddressIsValid.
    destruct (_ && _); settle_outcome. }
  assert (Hreservation :
    forall type date,
      Order.assertReservationDateIsValid timeZoneOffset clock type closingPeriods date
      <> Hang
      /\ forall e,
          Order.assertReservationDateIsValid timeZoneOffset clock type closingPeriods date
          = Throw e -> isInvalidOrderError e).
  { intros type date. unfold Order.assertReservationDateIsValid.
    destruct (Order.strictEqualString _ _); [| settle_outcome].
    destruct date as [| |date]; try settle_outcome.
    cbv zeta. destruct (isFirstDateBeforeSecondDateIgnoringHours _ _ _); [settle_outcome |].
    destruct (Order.includesDay _ _); [settle_outcome |].
    apply assertOutsideClosingPeriods_outcome. }
  assert (Hseq :
    forall c1 c2 : completion unit,
      (c1 <> Hang /\ forall e, c1 = Throw e -> isInvalidOrderError e) ->
      (c2 <> Hang /\ forall e, c2 = Throw e -> isInvalidOrderError e) ->
      (c1 ;; c2) <> Hang /\ forall e, (c1 ;; c2) = Throw e -> isInvalidOrderError e).
  { intros c1 c2 [H1 H1'] H2. destruct c1 as [[]|e'|]; cbn [andThen].
    - exact H2.
    - split; [discriminate |]. intros e H. injection H as <-. apply H1'. reflexivity.
    - contradiction. }
  repeat apply Hseq; auto.
Qed.

(** ** Reservations *)

Lemma assertOutsideClosingPeriods_passes
  (closingPeriods : list ClosingPeriodInterface.t) (date : Date) (message : string) :
  (forall period, In period closingPeriods ->
                  ~ (ClosingPeriodInterface.startDate period <= date
                     <= ClosingPeriodInterface.endDate period)) ->
  Order.assertOutsideClosingPeriods closingPeriods date message = Return tt.
Proof.
  unfold Order.assertOutsideClosingPeriods, JsDate.getTime.
  induction closingPeriods as [|period rest IH]; intros Houtside; cbn [forEach];
    [reflexivity|].
  replace ((ClosingPeriodInterface.startDate period <=? date)
           && (date <=? ClosingPeriodInterface.endDate period)) with false.
  - cbn [andThen]. apply IH. intros p Hp. apply Houtside. right. exact Hp.
  - symmetry. apply andb_false_iff.
    specialize (Houtside period (or_introl eq_refl)).
    destruct (Z.leb_spec (ClosingPeriodInterface.startDate period) date);
      [right; apply Z.leb_gt; lia | left; reflexivity].
Qed.

(** A reservation asked with an empty client name by a caller who is
    not an admin: the contact details are checked first and creation
    fails with an InvalidOrder error. *)
Lemma reservation_refusal_comes_after_contact_checks :
  Order.create easternDaylightTime (clockAt (april2030 3 19 0 0)) tableOfTheTestSuite 7
    (namelessOrders OrderType.RESERVATION (april2030 4 19 0 0)) [fakeProduct] [] false
  = Throw (InvalidOrderError "client name has to be defined")
  /\ Order.create easternDaylightTime (clockAt (april2030 3 19 0 0)) tableOfTheTestSuite 7
       (namelessOrders OrderType.RESERVATION (april2030 4 19 0 0)) [fakeProduct] [] false
     <> Throw (InvalidUserError "RESERVATION order type requires to be ADMIN")
  /\ NewOrderCommand.type (namelessOrders OrderType.RESERVATION (april2030 4 19 0 0))
     = Value OrderType.RESERVATION.
Proof.
  vm_compute. repeat split. discriminate.
Qed.

(** C6, amended.  The type check refuses a create command of type
    RESERVATION from a caller who is not an admin with the InvalidUser
    error [RESERVATION order type requires to be ADMIN], which is not an
    InvalidOrder error: [create] never returns an order for such a
    command, and throws that error once the contact details and the
    products, checked first, have passed.  The same command from an
    admin, with a reservation date that is not before today, falls on
    Tuesday to Saturday and is outside every closing period, is
    accepted. *)
Theorem reservation_requires_admin :
  forall (timeZoneOffset : Z) (clock : Clock) (table : list AvailableDayForAPickUpOrder)
         (fuel : nat) (command : NewOrderCommand.t) (activeProducts : list Product.t)
         (closingPeriods : list ClosingPeriodInterface.t),
    let refusal := InvalidUserError "RESERVATION order type requires to be ADMIN" in
    NewOrderCommand.type command = Value OrderType.RESERVATION ->
    Order.assertTypeIsValid (NewOrderCommand.type command) false = Throw refusal
    /\ (forall message, refusal <> InvalidOrderError message)
    /\ (forall order,
           Order.create timeZoneOffset clock table fuel command activeProducts
             closingPeriods false <> Return order)
    /\ (contactDetailsChecks command = Return tt ->
        (exists resolved,
            productSelectionChecks (NewOrderCommand.products command) activeProducts
            = Return resolved) ->
        Order.create timeZoneOffset clock table fuel command activeProducts
          closingPeriods false = Throw refusal)
    /\ (Order.create timeZoneOffset clock table fuel command activeProducts
          closingPeriods false = Throw refusal ->
        forall reservationDate : Date,
          NewOrderCommand.reservationDate command = Value reservationDate ->
          ~ JsDate.calendarDay timeZoneOffset reservationDate
            < JsDate.calendarDay timeZoneOffset (getCurrentDateAtCanadaEasternTimeZone clock) ->
          Day.TUESDAY <= JsDate.getDay timeZoneOffset reservationDate <= Day.SATURDAY ->
          (forall period, In period closingPeriods ->
                          ~ (ClosingPeriodInterface.startDate period <= reservationDate
                             <= ClosingPeriodInterface.endDate period)) ->
          exists order,
            Order.create timeZoneOffset clock table fuel command activeProducts
              closingPeriods true = Return order
            /\ Order.type order = Value OrderType.RESERVATION
            /\ Order.reservationDate order = Value reservationDate).
Proof.
  intros tz clock table fuel command activeProducts closingPeriods refusal Htype.
  assert (Hcheck : Order.assertTypeIsValid (NewOrderCommand.type command) false
                   = Throw refusal) by (rewrite Htype; reflexivity).
  assert (Hcreate :
    Order.create tz clock table fuel command activeProducts closingPeriods false
    = (contactDetailsChecks command ;;
       andThen (productSelectionChecks (NewOrderCommand.products command) activeProducts)
         (fun _ => Throw refusal))).
  { rewrite create_spec. unfold orderTypeSelectionChecks.
    cbn [AnyOrderCommand.type]. rewrite Hcheck. reflexivity. }
  split; [exact Hcheck |].
  split; [discriminate |].
  split.
  { intros order. rewrite Hcreate.
    destruct (contactDetailsChecks command) as [[]|e|]; cbn [andThen]; try discriminate.
    destruct (productSelectionChecks _ _) as [resolved|e|]; cbn [andThen]; discriminate. }
  split.
  { intros Hcontact [resolved Hproducts]. rewrite Hcreate, Hcontact, Hproducts.
    reflexivity. }
  intros Hrefused reservationDate Hdate Hfuture Hday Houtside.
  rewrite Hcreate in Hrefused. rewrite create_spec.
  destruct (contactDetailsChecks_outcome command) as [_ Hcontact].
  destruct (productSelectionChecks_outcome (NewOrderCommand.products command)
              activeProducts) as [_ Hproducts].
  destruct (contactDetailsChecks command) as [[]|e|]; cbn [andThen] in *;
    [| injection Hrefused as ->; destruct (Hcontact _ eq_refl); discriminate
     | discriminate].
  destruct (productSelectionChecks _ _) as [resolved|e|]; cbn [andThen] in *;
    [| injection Hrefused as ->; destruct (Hproducts _ eq_refl); discriminate
     | discriminate].
  exists (newOrder command resolved).
  assert (Hchecks :
    orderTypeSelectionChecks tz clock (inl command) closingPeriods true = Return tt).
  { unfold orderTypeSelectionChecks.
    cbn [AnyOrderCommand.type AnyOrderCommand.pickUpDate AnyOrderCommand.deliveryDate
         AnyOrderCommand.deliveryAddress AnyOrderCommand.reservationDate].
    rewrite Htype, Hdate.
    change (Order.assertTypeIsValid (Value OrderType.RESERVATION) true) with (Return tt).
    change (Order.assertPickUpDateIsValid tz clock (Value OrderType.RESERVATION)
              closingPeriods (NewOrderCommand.pickUpDate command)) with (Return tt).
    change (Order.assertDeliveryDateIsValid tz clock (Value OrderType.RESERVATION)
              closingPeriods (NewOrderCommand.deliveryDate command)) with (Return tt).
    change (Order.assertDeliveryAddressIsValid (Value OrderType.RESERVATION)
              (NewOrderCommand.deliveryAddress command)) with (Return tt).
    cbn [andThen].
    unfold Order.assertReservationDateIsValid.
    change (Order.strictEqualString (Value OrderType.RESERVATION)
              (Value OrderType.RESERVATION)) with true.
    cbv iota.
    replace (isFirstDateBeforeSecondDateIgnoringHours tz reservationDate
               (getCurrentDateAtCanadaEasternTimeZone clock)) with false
      by (symmetry; apply Z.ltb_ge; lia).
    replace (Order.includesDay CLOSING_DAYS (JsDate.getDay tz reservationDate)) with false.
    - apply assertOutsideClosingPeriods_passes. exact Houtside.
    - symmetry. unfold Order.includesDay, CLOSING_DAYS. cbn [existsb].
      unfold Day.TUESDAY, Day.SATURDAY, Day.SUNDAY, Day.MONDAY in *.
      rewrite !orb_false_iff. repeat split; try apply Z.eqb_neq; lia. }
  rewrite Hchecks. cbn [andThen negb].
  split; [reflexivity |].
  unfold newOrder, withOrderTypeSelection.
  cbn [Order.set_note Order.type Order.reservationDate AnyOrderCommand.type
       AnyOrderCommand.reservationDate].
  rewrite Htype, Hdate. split; reflexivity.
Qed.

Lemma reservation_requires_admin_witness :
  Order.create easternDaylightTime (clockAt (april2030 3 19 0 0)) tableOfTheTestSuite 7
    (johnDoeOrders OrderType.RESERVATION (april2030 4 19 0 0)) [fakeProduct] [] false
  = Throw (InvalidUserError "RESERVATION order type requires to be ADMIN").
Proof.
  refine (proj1 (proj2 (proj2 (proj2
           (reservation_requires_admin easternDaylightTime (clockAt (april2030 3 19 0 0))
              tableOfTheTestSuite 7
              (johnDoeOrders OrderType.RESERVATION (april2030 4 19 0 0)) [fakeProduct] []
              eq_refl)))) eq_refl _).
  eexists. vm_compute. reflexivity.
Defined.

(** ** Updates *)

(** C7. [updateWith] acts for an admin.  It never throws an InvalidUser
    error, so RESERVATION is always a permitted type; it returns exactly
    when the order id matches and the product stage and the type and
    date validations of an admin pass, and an error it throws is the
    one of the id check or of one of these validations: the
    first-available-day rule for pick-up and the same-week cutoff rule
    for delivery take no part.  Whatever the outcome, [clientName],
    [clientPhoneNumber] and [clientEmailAddress] are left as they
    were. *)
Theorem updateWith_acts_as_admin :
  forall (timeZoneOffset : Z) (clock : Clock) (command : UpdateOrderCommand.t)
         (activeProducts : list Product.t) (closingPeriods : list ClosingPeriodInterface.t)
         (this this' : Order.t) (result : completion unit),
    Order.updateWith timeZoneOffset clock command activeProducts closingPeriods this
    = (result, this') ->
    (forall message, result <> Throw (InvalidUserError message))
    /\ Order.assertTypeIsValid (Value OrderType.RESERVATION) true = Return tt
    /\ result <> Hang
    /\ (result = Return tt
        <-> strictEqualNumber (Order.id this) (UpdateOrderCommand.orderId command) = true
            /\ (exists resolved,
                   productSelectionChecks (UpdateOrderCommand.products command)
                     activeProducts = Return resolved)
            /\ orderTypeSelectionChecks timeZoneOffset clock (inr command) closingPeriods
                 true = Return tt)
    /\ (forall e,
           result = Throw e ->
           (strictEqualNumber (Order.id this) (UpdateOrderCommand.orderId command) = false
            /\ e = InvalidOrderError
                     ("existing order id " ++ nullableNumberToString (Order.id this)
                      ++ " does not match command order id "
                      ++ nullableNumberToString (UpdateOrderCommand.orderId command)))
           \/ productSelectionChecks (UpdateOrderCommand.products command) activeProducts
              = Throw e
           \/ orderTypeSelectionChecks timeZoneOffset clock (inr command) closingPeriods
                true = Throw e)
    /\ Order.clientName this' = Order.clientName this
    /\ Order.clientPhoneNumber this' = Order.clientPhoneNumber this
    /\ Order.clientEmailAddress this' = Order.clientEmailAddress this.
Proof.
  intros tz clock command activeProducts closingPeriods this this' result.
  rewrite updateWith_spec.
  destruct (productSelectionChecks_outcome (UpdateOrderCommand.products command)
              activeProducts) as [HproductsHang HproductsThrow].
  destruct (orderTypeSelectionChecks_admin_outcome tz clock (inr command) closingPeriods)
    as [HchecksHang HchecksThrow].
  destruct (strictEqualNumber _ _); cbn [negb].
  - destruct (productSelectionChecks _ _) as [resolved|e'|].
    + destruct (orderTypeSelectionChecks _ _ _ _ _) as [[]|e'|].
      * intros H. injection H as <- <-.
        split; [discriminate |]. split; [reflexivity |]. split; [discriminate |].
        split; [split; [intros _; repeat split; exists resolved; reflexivity
                       | reflexivity] |].
        split; [discriminate |]. repeat split.
      * intros H. injection H as <- <-.
        split; [intros message Heq; injection Heq as ->;
                destruct (HchecksThrow _ eq_refl); discriminate |].
        split; [reflexivity |]. split; [discriminate |].
        split; [split; [discriminate | intros [_ [_ Heq]]; discriminate Heq] |].
        split; [intros e Heq; injection Heq as <-; right; right; reflexivity |].
        repeat split.
      * contradiction.
    + intros H. injection H as <- <-.
      split; [intros message Heq; injection Heq as ->;
              destruct (HproductsThrow _ eq_refl); discriminate |].
      split; [reflexivity |]. split; [discriminate |].
      split; [split; [discriminate | intros [_ [[resolved Heq] _]]; discriminate Heq] |].
      split; [intros e Heq; injection Heq as <-; right; left; reflexivity |].
      repeat split.
    + contradiction.
  - intros H. injection H as <- <-.
    split; [discriminate |]. split; [reflexivity |]. split; [discriminate |].
    split; [split; [discriminate | intros [Heq _]; discriminate Heq] |].
    split; [intros e Heq; injection Heq as <-; left; split; reflexivity |].
    repeat split.
Qed.

Lemma updateWith_acts_as_admin_witness :
  Order.clientName
    (updatedOrder sameWeekDeliveryUpdate
       [ {| ProductWithQuantity.product := fakeProduct;
            ProductWithQuantity.quantity := 2 |} ]
       storedOrder)
  = Order.clientName storedOrder.
Proof.
  refine (proj1 (proj2 (proj2 (proj2 (proj2 (proj2
           (updateWith_acts_as_admin easternDaylightTime (clockAt (april2030 2 19 0 0))
              sameWeekDeliveryUpdate [fakeProduct] [] storedOrder
              (updatedOrder sameWeekDeliveryUpdate
                 [ {| ProductWithQuantity.product := fakeProduct;
                      ProductWithQuantity.quantity := 2 |} ]
                 storedOrder)
              (Return tt) _))))))).
  vm_compute. reflexivity.
Defined.

(** ** The product stage *)

Section ProductStage.

Variable activeProducts : list Product.t.

Lemma toProductWithQuantity_resolves (p : ProductIdWithQuantity.t) :
  resolves activeProducts p = true ->
  exists resolved,
    Order.toProductWithQuantity p activeProducts = Return resolved
    /\ snapshotOf activeProducts p resolved.
Proof.
  unfold resolves, Order.toProductWithQuantity. intros H.
  destruct (find _ activeProducts) as [found|] eqn:Hfind.
  - eexists. split; [reflexivity |].
    apply find_some in Hfind. destruct Hfind as [Hin Hid].
    apply Z.eqb_eq in Hid. repeat split; assumption.
  - apply existsb_exists in H. destruct H as [product [Hin Hid]].
    pose proof (find_none _ _ Hfind product Hin) as Hnone. cbv beta in Hnone.
    congruence.
Qed.

Lemma toProductWithQuantity_unresolved (p : ProductIdWithQuantity.t) :
  resolves activeProducts p = false ->
  Order.toProductWithQuantity p activeProducts
  = Throw (InvalidOrderError
             ("product with id " ++ numberToString (ProductIdWithQuantity.productId p)
              ++ " not found")).
Proof.
  unfold resolves, Order.toProductWithQuantity. intros H.
  destruct (find _ activeProducts) as [found|] eqn:Hfind; [| reflexivity].
  apply find_some in Hfind. destruct Hfind as [Hin Hid].
  assert (Htrue : existsb (fun product =>
                             Product.id product =? ProductIdWithQuantity.productId p)
                    activeProducts = true)
    by (apply existsb_exists; exists found; split; assumption).
  congruence.
Qed.

Lemma mapThrowing_all_resolve (products : list ProductIdWithQuantity.t) :
  (forall p, In p products -> resolves activeProducts p = true) ->
  exists resolved,
    mapThrowing (fun p => Order.toProductWithQuantity p activeProducts) products
    = Return resolved
    /\ Forall2 (snapshotOf activeProducts) products resolved.
Proof.
  induction products as [|p products IH]; intros Hall; cbn [mapThrowing].
  - exists []. split; [reflexivity | constructor].
  - destruct (toProductWithQuantity_resolves p (Hall p (or_introl eq_refl)))
      as [r [Hr Hsnapshot]].
    destruct IH as [rs [Hrs Hsnapshots]]; [intros q Hq; apply Hall; right; exact Hq |].
    exists (r :: rs). rewrite Hr, Hrs. split; [reflexivity |].
    constructor; assumption.
Qed.

Lemma mapThrowing_first_unresolved
  (before : list ProductIdWithQuantity.t) (p : ProductIdWithQuantity.t)
  (after : list ProductIdWithQuantity.t) :
  (forall q, In q before -> resolves activeProducts q = true) ->
  resolves activeProducts p = false ->
  mapThrowing (fun p => Order.toProductWithQuantity p activeProducts)
    (before ++ p :: after)%list
  = Throw (InvalidOrderError
             ("product with id " ++ numberToString (ProductIdWithQuantity.productId p)
              ++ " not found")).
Proof.
  intros Hbefore Hp.
  induction before as [|q before IH]; cbn [mapThrowing app].
  - rewrite (toProductWithQuantity_unresolved p Hp). reflexivity.
  - destruct (toProductWithQuantity_resolves q (Hbefore q (or_introl eq_refl)))
      as [r [Hr _]].
    rewrite Hr. cbn [andThen].
    rewrite IH; [reflexivity |]. intros q' Hq'. apply Hbefore. right. exact Hq'.
Qed.

Lemma mapThrowing_returns_resolved (products : list ProductIdWithQuantity.t)
  (resolved : list ProductWithQuantity.t) :
  mapThrowing (fun p => Order.toProductWithQuantity p activeProducts) products
  = Return resolved ->
  forall p, In p products -> resolves activeProducts p = true.
Proof.
  revert resolved.
  induction products as [|q products IH]; intros resolved Hmap p Hin;
    [destruct Hin |].
  cbn [mapThrowing] in Hmap.
  destruct (resolves activeProducts q) eqn:Hq.
  - destruct Hin as [<- | Hin]; [exact Hq |].
    destruct (Order.toProductWithQuantity q activeProducts) as [r|e|];
      cbn [andThen] in Hmap; try discriminate.
    destruct (mapThrowing _ products) as [rs|e|] eqn:Hrs; cbn [andThen] in Hmap;
      try discriminate.
    exact (IH rs eq_refl p Hin).
  - rewrite (toProductWithQuantity_unresolved q Hq) in Hmap. discriminate Hmap.
Qed.

Lemma quantities_accepted (products : list ProductIdWithQuantity.t) :
  products <> [] ->
  (forall p, In p products -> 1 <= ProductIdWithQuantity.quantity p) ->
  Order.assertProductsAreValid products = Return tt.
Proof.
  intros Hnonempty Hquantities. unfold Order.assertProductsAreValid.
  destruct products as [|p0 products0] eqn:Hproducts; [contradiction |].
  cbn [isEmptyArray]. rewrite <- Hproducts in *. clear Hproducts Hnonempty.
  induction products as [|p products IH]; cbn [forEach]; [reflexivity |].
  replace (ProductIdWithQuantity.quantity p <? 1) with false.
  - cbn [andThen]. apply IH. intros q Hq. apply Hquantities. right. exact Hq.
  - symmetry. apply Z.ltb_ge. apply Hquantities. left. reflexivity.
Qed.

End ProductStage.

Lemma mapThrowing_snapshots (activeProducts : list Product.t)
  (products : list ProductIdWithQuantity.t) :
  forall resolved,
    mapThrowing (fun p => Order.toProductWithQuantity p activeProducts) products
    = Return resolved ->
    Forall2 (snapshotOf activeProducts) products resolved.
Proof.
  induction products as [|p products IH]; intros resolved Hmap; cbn [mapThrowing] in Hmap.
  - injection Hmap as <-. constructor.
  - destruct (resolves activeProducts p) eqn:Hp.
    + destruct (toProductWithQuantity_resolves activeProducts p Hp) as [r [Hr Hsnapshot]].
      rewrite Hr in Hmap. cbn [andThen] in Hmap.
      destruct (mapThrowing _ products) as [rs|e|]; cbn [andThen] in Hmap;
        try discriminate.
      injection Hmap as <-. constructor; [exact Hsnapshot | exact (IH rs eq_refl)].
    + rewrite (toProductWithQuantity_unresolved activeProducts p Hp) in Hmap.
      discriminate Hmap.
Qed.

(** C8. The product stage of a create or update command
    ([bindProductSelection]).  An empty product list fails with
    [an order must have at least one product].  For a list that is not
    empty and whose quantities are all at least 1, the stage succeeds if
    and only if every product id resolves in the active products, and it
    then stores one snapshot per line; at the first id that does not
    resolve it fails with an InvalidOrder error and leaves the order as
    it was, and the message of the error is
    [product with id {id} not found], with the digits of the id when the
    id is a safe integer. *)
Theorem product_stage_resolves_ids :
  forall (command : AnyOrderCommand.t) (activeProducts : list Product.t) (this : Order.t),
    let products := AnyOrderCommand.products command in
    (products = [] ->
     Order.bindProductSelection command activeProducts this
     = (Throw (InvalidOrderError "an order must have at least one product"), this))
    /\ (products <> [] ->
        (forall p, In p products -> 1 <= ProductIdWithQuantity.quantity p) ->
        (fst (Order.bindProductSelection command activeProducts this) = Return tt
         <-> forall p, In p products -> resolves activeProducts p = true)
        /\ ((forall p, In p products -> resolves activeProducts p = true) ->
            exists resolved,
              Order.bindProductSelection command activeProducts this
              = (Return tt, Order.set_products (Value resolved) this)
              /\ Forall2 (snapshotOf activeProducts) products resolved)
        /\ (forall before p after,
               products = (before ++ p :: after)%list ->
               (forall q, In q before -> resolves activeProducts q = true) ->
               resolves activeProducts p = false ->
               (exists message,
                   Order.bindProductSelection command activeProducts this
                   = (Throw (InvalidOrderError message), this))
               /\ (isSafeInteger (ProductIdWithQuantity.productId p) ->
                   Order.bindProductSelection command activeProducts this
                   = (Throw (InvalidOrderError
                               ("product with id "
                                ++ numberToString (ProductIdWithQuantity.productId p)
                                ++ " not found")),
                      this)))).
Proof.
  intros command activeProducts this products.
  rewrite bindProductSelection_spec. fold products.
  unfold productSelectionChecks. split.
  - intros ->. reflexivity.
  - intros Hnonempty Hquantities.
    rewrite (quantities_accepted products Hnonempty Hquantities). cbn [andThen].
    split; [split |].
    + destruct (mapThrowing _ products) as [resolved|e|] eqn:Hmap; cbn [fst];
        try discriminate.
      intros _. exact (mapThrowing_returns_resolved activeProducts products resolved Hmap).
    + intros Hall.
      destruct (mapThrowing_all_resolve activeProducts products Hall) as [resolved [-> _]].
      reflexivity.
    + split.
      * intros Hall.
        destruct (mapThrowing_all_resolve activeProducts products Hall)
          as [resolved [-> Hsnapshots]].
        exists resolved. split; [reflexivity | exact Hsnapshots].
      * intros before p after -> Hbefore Hp.
        rewrite (mapThrowing_first_unresolved activeProducts before p after Hbefore Hp).
        split; [eexists; reflexivity | intros _; reflexivity].
Qed.

Lemma product_stage_resolves_ids_witness :
  Order.bindProductSelection
    (inl (johnDoeOrders OrderType.PICK_UP (april2030 4 12 0 0))) [] Order.blank
  = (Throw (InvalidOrderError "product with id 42 not found"), Order.blank).
Proof.
  refine (proj2 (proj2 (proj2 (proj2
           (product_stage_resolves_ids
              (inl (johnDoeOrders OrderType.PICK_UP (april2030 4 12 0 0))) []
              Order.blank) _ _))
           []
           {| ProductIdWithQuantity.productId := 42; ProductIdWithQuantity.quantity := 1 |}
           [] eq_refl _ eq_refl) _).
  - discriminate.
  - intros p [<- | []]. vm_compute. discriminate.
  - intros q [].
  - vm_compute. split; discriminate.
Defined.

(** ** Failed updates *)

(** An update placed on Tuesday 2 April 2030 whose products resolve and
    whose pick-up date is the day before: [updateWith] throws, and the
    products of the order are those of the command already. *)
Lemma updateWith_not_atomic :
  Order.updateWith easternDaylightTime (clockAt (april2030 2 12 0 0)) lateUpdate
    [fakeProduct] [] storedOrder
  = (Throw (InvalidOrderError
              "pick-up date 2030-04-01T16:00:00.000Z has to be in the future"),
     Order.set_products
       (Value [ {| ProductWithQuantity.product := fakeProduct;
                   ProductWithQuantity.quantity := 5 |} ])
       storedOrder)
  /\ Order.products
       (snd (Order.updateWith easternDaylightTime (clockAt (april2030 2 12 0 0)) lateUpdate
               [fakeProduct] [] storedOrder))
     <> Order.products storedOrder.
Proof.
  split; [vm_compute; reflexivity |].
  vm_compute. discriminate.
Qed.

(** C5, amended.  [updateWith] is not atomic.  On a mismatched order id
    it fails before any write, with
    [existing order id {id} does not match command order id {id}], and
    a failure of the product stage leaves the order as it was too.  But
    when the type or the date-block validation fails after the products
    resolved, the order is left with [products] holding the resolved
    products of the command, every other field being as before the
    call.  These are the only ways [updateWith] throws. *)
Theorem updateWith_failure_frame :
  forall (timeZoneOffset : Z) (clock : Clock) (command : UpdateOrderCommand.t)
         (activeProducts : list Product.t) (closingPeriods : list ClosingPeriodInterface.t)
         (this : Order.t),
    (strictEqualNumber (Order.id this) (UpdateOrderCommand.orderId command) = false ->
     (exists message,
         Order.updateWith timeZoneOffset clock command activeProducts closingPeriods this
         = (Throw (InvalidOrderError message), this))
     /\ (isSafeNumber (Order.id this) ->
         isSafeNumber (UpdateOrderCommand.orderId command) ->
         Order.updateWith timeZoneOffset clock command activeProducts closingPeriods this
         = (Throw (InvalidOrderError
                     ("existing order id " ++ nullableNumberToString (Order.id this)
                      ++ " does not match command order id "
                      ++ nullableNumberToString (UpdateOrderCommand.orderId command))),
            this)))
    /\ (strictEqualNumber (Order.id this) (UpdateOrderCommand.orderId command) = true ->
        (forall e,
            productSelectionChecks (UpdateOrderCommand.products command) activeProducts
            = Throw e ->
            Order.updateWith timeZoneOffset clock command activeProducts closingPeriods this
            = (Throw e, this))
        /\ (forall resolved e,
               productSelectionChecks (UpdateOrderCommand.products command) activeProducts
               = Return resolved ->
               orderTypeSelectionChecks timeZoneOffset clock (inr command) closingPeriods
                 true = Throw e ->
               Order.updateWith timeZoneOffset clock command activeProducts closingPeriods
                 this
               = (Throw e, Order.set_products (Value resolved) this)
               /\ Order.products (Order.set_products (Value resolved) this)
                  = Value resolved
               /\ Forall2 (snapshotOf activeProducts)
                    (UpdateOrderCommand.products command) resolved))
    /\ (forall (e : Error) (this' : Order.t),
           Order.updateWith timeZoneOffset clock command activeProducts closingPeriods this
           = (Throw e, this') ->
           ((strictEqualNumber (Order.id this) (UpdateOrderCommand.orderId command) = false
             /\ this' = this)
            \/ (strictEqualNumber (Order.id this) (UpdateOrderCommand.orderId command) = true
                /\ productSelectionChecks (UpdateOrderCommand.products command)
                     activeProducts = Throw e
                /\ this' = this)
            \/ (exists resolved,
                   strictEqualNumber (Order.id this) (UpdateOrderCommand.orderId command)
                   = true
                   /\ productSelectionChecks (UpdateOrderCommand.products command)
                        activeProducts = Return resolved
                   /\ orderTypeSelectionChecks timeZoneOffset clock (inr command)
                        closingPeriods true = Throw e
                   /\ this' = Order.set_products (Value resolved) this))
           /\ Order.id this' = Order.id this
           /\ Order.clientName this' = Order.clientName this
           /\ Order.clientPhoneNumber this' = Order.clientPhoneNumber this
           /\ Order.clientEmailAddress this' = Order.clientEmailAddress this
           /\ Order.type this' = Order.type this
           /\ Order.pickUpDate this' = Order.pickUpDate this
           /\ Order.deliveryDate this' = Order.deliveryDate this
           /\ Order.deliveryAddress this' = Order.deliveryAddress this
           /\ Order.reservationDate this' = Order.reservationDate this
           /\ Order.note this' = Order.note this).
Proof.
  intros tz clock command activeProducts closingPeriods this. split; [| split].
  - intros Hid. rewrite updateWith_spec, Hid. cbn [negb].
    split; [eexists; reflexivity | intros _ _; reflexivity].
  - intros Hid. rewrite updateWith_spec, Hid. cbn [negb]. split.
    + intros e ->. reflexivity.
    + intros resolved e Hproducts ->. rewrite Hproducts.
      split; [reflexivity |]. split; [reflexivity |].
      unfold productSelectionChecks in Hproducts.
      destruct (Order.assertProductsAreValid _) as [[]|e'|]; cbn [andThen] in Hproducts;
        try discriminate Hproducts.
      exact (mapThrowing_snapshots activeProducts _ _ Hproducts).
  - intros e this'. rewrite updateWith_spec.
    destruct (strictEqualNumber _ _); cbn [negb].
    + destruct (productSelectionChecks _ _) as [resolved|e'|] eqn:Hproducts;
        try discriminate.
      * destruct (orderTypeSelectionChecks _ _ _ _ _) as [[]|e'|] eqn:Hchecks;
          try discriminate.
        intros H. injection H as -> <-.
        split; [right; right; exists resolved; repeat split; reflexivity |].
        repeat split.
      * intros H. injection H as -> <-.
        split; [right; left; repeat split; reflexivity |]. repeat split.
    + intros H. injection H as _ <-.
      split; [left; split; reflexivity |]. repeat split.
Qed.

(** The late update of the stored order 7: the order it leaves is the
    stored order with the products of the command. *)
Lemma updateWith_failure_frame_witness :
  Order.updateWith easternDaylightTime (clockAt (april2030 2 12 0 0)) lateUpdate
    [fakeProduct] [] storedOrder
  = (Throw (InvalidOrderError
              "pick-up date 2030-04-01T16:00:00.000Z has to be in the future"),
     Order.set_products
       (Value [ {| ProductWithQuantity.product := fakeProduct;
                   ProductWithQuantity.quantity := 5 |} ])
       storedOrder).
Proof.
  refine (proj1 (proj2 (proj1 (proj2
           (updateWith_failure_frame easternDaylightTime (clockAt (april2030 2 12 0 0))
              lateUpdate [fakeProduct] [] storedOrder)) eq_refl)
           [ {| ProductWithQuantity.product := fakeProduct;
                ProductWithQuantity.quantity := 5 |} ]
           (InvalidOrderError
              "pick-up date 2030-04-01T16:00:00.000Z has to be in the future")
           _ _)).
  - vm_compute. reflexivity.
  - vm_compute. reflexivity.
Defined.

(** ** Closing periods *)

(** The fields [setHours] is given in [isBeforeNowIgnoringHours] add
    up to the time of day the wall clock shows at the date they are
    read from. *)
Lemma time_fields_sum (zone : TimeZone) (d : Date) :
  ZonedDate.getHours zone d * msPerHour
  + ZonedDate.getMinutes zone d * msPerMinute
  + ZonedDate.getSeconds zone d * msPerSecond
  + ZonedDate.getMilliseconds zone d
  = LocalTime zone d mod msPerDay.
Proof.
  unfold ZonedDate.getHours, ZonedDate.getMinutes, ZonedDate.getSeconds,
    ZonedDate.getMilliseconds.
  generalize (LocalTime zone d). intro t.
  unfold msPerHour, msPerMinute, msPerSecond, msPerDay.
  Z.div_mod_to_equations. lia.
Qed.

(** [isBeforeNowIgnoringHours] compares local calendar days, clock
    changes included: [now] is given the time of day of the date, so
    on the day of the date it is taken back to the date or before it,
    and on another day the two are a day apart, give or take the
    difference of two offsets. *)
Lemma isBeforeNowIgnoringHours_compares_days
  (zone : TimeZone) (clock : Clock) (date : Date) :
  wellFormedZone zone ->
  ClosingPeriod.isBeforeNowIgnoringHours zone clock date
  = (ZonedDate.calendarDay zone date <? ZonedDate.calendarDay zone (newDate clock)).
Proof.
  intros [Hoffset [Hearliest Hspan]].
  unfold ClosingPeriod.isBeforeNowIgnoringHours, ZonedDate.setHours, ZonedDate.getTime.
  rewrite time_fields_sum. unfold ZonedDate.calendarDay.
  set (wallClockOfDate := LocalTime zone date).
  set (wallClockOfNow := LocalTime zone (newDate clock)).
  set (target := wallClockOfNow / msPerDay * msPerDay + wallClockOfDate mod msPerDay).
  destruct (Hoffset target) as [x Hx].
  pose proof (Hspan x date) as Hafter. pose proof (Hspan date x) as Hbefore.
  unfold offsetAt in Hx, Hafter, Hbefore. fold wallClockOfDate in Hafter, Hbefore.
  destruct (Z.ltb_spec (wallClockOfDate / msPerDay) (wallClockOfNow / msPerDay))
    as [Hpast | Hfuture].
  - apply Z.ltb_lt. unfold target in *. unfold msPerDay in *.
    Z.div_mod_to_equations. lia.
  - apply Z.ltb_ge.
    destruct (Z.eq_dec (wallClockOfDate / msPerDay) (wallClockOfNow / msPerDay))
      as [Hsame | Hlater].
    + replace target with (LocalTime zone date); [apply Hearliest |].
      unfold target. rewrite <- Hsame. fold wallClockOfDate.
      unfold msPerDay. Z.div_mod_to_equations. lia.
    + unfold target in *. unfold msPerDay in *.
      Z.div_mod_to_equations. lia.
Qed.

Lemma fixedOffset_wellFormed (offset : Z) : wellFormedZone (fixedOffset offset).
Proof.
  unfold wellFormedZone, offsetAt, fixedOffset, msPerDay. cbn [LocalTime UTC].
  split; [intros l; exists 0; lia | split; intros; lia].
Qed.

Lemma easternTimeOfAutumn2030_wellFormed : wellFormedZone easternTimeOfAutumn2030.
Proof.
  unfold wellFormedZone, offsetAt, easternTimeOfAutumn2030, clockChangeOfNovember2030,
    msPerDay, msPerHour.
  cbn [LocalTime UTC].
  split; [| split].
  - intros l. destruct (Z.ltb_spec l (1919916000000 - 4 * 3600000)).
    + exists 0. cbn. lia.
    + exists 1919916000000. cbn. lia.
  - intros t. destruct (Z.ltb_spec t 1919916000000).
    + destruct (Z.ltb_spec (t - 4 * 3600000) (1919916000000 - 4 * 3600000)); lia.
    + destruct (Z.ltb_spec (t - 5 * 3600000) (1919916000000 - 4 * 3600000)); lia.
  - intros a b. destruct (Z.ltb_spec a 1919916000000);
      destruct (Z.ltb_spec b 1919916000000); lia.
Qed.

(** C9. [ClosingPeriod.factory.create] fails with an
    InvalidClosingPeriod error when the start date or the end date is
    absent, when either is on a local calendar day before today, and
    when the end date is earlier than the start date, and only then;
    the time of day plays no part in the comparison with today, so a
    date of today is accepted at any hour, also on a day with a clock
    change.  Otherwise it returns a closing period holding the two
    dates given. *)
Theorem closing_period_create_spec :
  forall (zone : TimeZone) (clock : Clock) (command : NewClosingPeriodCommand.t),
    wellFormedZone zone ->
    let calendarDay := ZonedDate.calendarDay zone in
    let today := calendarDay (newDate clock) in
    let startDate := NewClosingPeriodCommand.startDate command in
    let endDate := NewClosingPeriodCommand.endDate command in
    let refused :=
      isAbsent startDate = true
      \/ isAbsent endDate = true
      \/ (exists s, startDate = Value s /\ calendarDay s < today)
      \/ (exists e, endDate = Value e /\ calendarDay e < today)
      \/ (exists s e, startDate = Value s /\ endDate = Value e /\ e < s) in
    ((exists message,
         ClosingPeriod.create zone clock command
         = Throw (InvalidClosingPeriodError message))
     <-> refused)
    /\ (~ refused ->
        ClosingPeriod.create zone clock command
        = Return {| ClosingPeriod.id := Undefined;
                    ClosingPeriod.startDate := startDate;
                    ClosingPeriod.endDate := endDate |})
    /\ (forall date,
           calendarDay date = today ->
           ClosingPeriod.isBeforeNowIgnoringHours zone clock date = false).
Proof.
  intros zone clock [startDate endDate] Hzone calendarDay today startDate' endDate' refused.
  cbn in startDate', endDate'. subst startDate' endDate'.
  assert (Hcreate :
    (refused /\ exists message,
        ClosingPeriod.create zone clock
          {| NewClosingPeriodCommand.startDate := startDate;
             NewClosingPeriodCommand.endDate := endDate |}
        = Throw (InvalidClosingPeriodError message))
    \/ (~ refused
        /\ ClosingPeriod.create zone clock
             {| NewClosingPeriodCommand.startDate := startDate;
                NewClosingPeriodCommand.endDate := endDate |}
           = Return {| ClosingPeriod.id := Undefined;
                       ClosingPeriod.startDate := startDate;
                       ClosingPeriod.endDate := endDate |})).
  { unfold ClosingPeriod.create, ClosingPeriod.assertStartDateIsValid,
      ClosingPeriod.assertEndDateIsValid, refused.
    cbn [NewClosingPeriodCommand.startDate NewClosingPeriodCommand.endDate].
    destruct startDate as [| |s];
      [left; split; [left; reflexivity | eexists; reflexivity]
      |left; split; [left; reflexivity | eexists; reflexivity] |].
    rewrite (isBeforeNowIgnoringHours_compares_days zone clock s Hzone).
    fold calendarDay today.
    destruct (Z.ltb_spec (calendarDay s) today) as [Hs | Hs]; cbn [andThen].
    { left. split; [| eexists; reflexivity].
      right. right. left. exists s. split; [reflexivity | exact Hs]. }
    destruct endDate as [| |e];
      [left; split; [right; left; reflexivity | eexists; reflexivity]
      |left; split; [right; left; reflexivity | eexists; reflexivity] |].
    rewrite (isBeforeNowIgnoringHours_compares_days zone clock e Hzone).
    fold calendarDay today.
    destruct (Z.ltb_spec (calendarDay e) today) as [He | He]; cbn [andThen].
    { left. split; [| eexists; reflexivity].
      right. right. right. left. exists e. split; [reflexivity | exact He]. }
    unfold ZonedDate.getTime.
    destruct (Z.ltb_spec e s) as [Hes | Hes]; cbn [andThen].
    { left. split; [| eexists; reflexivity].
      right. right. right. right. exists s, e. repeat split. exact Hes. }
    right. split; [| reflexivity].
    intros [H | [H | [[s' [Heq H]] | [[e' [Heq H]] | [s' [e' [Heq [Heq' H]]]]]]]];
      try discriminate H.
    - injection Heq as <-. lia.
    - injection Heq as <-. lia.
    - injection Heq as <-. injection Heq' as <-. lia. }
  split; [split |].
  - intros [message Hthrow]. destruct Hcreate as [[Hrefused _] | [_ Hreturn]];
      [exact Hrefused | congruence].
  - intros Hrefused. destruct Hcreate as [[_ Hthrow] | [Hnot _]];
      [exact Hthrow | contradiction].
  - split.
    + intros Hnot. destruct Hcreate as [[Hrefused _] | [_ Hreturn]];
        [contradiction | exact Hreturn].
    + intros date Hday.
      rewrite (isBeforeNowIgnoringHours_compares_days zone clock date Hzone).
      apply Z.ltb_ge. fold calendarDay today. lia.
Qed.

(** Sunday 3 November 2030 in Eastern time, the day the clock goes
    back: a closing period that starts that day at 00:30, daylight
    time, asked at 23:30, standard time, 24 hours later on the same
    calendar day, is accepted. *)
Lemma closing_period_create_spec_witness :
  ClosingPeriod.create easternTimeOfAutumn2030
    (clockAt (november2030Standard 3 23 30))
    {| NewClosingPeriodCommand.startDate := Value (november2030Daylight 3 0 30);
       NewClosingPeriodCommand.endDate := Value (november2030Standard 5 12 0) |}
  = Return {| ClosingPeriod.id := Undefined;
              ClosingPeriod.startDate := Value (november2030Daylight 3 0 30);
              ClosingPeriod.endDate := Value (november2030Standard 5 12 0) |}.
Proof.
  refine (proj1 (proj2
           (closing_period_create_spec easternTimeOfAutumn2030
              (clockAt (november2030Standard 3 23 30))
              {| NewClosingPeriodCommand.startDate := Value (november2030Daylight 3 0 30);
                 NewClosingPeriodCommand.endDate := Value (november2030Standard 5 12 0) |}
              easternTimeOfAutumn2030_wellFormed)) _).
  intros [H | [H | [[s [Heq H]] | [[e [Heq H]] | [s [e [Heq [Heq' H]]]]]]]];
    try discriminate H.
  - injection Heq as <-. vm_compute in H. discriminate H.
  - injection Heq as <-. vm_compute in H. discriminate H.
  - injection Heq as <-. injection Heq' as <-. vm_compute in H. discriminate H.
Defined.

(** ** Worked cases

    Orders in the manner of [order.spec.ts]; the pick-up cases have its
    dates and its messages. *)

Example sunday_after_7pm_tuesday_is_too_early :
  Order.create easternDaylightTime (clockAt (april2030 0 19 0 0)) tableOfTheTestSuite 7
    (johnDoeOrders OrderType.PICK_UP (april2030 2 18 59 59)) [fakeProduct] [] false
  = Throw (InvalidOrderError
             "pick-up date 2030-04-02T22:59:59.000Z has to be at least 3 days after now").
Proof. vm_compute. reflexivity. Qed.

Example monday_after_7pm_wednesday_is_too_early :
  Order.create easternDaylightTime (clockAt (april2030 1 19 0 0)) tableOfTheTestSuite 7
    (johnDoeOrders OrderType.PICK_UP (april2030 3 18 59 59)) [fakeProduct] [] false
  = Throw (InvalidOrderError
             "pick-up date 2030-04-03T22:59:59.000Z has to be at least 2 days after now").
Proof. vm_compute. reflexivity. Qed.

Example wednesday_after_7pm_saturday_is_too_early :
  Order.create easternDaylightTime (clockAt (april2030 3 19 0 0)) tableOfTheTestSuite 7
    (johnDoeOrders OrderType.PICK_UP (april2030 6 18 59 59)) [fakeProduct] [] false
  = Throw (InvalidOrderError
             "pick-up date 2030-04-06T22:59:59.000Z has to be at least 5 days after now").
Proof. vm_compute. reflexivity. Qed.

Example admin_picks_up_the_same_day :
  Order.create easternDaylightTime (clockAt (april2030 2 18 59 59)) tableOfTheTestSuite 7
    (johnDoeOrders OrderType.PICK_UP (april2030 2 18 59 59)) [fakeProduct] [] true
  = Return (newOrder (johnDoeOrders OrderType.PICK_UP (april2030 2 18 59 59))
              [ {| ProductWithQuantity.product := fakeProduct;
                   ProductWithQuantity.quantity := 1 |} ]).
Proof. vm_compute. reflexivity. Qed.

Example thursday_next_week_is_less_than_7_days_in_milliseconds :
  Order.create easternDaylightTime (clockAt (april2030 4 19 0 0)) tableOfTheTestSuite 7
    (johnDoeOrders OrderType.DELIVERY (april2030 11 1 1 1)) [fakeProduct] [] false
  = Return (newOrder (johnDoeOrders OrderType.DELIVERY (april2030 11 1 1 1))
              [ {| ProductWithQuantity.product := fakeProduct;
                   ProductWithQuantity.quantity := 1 |} ]).
Proof. vm_compute. reflexivity. Qed.

Example admin_delivers_the_same_week_after_the_cutoff :
  Order.create easternDaylightTime (clockAt (april2030 2 19 0 0)) tableOfTheTestSuite 7
    (johnDoeOrders OrderType.DELIVERY (april2030 4 19 0 0)) [fakeProduct] [] true
  = Return (newOrder (johnDoeOrders OrderType.DELIVERY (april2030 4 19 0 0))
              [ {| ProductWithQuantity.product := fakeProduct;
                   ProductWithQuantity.quantity := 1 |} ]).
Proof. vm_compute. reflexivity. Qed.

Example unknown_type_is_refused :
  Order.create easternDaylightTime (clockAt (april2030 2 12 0 0)) tableOfTheTestSuite 7
    (johnDoeOrders "UNKNOWN_TYPE" (april2030 4 12 0 0)) [fakeProduct] [] false
  = Throw (InvalidOrderError "unknown order type UNKNOWN_TYPE").
Proof. vm_compute. reflexivity. Qed.

Example closing_period_is_refused :
  Order.create easternDaylightTime (clockAt (april2030 2 12 0 0)) tableOfTheTestSuite 7
    (johnDoeOrders OrderType.DELIVERY (april2030 11 12 0 0)) [fakeProduct]
    [ {| ClosingPeriodInterface.id := Undefined;
         ClosingPeriodInterface.startDate := april2030 10 12 0 0;
         ClosingPeriodInterface.endDate := april2030 12 12 0 0 |} ]
    false
  = Throw (InvalidOrderError
             "delivery date 2030-04-11T16:00:00.000Z has to be outside closing periods").
Proof. vm_compute. reflexivity. Qed.

Example mismatched_id_is_refused :
  Order.updateWith easternDaylightTime (clockAt (april2030 2 12 0 0)) lateUpdate
    [fakeProduct] [] (Order.set_id (Value 1337) storedOrder)
  = (Throw (InvalidOrderError
              "existing order id 1337 does not match command order id 7"),
     Order.set_id (Value 1337) storedOrder).
Proof. vm_compute. reflexivity. Qed.

(** * Further properties of the order aggregate *)

(** ** What an accepted command has bound *)

Lemma contactDetailsChecks_passed (command : NewOrderCommand.t) :
  contactDetailsChecks command = Return tt ->
  isEmptyString (NewOrderCommand.clientName command) = false
  /\ isEmptyString (NewOrderCommand.clientPhoneNumber command) = false
  /\ isEmptyString (NewOrderCommand.clientEmailAddress command) = false
  /\ Order.EMAIL_REGEX_test (NewOrderCommand.clientEmailAddress command) = true.
Proof.
  unfold contactDetailsChecks, Order.assertClientNameIsValid,
    Order.assertClientPhoneNumberIsValid, Order.assertClientEmailAddressIsValid.
  destruct (isEmptyString (NewOrderCommand.clientName command)); cbn [andThen];
    [discriminate |].
  destruct (isEmptyString (NewOrderCommand.clientPhoneNumber command)); cbn [andThen];
    [discriminate |].
  destruct (isEmptyString (NewOrderCommand.clientEmailAddress command)); [discriminate |].
  destruct (Order.EMAIL_REGEX_test _); cbn [negb]; [| discriminate].
  intros _. repeat split.
Qed.

Lemma quantities_checked (products : list ProductIdWithQuantity.t) :
  Order.assertProductsAreValid products = Return tt ->
  products <> [] /\ forall p, In p products -> 1 <= ProductIdWithQuantity.quantity p.
Proof.
  unfold Order.assertProductsAreValid. intros H. revert H.
  destruct products as [|p0 products0] eqn:Hproducts; cbn [isEmptyArray];
    [discriminate |].
  intros H. split; [discriminate |].
  revert H. rewrite <- Hproducts. clear Hproducts. intros Hquantities.
  induction products as [|p products IH]; [intros q [] |].
  cbn [forEach] in Hquantities.
  destruct (Z.ltb_spec (ProductIdWithQuantity.quantity p) 1) as [Hlow | Hok];
    cbn [andThen] in Hquantities; [discriminate |].
  intros q [<- | Hq]; [lia | exact (IH Hquantities q Hq)].
Qed.

Lemma productSelectionChecks_passed
  (products : list ProductIdWithQuantity.t) (activeProducts : list Product.t)
  (resolved : list ProductWithQuantity.t) :
  productSelectionChecks products activeProducts = Return resolved ->
  products <> []
  /\ (forall p, In p products -> 1 <= ProductIdWithQuantity.quantity p)
  /\ Forall2 (snapshotOf activeProducts) products resolved.
Proof.
  unfold productSelectionChecks.
  destruct (Order.assertProductsAreValid products) as [[]|e|] eqn:Hvalid; cbn [andThen];
    try discriminate.
  intros Hmap. destruct (quantities_checked products Hvalid) as [Hnonempty Hquantities].
  repeat split; try assumption.
  exact (mapThrowing_snapshots activeProducts products resolved Hmap).
Qed.

(** X1. An order [create] returns has no id yet, carries the contact
    details of the command, which are not empty and whose e-mail address
    matches the pattern, the note and the type of the command, and one
    product line per line of the command, none of them missing: each is
    an active product with the id asked for, in the quantity asked for,
    which is at least 1. *)
Theorem created_order_carries_the_command :
  forall (timeZoneOffset : Z) (clock : Clock) (table : list AvailableDayForAPickUpOrder)
         (fuel : nat) (command : NewOrderCommand.t) (activeProducts : list Product.t)
         (closingPeriods : list ClosingPeriodInterface.t) (isAdmin : bool)
         (order : Order.t),
    Order.create timeZoneOffset clock table fuel command activeProducts closingPeriods
      isAdmin = Return order ->
    Order.id order = Undefined
    /\ Order.clientName order = NewOrderCommand.clientName command
    /\ Order.clientPhoneNumber order = NewOrderCommand.clientPhoneNumber command
    /\ Order.clientEmailAddress order = NewOrderCommand.clientEmailAddress command
    /\ isEmptyString (Order.clientName order) = false
    /\ isEmptyString (Order.clientPhoneNumber order) = false
    /\ Order.EMAIL_REGEX_test (Order.clientEmailAddress order) = true
    /\ Order.note order = NewOrderCommand.note command
    /\ Order.type order = NewOrderCommand.type command
    /\ exists lines,
        Order.products order = Value lines
        /\ lines <> []
        /\ Forall2 (snapshotOf activeProducts) (NewOrderCommand.products command) lines
        /\ forall line, In line lines -> 1 <= ProductWithQuantity.quantity line.
Proof.
  intros tz clock table fuel command activeProducts closingPeriods isAdmin order.
  rewrite create_spec.
  destruct (contactDetailsChecks command) as [[]|e|] eqn:Hcontact; cbn [andThen];
    try discriminate.
  destruct (productSelectionChecks _ _) as [resolved|e|] eqn:Hproducts; cbn [andThen];
    try discriminate.
  destruct (orderTypeSelectionChecks _ _ _ _ _) as [[]|e|]; cbn [andThen];
    try discriminate.
  destruct (if negb isAdmin then _ else _) as [[]|e|]; cbn [andThen]; try discriminate.
  intros H. injection H as <-.
  destruct (contactDetailsChecks_passed command Hcontact) as [Hname [Hphone [_ Hemail]]].
  destruct (productSelectionChecks_passed _ _ _ Hproducts)
    as [Hnonempty [Hquantities Hsnapshots]].
  repeat (split; [first [reflexivity | assumption] |]).
  exists resolved. split; [reflexivity |].
  split.
  - intros ->. inversion Hsnapshots as [Hnil |]. symmetry in Hnil. contradiction.
  - split; [exact Hsnapshots |].
    clear - Hquantities Hsnapshots.
    induction Hsnapshots as [|p r ps rs [_ [_ Hquantity]] _ IH]; intros line Hin;
      [destruct Hin |].
    destruct Hin as [<- | Hin].
    + rewrite Hquantity. apply Hquantities. left. reflexivity.
    + apply IH; [| exact Hin]. intros q Hq. apply Hquantities. right. exact Hq.
Qed.

Lemma created_order_carries_the_command_witness :
  Order.clientName
    (newOrder (johnDoeOrders OrderType.DELIVERY (april2030 11 19 0 0))
       [ {| ProductWithQuantity.product := fakeProduct;
            ProductWithQuantity.quantity := 1 |} ])
  = Value "John Doe".
Proof.
  exact (proj1 (proj2
           (created_order_carries_the_command easternDaylightTime
              (clockAt (april2030 2 19 0 0)) tableOfTheTestSuite 7
              (johnDoeOrders OrderType.DELIVERY (april2030 11 19 0 0)) [fakeProduct] []
              false
              (newOrder (johnDoeOrders OrderType.DELIVERY (april2030 11 19 0 0))
                 [ {| ProductWithQuantity.product := fakeProduct;
                      ProductWithQuantity.quantity := 1 |} ])
              eq_refl))).
Defined.

(** X2. The quantities of all the lines are checked before any product
    id is resolved: when the first line whose quantity is below 1 is
    [p], the product stage fails with an InvalidOrder error and leaves
    the order as it was, whether or not the ids of the command resolve;
    the message is [product quantity {q} has to be positive], with the
    digits of the quantity of [p] when it is a safe integer. *)
Theorem quantities_are_checked_before_ids :
  forall (command : AnyOrderCommand.t) (activeProducts : list Product.t) (this : Order.t)
         (before : list ProductIdWithQuantity.t) (p : ProductIdWithQuantity.t)
         (after : list ProductIdWithQuantity.t),
    AnyOrderCommand.products command = (before ++ p :: after)%list ->
    (forall q, In q before -> 1 <= ProductIdWithQuantity.quantity q) ->
    ProductIdWithQuantity.quantity p < 1 ->
    (exists message,
        Order.bindProductSelection command activeProducts this
        = (Throw (InvalidOrderError message), this))
    /\ (isSafeInteger (ProductIdWithQuantity.quantity p) ->
        Order.bindProductSelection command activeProducts this
        = (Throw (InvalidOrderError
                    ("product quantity "
                     ++ numberToString (ProductIdWithQuantity.quantity p)
                     ++ " has to be positive")),
           this)).
Proof.
  intros command activeProducts this before p after Hproducts Hbefore Hp.
  rewrite bindProductSelection_spec, Hproducts. clear Hproducts.
  unfold productSelectionChecks, Order.assertProductsAreValid.
  replace (isEmptyArray (before ++ p :: after)%list) with false
    by (destruct before; reflexivity).
  match goal with
  | |- context [forEach ?check _] =>
      assert (Hquantity :
        forEach check (before ++ p :: after)%list
        = Throw (InvalidOrderError
                   ("product quantity "
                    ++ numberToString (ProductIdWithQuantity.quantity p)
                    ++ " has to be positive")))
  end.
  { induction before as [|q before IH]; cbn [app forEach].
    - replace (ProductIdWithQuantity.quantity p <? 1) with true
        by (symmetry; apply Z.ltb_lt; exact Hp).
      reflexivity.
    - replace (ProductIdWithQuantity.quantity q <? 1) with false
        by (symmetry; apply Z.ltb_ge; apply Hbefore; left; reflexivity).
      cbn [andThen]. apply IH. intros q' Hq'. apply Hbefore. right. exact Hq'. }
  rewrite Hquantity. split; [eexists; reflexivity | intros _; reflexivity].
Qed.

Lemma quantities_are_checked_before_ids_witness :
  Order.bindProductSelection
    (inr (pickUpUpdateOf
            [ {| ProductIdWithQuantity.productId := 1;
                 ProductIdWithQuantity.quantity := 3 |};
              {| ProductIdWithQuantity.productId := 42;
                 ProductIdWithQuantity.quantity := 0 |} ]
            (april2030 4 12 0 0)))
    [fakeProduct] storedOrder
  = (Throw (InvalidOrderError "product quantity 0 has to be positive"), storedOrder).
Proof.
  refine (proj2 (quantities_are_checked_before_ids
            (inr (pickUpUpdateOf
                    [ {| ProductIdWithQuantity.productId := 1;
                         ProductIdWithQuantity.quantity := 3 |};
                      {| ProductIdWithQuantity.productId := 42;
                         ProductIdWithQuantity.quantity := 0 |} ]
                    (april2030 4 12 0 0)))
            [fakeProduct] storedOrder
            [ {| ProductIdWithQuantity.productId := 1;
                 ProductIdWithQuantity.quantity := 3 |} ]
            {| ProductIdWithQuantity.productId := 42;
               ProductIdWithQuantity.quantity := 0 |}
            [] eq_refl _ _) _).
  - intros q [<- | []]. vm_compute. discriminate.
  - vm_compute. reflexivity.
  - vm_compute. split; discriminate.
Defined.

(** ** The type and date block *)

Lemma assertOutsideClosingPeriods_refuses
  (closingPeriods : list ClosingPeriodInterface.t) (date : Date) (message : string) :
  insideAClosingPeriod closingPeriods date ->
  Order.assertOutsideClosingPeriods closingPeriods date message
  = Throw (InvalidOrderError message).
Proof.
  unfold insideAClosingPeriod, Order.assertOutsideClosingPeriods, JsDate.getTime.
  induction closingPeriods as [|period rest IH]; intros [p [Hin Hinside]];
    [destruct Hin |].
  cbn [forEach].
  destruct ((ClosingPeriodInterface.startDate period <=? date)
            && (date <=? ClosingPeriodInterface.endDate period)) eqn:Hperiod;
    [reflexivity |].
  cbn [andThen]. apply IH. destruct Hin as [-> | Hin].
  - apply andb_false_iff in Hperiod. destruct Hperiod as [H | H];
      apply Z.leb_gt in H; lia.
  - exists p. split; assumption.
Qed.

Lemma closing_periods_decide
  (closingPeriods : list ClosingPeriodInterface.t) (date : Date) :
  outsideClosingPeriods closingPeriods date \/ insideAClosingPeriod closingPeriods date.
Proof.
  unfold outsideClosingPeriods, insideAClosingPeriod.
  induction closingPeriods as [|period rest [IH | [p [Hin Hp]]]].
  - left. intros p [].
  - destruct (Z_le_dec (ClosingPeriodInterface.startDate period) date) as [Hs | Hs];
      [destruct (Z_le_dec date (ClosingPeriodInterface.endDate period)) as [He | He] |].
    + right. exists period. split; [left; reflexivity | lia].
    + left. intros p [<- | Hp]; [lia | exact (IH p Hp)].
    + left. intros p [<- | Hp]; [lia | exact (IH p Hp)].
  - right. exists p. split; [right; exact Hin | exact Hp].
Qed.

Lemma outside_is_not_inside
  (closingPeriods : list ClosingPeriodInterface.t) (date : Date) :
  outsideClosingPeriods closingPeriods date ->
  ~ insideAClosingPeriod closingPeriods date.
Proof.
  intros Houtside [p [Hin Hp]]. exact (Houtside p Hin Hp).
Qed.

Lemma closed_on (timeZoneOffset : Z) (date : Date) :
  Order.includesDay CLOSING_DAYS (JsDate.getDay timeZoneOffset date)
  = negb (Day.TUESDAY <=? JsDate.getDay timeZoneOffset date).
Proof.
  pose proof (getDay_range timeZoneOffset date) as Hrange.
  unfold Order.includesDay, CLOSING_DAYS, Day.SUNDAY, Day.MONDAY, Day.TUESDAY.
  cbn [existsb].
  destruct (Z.leb_spec 2 (JsDate.getDay timeZoneOffset date)) as [H | H]; cbn [negb].
  - rewrite !orb_false_iff. repeat split; try apply Z.eqb_neq; lia.
  - assert (Hday : JsDate.getDay timeZoneOffset date = 0
                   \/ JsDate.getDay timeZoneOffset date = 1) by lia.
    destruct Hday as [-> | ->]; reflexivity.
Qed.

Section DateBlock.

Variable timeZoneOffset : Z.
Variable clock : Clock.
Variable closingPeriods : list ClosingPeriodInterface.t.

(** The pick-up date check on a PICK_UP order, case by case. *)
Lemma assertPickUpDateIsValid_cases (date : Date) :
  Order.assertPickUpDateIsValid timeZoneOffset clock (Value OrderType.PICK_UP)
    closingPeriods (Value date)
  = if JsDate.calendarDay timeZoneOffset date
       <? JsDate.calendarDay timeZoneOffset (getCurrentDateAtCanadaEasternTimeZone clock)
    then Throw (InvalidOrderError
                  ("pick-up date " ++ JsDate.toISOString date
                   ++ " has to be in the future"))
    else if negb (Day.TUESDAY <=? JsDate.getDay timeZoneOffset date)
    then Throw (InvalidOrderError
                  ("pick-up date " ++ JsDate.toISOString date
                   ++ " has to be between a Tuesday and a Saturday"))
    else Order.assertOutsideClosingPeriods closingPeriods date
           ("pick-up date " ++ JsDate.toISOString date
            ++ " has to be outside closing periods").
Proof.
  unfold Order.assertPickUpDateIsValid. rewrite closed_on. reflexivity.
Qed.

Lemma assertReservationDateIsValid_cases (date : Date) :
  Order.assertReservationDateIsValid timeZoneOffset clock (Value OrderType.RESERVATION)
    closingPeriods (Value date)
  = if JsDate.calendarDay timeZoneOffset date
       <? JsDate.calendarDay timeZoneOffset (getCurrentDateAtCanadaEasternTimeZone clock)
    then Throw (InvalidOrderError
                  ("reservation date " ++ JsDate.toISOString date
                   ++ " has to be in the future"))
    else if negb (Day.TUESDAY <=? JsDate.getDay timeZoneOffset date)
    then Throw (InvalidOrderError
                  ("reservation date " ++ JsDate.toISOString date
                   ++ " has to be between a Tuesday and a Saturday"))
    else Order.assertOutsideClosingPeriods closingPeriods date
           ("reservation date " ++ JsDate.toISOString date
            ++ " has to be outside closing periods").
Proof.
  unfold Order.assertReservationDateIsValid. rewrite closed_on. reflexivity.
Qed.

Lemma assertDeliveryDateIsValid_cases (date : Date) :
  Order.assertDeliveryDateIsValid timeZoneOffset clock (Value OrderType.DELIVERY)
    closingPeriods (Value date)
  = if JsDate.calendarDay timeZoneOffset date
       <? JsDate.calendarDay timeZoneOffset (getCurrentDateAtCanadaEasternTimeZone clock)
    then Throw (InvalidOrderError
                  ("delivery date " ++ JsDate.toISOString date
                   ++ " has to be in the future"))
    else
      Order.assertOutsideClosingPeriods closingPeriods date
        ("delivery date " ++ JsDate.toISOString date
         ++ " has to be outside closing periods") ;;
      if negb (JsDate.getDay timeZoneOffset date =? Day.THURSDAY)
      then Throw (InvalidOrderError
                    ("delivery date " ++ JsDate.toISOString date
                     ++ " has to be a Thursday"))
      else Return tt.
Proof. reflexivity. Qed.

End DateBlock.

Lemma type_is (type : nullable string) (member : string) :
  Order.strictEqualString type (Value member) = true <-> type = Value member.
Proof.
  destruct type as [| |name]; cbn [Order.strictEqualString]; split; try discriminate.
  - intros H. apply String.eqb_eq in H. rewrite H. reflexivity.
  - intros H. injection H as ->. apply String.eqb_refl.
Qed.

Lemma assertTypeIsValid_accepts (type : nullable string) (isAdmin : bool) :
  Order.assertTypeIsValid type isAdmin = Return tt
  <-> type = Value OrderType.PICK_UP
      \/ type = Value OrderType.DELIVERY
      \/ (type = Value OrderType.RESERVATION /\ isAdmin = true).
Proof.
  split.
  - intros Hvalid. destruct (assertTypeIsValid_member type isAdmin Hvalid) as [H | [H | H]];
      apply type_is in H; [left; exact H | right; left; exact H |].
    right. right. split; [exact H |]. subst type.
    destruct isAdmin; [reflexivity | discriminate Hvalid].
  - intros [-> | [-> | [-> ->]]]; reflexivity.
Qed.

Section DateBlockVerdicts.

Variable timeZoneOffset : Z.
Variable clock : Clock.
Variable closingPeriods : list ClosingPeriodInterface.t.

Lemma pick_up_date_accepted (date : nullable Date) :
  Order.assertPickUpDateIsValid timeZoneOffset clock (Value OrderType.PICK_UP)
    closingPeriods date = Return tt
  <-> exists d, date = Value d
                /\ currentDay timeZoneOffset clock <= JsDate.calendarDay timeZoneOffset d
                /\ Day.TUESDAY <= JsDate.getDay timeZoneOffset d
                /\ outsideClosingPeriods closingPeriods d.
Proof.
  destruct date as [| |d];
    [split; [discriminate | intros [d [H _]]; discriminate H]
    |split; [discriminate | intros [d [H _]]; discriminate H] |].
  rewrite assertPickUpDateIsValid_cases. fold (currentDay timeZoneOffset clock).
  destruct (Z.ltb_spec (JsDate.calendarDay timeZoneOffset d)
              (currentDay timeZoneOffset clock)) as [Hpast | Hfuture].
  { split; [discriminate | intros [d' [H [Hd _]]]; injection H as <-; lia]. }
  destruct (Z.leb_spec Day.TUESDAY (JsDate.getDay timeZoneOffset d)) as [Hopen | Hclosed];
    cbn [negb].
  2: { split; [discriminate | intros [d' [H [_ [Hd _]]]]; injection H as <-; lia]. }
  destruct (closing_periods_decide closingPeriods d) as [Houtside | Hinside].
  - rewrite (assertOutsideClosingPeriods_passes closingPeriods d _ Houtside).
    split; [intros _; exists d; auto | reflexivity].
  - rewrite (assertOutsideClosingPeriods_refuses closingPeriods d _ Hinside).
    split; [discriminate |].
    intros [d' [H [_ [_ Houtside]]]]. injection H as <-.
    destruct (outside_is_not_inside closingPeriods d Houtside Hinside).
Qed.

Lemma reservation_date_accepted (date : nullable Date) :
  Order.assertReservationDateIsValid timeZoneOffset clock (Value OrderType.RESERVATION)
    closingPeriods date = Return tt
  <-> exists d, date = Value d
                /\ currentDay timeZoneOffset clock <= JsDate.calendarDay timeZoneOffset d
                /\ Day.TUESDAY <= JsDate.getDay timeZoneOffset d
                /\ outsideClosingPeriods closingPeriods d.
Proof.
  destruct date as [| |d];
    [split; [discriminate | intros [d [H _]]; discriminate H]
    |split; [discriminate | intros [d [H _]]; discriminate H] |].
  rewrite assertReservationDateIsValid_cases. fold (currentDay timeZoneOffset clock).
  destruct (Z.ltb_spec (JsDate.calendarDay timeZoneOffset d)
              (currentDay timeZoneOffset clock)) as [Hpast | Hfuture].
  { split; [discriminate | intros [d' [H [Hd _]]]; injection H as <-; lia]. }
  destruct (Z.leb_spec Day.TUESDAY (JsDate.getDay timeZoneOffset d)) as [Hopen | Hclosed];
    cbn [negb].
  2: { split; [discriminate | intros [d' [H [_ [Hd _]]]]; injection H as <-; lia]. }
  destruct (closing_periods_decide closingPeriods d) as [Houtside | Hinside].
  - rewrite (assertOutsideClosingPeriods_passes closingPeriods d _ Houtside).
    split; [intros _; exists d; auto | reflexivity].
  - rewrite (assertOutsideClosingPeriods_refuses closingPeriods d _ Hinside).
    split; [discriminate |].
    intros [d' [H [_ [_ Houtside]]]]. injection H as <-.
    destruct (outside_is_not_inside closingPeriods d Houtside Hinside).
Qed.

Lemma delivery_date_accepted (date : nullable Date) :
  Order.assertDeliveryDateIsValid timeZoneOffset clock (Value OrderType.DELIVERY)
    closingPeriods date = Return tt
  <-> exists d, date = Value d
                /\ currentDay timeZoneOffset clock <= JsDate.calendarDay timeZoneOffset d
                /\ JsDate.getDay timeZoneOffset d = Day.THURSDAY
                /\ outsideClosingPeriods closingPeriods d.
Proof.
  destruct date as [| |d];
    [split; [discriminate | intros [d [H _]]; discriminate H]
    |split; [discriminate | intros [d [H _]]; discriminate H] |].
  rewrite assertDeliveryDateIsValid_cases. fold (currentDay timeZoneOffset clock).
  destruct (Z.ltb_spec (JsDate.calendarDay timeZoneOffset d)
              (currentDay timeZoneOffset clock)) as [Hpast | Hfuture].
  { split; [discriminate | intros [d' [H [Hd _]]]; injection H as <-; lia]. }
  destruct (closing_periods_decide closingPeriods d) as [Houtside | Hinside].
  - rewrite (assertOutsideClosingPeriods_passes closingPeriods d _ Houtside).
    cbn [andThen].
    destruct (Z.eqb_spec (JsDate.getDay timeZoneOffset d) Day.THURSDAY) as [Hday | Hday];
      cbn [negb].
    + split; [intros _; exists d; auto | reflexivity].
    + split; [discriminate |].
      intros [d' [H [_ [Hd _]]]]. injection H as <-. contradiction.
  - rewrite (assertOutsideClosingPeriods_refuses closingPeriods d _ Hinside).
    split; [discriminate |].
    intros [d' [H [_ [_ Houtside]]]]. injection H as <-.
    destruct (outside_is_not_inside closingPeriods d Houtside Hinside).
Qed.

(** For each type, the checks of the block that are not skipped. *)
Lemma checks_of_a_pick_up (command : AnyOrderCommand.t) (isAdmin : bool) :
  AnyOrderCommand.type command = Value OrderType.PICK_UP ->
  orderTypeSelectionChecks timeZoneOffset clock command closingPeriods isAdmin
  = Order.assertPickUpDateIsValid timeZoneOffset clock (Value OrderType.PICK_UP)
      closingPeriods (AnyOrderCommand.pickUpDate command).
Proof.
  intros Htype. unfold orderTypeSelectionChecks. rewrite Htype.
  change (Order.assertTypeIsValid (Value OrderType.PICK_UP) isAdmin) with (Return tt).
  change (Order.assertDeliveryDateIsValid timeZoneOffset clock (Value OrderType.PICK_UP)
            closingPeriods (AnyOrderCommand.deliveryDate command)) with (Return tt).
  change (Order.assertDeliveryAddressIsValid (Value OrderType.PICK_UP)
            (AnyOrderCommand.deliveryAddress command)) with (Return tt).
  change (Order.assertReservationDateIsValid timeZoneOffset clock (Value OrderType.PICK_UP)
            closingPeriods (AnyOrderCommand.reservationDate command)) with (Return tt).
  cbn [andThen].
  destruct (Order.assertPickUpDateIsValid _ _ _ _ _) as [[]|e|]; reflexivity.
Qed.

Lemma checks_of_a_delivery (command : AnyOrderCommand.t) (isAdmin : bool) :
  AnyOrderCommand.type command = Value OrderType.DELIVERY ->
  orderTypeSelectionChecks timeZoneOffset clock command closingPeriods isAdmin
  = (Order.assertDeliveryDateIsValid timeZoneOffset clock (Value OrderType.DELIVERY)
       closingPeriods (AnyOrderCommand.deliveryDate command) ;;
     if isEmptyString (AnyOrderCommand.deliveryAddress command)
     then Throw (InvalidOrderError
                   "a delivery address has to be defined when order type is delivery")
     else Return tt).
Proof.
  intros Htype. unfold orderTypeSelectionChecks. rewrite Htype.
  change (Order.assertTypeIsValid (Value OrderType.DELIVERY) isAdmin) with (Return tt).
  change (Order.assertPickUpDateIsValid timeZoneOffset clock (Value OrderType.DELIVERY)
            closingPeriods (AnyOrderCommand.pickUpDate command)) with (Return tt).
  change (Order.assertReservationDateIsValid timeZoneOffset clock (Value OrderType.DELIVERY)
            closingPeriods (AnyOrderCommand.reservationDate command)) with (Return tt).
  cbn [andThen].
  destruct (Order.assertDeliveryDateIsValid _ _ _ _ _) as [[]|e|]; cbn [andThen];
    try reflexivity.
  unfold Order.assertDeliveryAddressIsValid.
  change (Order.strictEqualString (Value OrderType.DELIVERY) (Value OrderType.DELIVERY))
    with true.
  cbn [andb].
  destruct (isEmptyString (AnyOrderCommand.deliveryAddress command)); reflexivity.
Qed.

Lemma checks_of_a_reservation (command : AnyOrderCommand.t) :
  AnyOrderCommand.type command = Value OrderType.RESERVATION ->
  orderTypeSelectionChecks timeZoneOffset clock command closingPeriods true
  = Order.assertReservationDateIsValid timeZoneOffset clock (Value OrderType.RESERVATION)
      closingPeriods (AnyOrderCommand.reservationDate command).
Proof.
  intros Htype. unfold orderTypeSelectionChecks. rewrite Htype.
  change (Order.assertTypeIsValid (Value OrderType.RESERVATION) true) with (Return tt).
  change (Order.assertPickUpDateIsValid timeZoneOffset clock (Value OrderType.RESERVATION)
            closingPeriods (AnyOrderCommand.pickUpDate command)) with (Return tt).
  change (Order.assertDeliveryDateIsValid timeZoneOffset clock (Value OrderType.RESERVATION)
            closingPeriods (AnyOrderCommand.deliveryDate command)) with (Return tt).
  change (Order.assertDeliveryAddressIsValid (Value OrderType.RESERVATION)
            (AnyOrderCommand.deliveryAddress command)) with (Return tt).
  cbn [andThen]. reflexivity.
Qed.

Lemma checks_of_an_invalid_type (command : AnyOrderCommand.t) (isAdmin : bool) :
  Order.assertTypeIsValid (AnyOrderCommand.type command) isAdmin <> Return tt ->
  orderTypeSelectionChecks timeZoneOffset clock command closingPeriods isAdmin
  = Order.assertTypeIsValid (AnyOrderCommand.type command) isAdmin.
Proof.
  intros Hinvalid. unfold orderTypeSelectionChecks.
  destruct (Order.assertTypeIsValid _ _) as [[]|e|]; [contradiction | reflexivity ..].
Qed.

Lemma selection_returns
  (command : AnyOrderCommand.t) (isAdmin : bool) (this : Order.t) :
  fst (Order.bindOrderTypeSelection timeZoneOffset clock command closingPeriods isAdmin this)
  = Return tt
  <-> orderTypeSelectionChecks timeZoneOffset clock command closingPeriods isAdmin
      = Return tt.
Proof.
  rewrite bindOrderTypeSelection_spec.
  destruct (orderTypeSelectionChecks _ _ _ _ _) as [[]|e|]; cbn [fst];
    split; (reflexivity || discriminate).
Qed.

Lemma selection_throws
  (command : AnyOrderCommand.t) (isAdmin : bool) (this : Order.t) (e : Error) :
  orderTypeSelectionChecks timeZoneOffset clock command closingPeriods isAdmin = Throw e ->
  Order.bindOrderTypeSelection timeZoneOffset clock command closingPeriods isAdmin this
  = (Throw e, this).
Proof.
  intros Hchecks. rewrite bindOrderTypeSelection_spec, Hchecks. reflexivity.
Qed.

End DateBlockVerdicts.

(** X3. The type and date block ([bindOrderTypeSelection]) accepts a
    command in exactly three cases: a PICK_UP with a pick-up date that
    is not before today, falls on Tuesday to Saturday and is outside
    every closing period; a DELIVERY with a delivery date that is not
    before today, is a Thursday and is outside every closing period, and
    with a delivery address; a RESERVATION from an admin with a
    reservation date under the conditions of a pick-up date.  The fields
    of the other types are not looked at. *)
Theorem order_type_selection_accepts :
  forall (timeZoneOffset : Z) (clock : Clock) (command : AnyOrderCommand.t)
         (closingPeriods : list ClosingPeriodInterface.t) (isAdmin : bool) (this : Order.t),
    fst (Order.bindOrderTypeSelection timeZoneOffset clock command closingPeriods
           isAdmin this) = Return tt
    <-> (AnyOrderCommand.type command = Value OrderType.PICK_UP
         /\ exists date,
             AnyOrderCommand.pickUpDate command = Value date
             /\ currentDay timeZoneOffset clock <= JsDate.calendarDay timeZoneOffset date
             /\ Day.TUESDAY <= JsDate.getDay timeZoneOffset date
             /\ outsideClosingPeriods closingPeriods date)
        \/ (AnyOrderCommand.type command = Value OrderType.DELIVERY
            /\ isEmptyString (AnyOrderCommand.deliveryAddress command) = false
            /\ exists date,
                AnyOrderCommand.deliveryDate command = Value date
                /\ currentDay timeZoneOffset clock <= JsDate.calendarDay timeZoneOffset date
                /\ JsDate.getDay timeZoneOffset date = Day.THURSDAY
                /\ outsideClosingPeriods closingPeriods date)
        \/ (AnyOrderCommand.type command = Value OrderType.RESERVATION
            /\ isAdmin = true
            /\ exists date,
                AnyOrderCommand.reservationDate command = Value date
                /\ currentDay timeZoneOffset clock <= JsDate.calendarDay timeZoneOffset date
                /\ Day.TUESDAY <= JsDate.getDay timeZoneOffset date
                /\ outsideClosingPeriods closingPeriods date).
Proof.
  intros tz clock command closingPeriods isAdmin this.
  rewrite selection_returns.
  assert (Hdistinct :
    Value OrderType.PICK_UP <> Value OrderType.DELIVERY
    /\ Value OrderType.PICK_UP <> Value OrderType.RESERVATION
    /\ Value OrderType.DELIVERY <> Value OrderType.RESERVATION)
    by (repeat split; discriminate).
  destruct Hdistinct as [Hpd [Hpr Hdr]].
  destruct (Order.assertTypeIsValid (AnyOrderCommand.type command) isAdmin)
    as [[]|e|] eqn:Hvalid.
  - apply assertTypeIsValid_accepts in Hvalid.
    destruct Hvalid as [Htype | [Htype | [Htype ->]]].
    + rewrite (checks_of_a_pick_up tz clock closingPeriods command isAdmin Htype).
      rewrite pick_up_date_accepted. rewrite Htype. split.
      * intros H. left. split; [reflexivity | exact H].
      * intros [[_ H] | [[H _] | [H _]]]; [exact H | congruence | congruence].
    + rewrite (checks_of_a_delivery tz clock closingPeriods command isAdmin Htype).
      rewrite Htype. split.
      * intros H.
        destruct (Order.assertDeliveryDateIsValid _ _ _ _ _) as [[]|e|] eqn:Hdate;
          cbn [andThen] in H; try discriminate H.
        apply delivery_date_accepted in Hdate.
        destruct (isEmptyString (AnyOrderCommand.deliveryAddress command));
          [discriminate H |].
        right. left. split; [reflexivity | split; [reflexivity | exact Hdate]].
      * intros [[H _] | [[_ [Haddress Hdate]] | [H _]]]; [congruence | | congruence].
        apply delivery_date_accepted in Hdate. rewrite Hdate, Haddress. reflexivity.
    + rewrite (checks_of_a_reservation tz clock closingPeriods command Htype).
      rewrite reservation_date_accepted. rewrite Htype. split.
      * intros H. right. right. split; [reflexivity | split; [reflexivity | exact H]].
      * intros [[H _] | [[H _] | [_ [_ H]]]]; [congruence | congruence | exact H].
  - rewrite checks_of_an_invalid_type by (rewrite Hvalid; discriminate).
    rewrite Hvalid. split; [discriminate |].
    intros Haccepted.
    assert (Hcontra : Order.assertTypeIsValid (AnyOrderCommand.type command) isAdmin
                      = Return tt).
    { apply assertTypeIsValid_accepts.
      destruct Haccepted as [[H _] | [[H _] | [H [Hadmin _]]]]; auto. }
    rewrite Hvalid in Hcontra. discriminate Hcontra.
  - rewrite checks_of_an_invalid_type by (rewrite Hvalid; discriminate).
    rewrite Hvalid. split; [discriminate |].
    intros Haccepted.
    assert (Hcontra : Order.assertTypeIsValid (AnyOrderCommand.type command) isAdmin
                      = Return tt).
    { apply assertTypeIsValid_accepts.
      destruct Haccepted as [[H _] | [[H _] | [H [Hadmin _]]]]; auto. }
    rewrite Hvalid in Hcontra. discriminate Hcontra.
Qed.

(** The delivery of Thursday 4 April 2030 asked on Tuesday 2 April. *)
Lemma order_type_selection_accepts_witness :
  fst (Order.bindOrderTypeSelection easternDaylightTime (clockAt (april2030 2 12 0 0))
         (inl (johnDoeOrders OrderType.DELIVERY (april2030 4 12 0 0))) [] false Order.blank)
  = Return tt.
Proof.
  apply (proj2 (order_type_selection_accepts easternDaylightTime
                  (clockAt (april2030 2 12 0 0))
                  (inl (johnDoeOrders OrderType.DELIVERY (april2030 4 12 0 0))) [] false
                  Order.blank)).
  right. left. split; [reflexivity |]. split; [reflexivity |].
  exists (april2030 4 12 0 0). split; [reflexivity |].
  split; [vm_compute; discriminate |]. split; [reflexivity |].
  intros period [].
Defined.

(** X4. The refusals of a PICK_UP command by the type and date block,
    in the order the code tests them, for an admin or not: no pick-up
    date; a date on a calendar day before today; a Sunday or a Monday,
    whatever the closing periods; a date inside a closing period.  Each
    leaves the order as it was. *)
Theorem pick_up_refusals :
  forall (timeZoneOffset : Z) (clock : Clock) (command : AnyOrderCommand.t)
         (closingPeriods : list ClosingPeriodInterface.t) (isAdmin : bool) (this : Order.t),
    AnyOrderCommand.type command = Value OrderType.PICK_UP ->
    (isAbsent (AnyOrderCommand.pickUpDate command) = true ->
     Order.bindOrderTypeSelection timeZoneOffset clock command closingPeriods isAdmin this
     = (Throw (InvalidOrderError
                 "a pick-up date has to be defined when order type is pick-up"), this))
    /\ (forall date,
           AnyOrderCommand.pickUpDate command = Value date ->
           (JsDate.calendarDay timeZoneOffset date < currentDay timeZoneOffset clock ->
            Order.bindOrderTypeSelection timeZoneOffset clock command closingPeriods
              isAdmin this
            = (Throw (InvalidOrderError
                        ("pick-up date " ++ JsDate.toISOString date
                         ++ " has to be in the future")), this))
           /\ (currentDay timeZoneOffset clock <= JsDate.calendarDay timeZoneOffset date ->
               JsDate.getDay timeZoneOffset date = Day.SUNDAY
               \/ JsDate.getDay timeZoneOffset date = Day.MONDAY ->
               Order.bindOrderTypeSelection timeZoneOffset clock command closingPeriods
                 isAdmin this
               = (Throw (InvalidOrderError
                           ("pick-up date " ++ JsDate.toISOString date
                            ++ " has to be between a Tuesday and a Saturday")), this))
           /\ (currentDay timeZoneOffset clock <= JsDate.calendarDay timeZoneOffset date ->
               Day.TUESDAY <= JsDate.getDay timeZoneOffset date ->
               insideAClosingPeriod closingPeriods date ->
               Order.bindOrderTypeSelection timeZoneOffset clock command closingPeriods
                 isAdmin this
               = (Throw (InvalidOrderError
                           ("pick-up date " ++ JsDate.toISOString date
                            ++ " has to be outside closing periods")), this))).
Proof.
  intros tz clock command closingPeriods isAdmin this Htype.
  split.
  - intros Habsent. apply selection_throws.
    rewrite (checks_of_a_pick_up tz clock closingPeriods command isAdmin Htype).
    destruct (AnyOrderCommand.pickUpDate command); [reflexivity .. | discriminate Habsent].
  - intros date Hdate.
    assert (Hchecks :
      orderTypeSelectionChecks tz clock command closingPeriods isAdmin
      = Order.assertPickUpDateIsValid tz clock (Value OrderType.PICK_UP) closingPeriods
          (Value date))
      by (rewrite <- Hdate; apply checks_of_a_pick_up; exact Htype).
    rewrite assertPickUpDateIsValid_cases in Hchecks. fold (currentDay tz clock) in Hchecks.
    split; [| split].
    + intros Hpast. apply selection_throws. rewrite Hchecks.
      rewrite (proj2 (Z.ltb_lt _ _) Hpast). reflexivity.
    + intros Hfuture Hday. apply selection_throws. rewrite Hchecks.
      rewrite (proj2 (Z.ltb_ge _ _) Hfuture).
      destruct Hday as [-> | ->]; reflexivity.
    + intros Hfuture Hday Hinside. apply selection_throws. rewrite Hchecks.
      rewrite (proj2 (Z.ltb_ge _ _) Hfuture), (proj2 (Z.leb_le _ _) Hday). cbn [negb].
      apply assertOutsideClosingPeriods_refuses. exact Hinside.
Qed.

(** A pick-up asked for Sunday 7 April 2030, a day inside a closing
    period, by an admin: the refusal is the one of the closing days. *)
Lemma pick_up_refusals_witness :
  Order.bindOrderTypeSelection easternDaylightTime (clockAt (april2030 2 12 0 0))
    (inl (johnDoeOrders OrderType.PICK_UP (april2030 7 12 0 0)))
    [ {| ClosingPeriodInterface.id := Value 1;
         ClosingPeriodInterface.startDate := april2030 6 0 0 0;
         ClosingPeriodInterface.endDate := april2030 8 0 0 0 |} ]
    true Order.blank
  = (Throw (InvalidOrderError
              ("pick-up date " ++ JsDate.toISOString (april2030 7 12 0 0)
               ++ " has to be between a Tuesday and a Saturday")), Order.blank).
Proof.
  refine (proj1 (proj2 (proj2
           (pick_up_refusals easternDaylightTime (clockAt (april2030 2 12 0 0))
              (inl (johnDoeOrders OrderType.PICK_UP (april2030 7 12 0 0)))
              [ {| ClosingPeriodInterface.id := Value 1;
                   ClosingPeriodInterface.startDate := april2030 6 0 0 0;
                   ClosingPeriodInterface.endDate := april2030 8 0 0 0 |} ]
              true Order.blank eq_refl) (april2030 7 12 0 0) eq_refl)) _ _).
  - vm_compute. discriminate.
  - left. vm_compute. reflexivity.
Defined.

(** X5. The refusals of a DELIVERY command by the type and date block,
    in the order the code tests them: no delivery date, even when the
    address is missing too; a date on a calendar day before today; a
    date inside a closing period, even when it is no Thursday; a day
    other than Thursday; last, no delivery address.  Each leaves the
    order as it was. *)
Theorem delivery_refusals :
  forall (timeZoneOffset : Z) (clock : Clock) (command : AnyOrderCommand.t)
         (closingPeriods : list ClosingPeriodInterface.t) (isAdmin : bool) (this : Order.t),
    AnyOrderCommand.type command = Value OrderType.DELIVERY ->
    (isAbsent (AnyOrderCommand.deliveryDate command) = true ->
     Order.bindOrderTypeSelection timeZoneOffset clock command closingPeriods isAdmin this
     = (Throw (InvalidOrderError
                 "a delivery date has to be defined when order type is delivery"), this))
    /\ (forall date,
           AnyOrderCommand.deliveryDate command = Value date ->
           (JsDate.calendarDay timeZoneOffset date < currentDay timeZoneOffset clock ->
            Order.bindOrderTypeSelection timeZoneOffset clock command closingPeriods
              isAdmin this
            = (Throw (InvalidOrderError
                        ("delivery date " ++ JsDate.toISOString date
                         ++ " has to be in the future")), this))
           /\ (currentDay timeZoneOffset clock <= JsDate.calendarDay timeZoneOffset date ->
               insideAClosingPeriod closingPeriods date ->
               Order.bindOrderTypeSelection timeZoneOffset clock command closingPeriods
                 isAdmin this
               = (Throw (InvalidOrderError
                           ("delivery date " ++ JsDate.toISOString date
                            ++ " has to be outside closing periods")), this))
           /\ (currentDay timeZoneOffset clock <= JsDate.calendarDay timeZoneOffset date ->
               outsideClosingPeriods closingPeriods date ->
               JsDate.getDay timeZoneOffset date <> Day.THURSDAY ->
               Order.bindOrderTypeSelection timeZoneOffset clock command closingPeriods
                 isAdmin this
               = (Throw (InvalidOrderError
                           ("delivery date " ++ JsDate.toISOString date
                            ++ " has to be a Thursday")), this))
           /\ (currentDay timeZoneOffset clock <= JsDate.calendarDay timeZoneOffset date ->
               outsideClosingPeriods closingPeriods date ->
               JsDate.getDay timeZoneOffset date = Day.THURSDAY ->
               isEmptyString (AnyOrderCommand.deliveryAddress command) = true ->
               Order.bindOrderTypeSelection timeZoneOffset clock command closingPeriods
                 isAdmin this
               = (Throw (InvalidOrderError
                           "a delivery address has to be defined when order type is delivery"),
                  this))).
Proof.
  intros tz clock command closingPeriods isAdmin this Htype.
  pose proof (checks_of_a_delivery tz clock closingPeriods command isAdmin Htype) as Hchecks.
  split.
  - intros Habsent. apply selection_throws. rewrite Hchecks.
    destruct (AnyOrderCommand.deliveryDate command); [reflexivity .. | discriminate Habsent].
  - intros date Hdate. rewrite Hdate, assertDeliveryDateIsValid_cases in Hchecks.
    fold (currentDay tz clock) in Hchecks.
    split; [| split; [| split]].
    + intros Hpast. apply selection_throws. rewrite Hchecks.
      rewrite (proj2 (Z.ltb_lt _ _) Hpast). reflexivity.
    + intros Hfuture Hinside. apply selection_throws. rewrite Hchecks.
      rewrite (proj2 (Z.ltb_ge _ _) Hfuture).
      rewrite (assertOutsideClosingPeriods_refuses closingPeriods date _ Hinside).
      reflexivity.
    + intros Hfuture Houtside Hday. apply selection_throws. rewrite Hchecks.
      rewrite (proj2 (Z.ltb_ge _ _) Hfuture).
      rewrite (assertOutsideClosingPeriods_passes closingPeriods date _ Houtside).
      rewrite (proj2 (Z.eqb_neq _ _) Hday). reflexivity.
    + intros Hfuture Houtside Hday Haddress. apply selection_throws. rewrite Hchecks.
      rewrite (proj2 (Z.ltb_ge _ _) Hfuture).
      rewrite (assertOutsideClosingPeriods_passes closingPeriods date _ Houtside).
      rewrite Hday, Haddress. reflexivity.
Qed.

(** A delivery asked for Friday 5 April 2030, a day inside a closing
    period: the refusal is the one of the closing periods, not the one
    of the weekday. *)
Lemma delivery_refusals_witness :
  Order.bindOrderTypeSelection easternDaylightTime (clockAt (april2030 2 12 0 0))
    (inl (johnDoeOrders OrderType.DELIVERY (april2030 5 12 0 0)))
    [ {| ClosingPeriodInterface.id := Value 1;
         ClosingPeriodInterface.startDate := april2030 5 0 0 0;
         ClosingPeriodInterface.endDate := april2030 8 0 0 0 |} ]
    false Order.blank
  = (Throw (InvalidOrderError
              ("delivery date " ++ JsDate.toISOString (april2030 5 12 0 0)
               ++ " has to be outside closing periods")), Order.blank).
Proof.
  refine (proj1 (proj2
           (proj2 (delivery_refusals easternDaylightTime (clockAt (april2030 2 12 0 0))
                     (inl (johnDoeOrders OrderType.DELIVERY (april2030 5 12 0 0)))
                     [ {| ClosingPeriodInterface.id := Value 1;
                          ClosingPeriodInterface.startDate := april2030 5 0 0 0;
                          ClosingPeriodInterface.endDate := april2030 8 0 0 0 |} ]
                     false Order.blank eq_refl) (april2030 5 12 0 0) eq_refl)) _ _).
  - vm_compute. discriminate.
  - eexists. split; [left; reflexivity |]. vm_compute. split; discriminate.
Defined.

(** X6. The type and date block refuses a command on its type before it
    looks at any date: a type that is absent or the empty string, a
    type that is none of PICK_UP, DELIVERY and RESERVATION, and a
    RESERVATION from a caller who is not an admin.  For an admin a
    RESERVATION is then refused as a PICK_UP is, on the reservation
    date: no date, a day before today, a Sunday or a Monday, a date
    inside a closing period. *)
Theorem type_and_reservation_refusals :
  forall (timeZoneOffset : Z) (clock : Clock) (command : AnyOrderCommand.t)
         (closingPeriods : list ClosingPeriodInterface.t) (isAdmin : bool) (this : Order.t),
    (isEmptyString (AnyOrderCommand.type command) = true ->
     Order.bindOrderTypeSelection timeZoneOffset clock command closingPeriods isAdmin this
     = (Throw (InvalidOrderError "order type has to be defined"), this))
    /\ (isEmptyString (AnyOrderCommand.type command) = false ->
        AnyOrderCommand.type command <> Value OrderType.PICK_UP ->
        AnyOrderCommand.type command <> Value OrderType.DELIVERY ->
        AnyOrderCommand.type command <> Value OrderType.RESERVATION ->
        Order.bindOrderTypeSelection timeZoneOffset clock command closingPeriods isAdmin this
        = (Throw (InvalidOrderError
                    ("unknown order type " ++ Order.stringOf (AnyOrderCommand.type command))),
           this))
    /\ (AnyOrderCommand.type command = Value OrderType.RESERVATION ->
        (isAdmin = false ->
         Order.bindOrderTypeSelection timeZoneOffset clock command closingPeriods isAdmin this
         = (Throw (InvalidUserError "RESERVATION order type requires to be ADMIN"), this))
        /\ (isAdmin = true ->
            isAbsent (AnyOrderCommand.reservationDate command) = true ->
            Order.bindOrderTypeSelection timeZoneOffset clock command closingPeriods
              isAdmin this
            = (Throw (InvalidOrderError
                        "a reservation date has to be defined when order type is reservation"),
               this))
        /\ (forall date,
               isAdmin = true ->
               AnyOrderCommand.reservationDate command = Value date ->
               (JsDate.calendarDay timeZoneOffset date < currentDay timeZoneOffset clock ->
                Order.bindOrderTypeSelection timeZoneOffset clock command closingPeriods
                  isAdmin this
                = (Throw (InvalidOrderError
                            ("reservation date " ++ JsDate.toISOString date
                             ++ " has to be in the future")), this))
               /\ (currentDay timeZoneOffset clock
                   <= JsDate.calendarDay timeZoneOffset date ->
                   JsDate.getDay timeZoneOffset date = Day.SUNDAY
                   \/ JsDate.getDay timeZoneOffset date = Day.MONDAY ->
                   Order.bindOrderTypeSelection timeZoneOffset clock command closingPeriods
                     isAdmin this
                   = (Throw (InvalidOrderError
                               ("reservation date " ++ JsDate.toISOString date
                                ++ " has to be between a Tuesday and a Saturday")), this))
               /\ (currentDay timeZoneOffset clock
                   <= JsDate.calendarDay timeZoneOffset date ->
                   Day.TUESDAY <= JsDate.getDay timeZoneOffset date ->
                   insideAClosingPeriod closingPeriods date ->
                   Order.bindOrderTypeSelection timeZoneOffset clock command closingPeriods
                     isAdmin this
                   = (Throw (InvalidOrderError
                               ("reservation date " ++ JsDate.toISOString date
                                ++ " has to be outside closing periods")), this)))).
Proof.
  intros tz clock command closingPeriods isAdmin this.
  split; [| split].
  - intros Hempty. apply selection_throws.
    rewrite checks_of_an_invalid_type;
      unfold Order.assertTypeIsValid; rewrite Hempty; [reflexivity | discriminate].
  - intros Hempty Hpick Hdelivery Hreservation.
    assert (Hmember : Order.includesString OrderType.keys (AnyOrderCommand.type command)
                      = false).
    { unfold Order.includesString, OrderType.keys. cbn [existsb].
      rewrite !orb_false_iff. repeat split;
        match goal with
        | |- ?test = false =>
            destruct test eqn:Htest; [apply type_is in Htest; contradiction | reflexivity]
        end. }
    apply selection_throws.
    rewrite checks_of_an_invalid_type;
      unfold Order.assertTypeIsValid; rewrite Hempty, Hmember; [reflexivity | discriminate].
  - intros Htype. split; [| split].
    + intros ->. apply selection_throws.
      rewrite checks_of_an_invalid_type; rewrite Htype; [reflexivity | discriminate].
    + intros -> Habsent. apply selection_throws.
      rewrite (checks_of_a_reservation tz clock closingPeriods command Htype).
      destruct (AnyOrderCommand.reservationDate command);
        [reflexivity .. | discriminate Habsent].
    + intros date -> Hdate.
      assert (Hchecks :
        orderTypeSelectionChecks tz clock command closingPeriods true
        = Order.assertReservationDateIsValid tz clock (Value OrderType.RESERVATION)
            closingPeriods (Value date))
        by (rewrite <- Hdate; apply checks_of_a_reservation; exact Htype).
      rewrite assertReservationDateIsValid_cases in Hchecks.
      fold (currentDay tz clock) in Hchecks.
      split; [| split].
      * intros Hpast. apply selection_throws. rewrite Hchecks.
        rewrite (proj2 (Z.ltb_lt _ _) Hpast). reflexivity.
      * intros Hfuture Hday. apply selection_throws. rewrite Hchecks.
        rewrite (proj2 (Z.ltb_ge _ _) Hfuture).
        destruct Hday as [-> | ->]; reflexivity.
      * intros Hfuture Hday Hinside. apply selection_throws. rewrite Hchecks.
        rewrite (proj2 (Z.ltb_ge _ _) Hfuture), (proj2 (Z.leb_le _ _) Hday). cbn [negb].
        apply assertOutsideClosingPeriods_refuses. exact Hinside.
Qed.

(** A command whose type is [TAKE_AWAY]: the refusal names it. *)
Lemma type_and_reservation_refusals_witness :
  Order.bindOrderTypeSelection easternDaylightTime (clockAt (april2030 2 12 0 0))
    (inl (johnDoeOrders "TAKE_AWAY" (april2030 4 12 0 0))) [] true Order.blank
  = (Throw (InvalidOrderError "unknown order type TAKE_AWAY"), Order.blank).
Proof.
  refine (proj1 (proj2
           (type_and_reservation_refusals easternDaylightTime (clockAt (april2030 2 12 0 0))
              (inl (johnDoeOrders "TAKE_AWAY" (april2030 4 12 0 0))) [] true Order.blank))
           eq_refl _ _ _); discriminate.
Defined.

(** ** The admin flag *)

Lemma checks_of_an_admin
  (timeZoneOffset : Z) (clock : Clock) (command : AnyOrderCommand.t)
  (closingPeriods : list ClosingPeriodInterface.t) :
  orderTypeSelectionChecks timeZoneOffset clock command closingPeriods false = Return tt ->
  orderTypeSelectionChecks timeZoneOffset clock command closingPeriods true = Return tt.
Proof.
  unfold orderTypeSelectionChecks.
  destruct (Order.assertTypeIsValid (AnyOrderCommand.type command) false)
    as [[]|e|] eqn:Hvalid; cbn [andThen]; try discriminate.
  apply assertTypeIsValid_accepts in Hvalid.
  assert (Hadmin : Order.assertTypeIsValid (AnyOrderCommand.type command) true = Return tt)
    by (apply assertTypeIsValid_accepts; destruct Hvalid as [H | [H | [H _]]]; auto).
  rewrite Hadmin. intros H. exact H.
Qed.

(** X7. The admin flag only relaxes [create].  An order returned to a
    caller who is not an admin is returned, the same, to an admin; an
    error an admin gets is the one the other caller gets, for a type
    other than RESERVATION.  For an admin [create] always ends, with an
    order or an InvalidOrder error, and does not depend on the pick-up
    table. *)
Theorem admin_only_relaxes :
  forall (timeZoneOffset : Z) (clock : Clock) (table : list AvailableDayForAPickUpOrder)
         (fuel : nat) (command : NewOrderCommand.t) (activeProducts : list Product.t)
         (closingPeriods : list ClosingPeriodInterface.t),
    (forall order,
        Order.create timeZoneOffset clock table fuel command activeProducts closingPeriods
          false = Return order ->
        Order.create timeZoneOffset clock table fuel command activeProducts closingPeriods
          true = Return order)
    /\ (forall e,
           NewOrderCommand.type command <> Value OrderType.RESERVATION ->
           Order.create timeZoneOffset clock table fuel command activeProducts closingPeriods
             true = Throw e ->
           Order.create timeZoneOffset clock table fuel command activeProducts closingPeriods
             false = Throw e)
    /\ Order.create timeZoneOffset clock table fuel command activeProducts closingPeriods
         true <> Hang
    /\ (forall e,
           Order.create timeZoneOffset clock table fuel command activeProducts closingPeriods
             true = Throw e ->
           isInvalidOrderError e)
    /\ (forall (table' : list AvailableDayForAPickUpOrder) (fuel' : nat),
           Order.create timeZoneOffset clock table' fuel' command activeProducts
             closingPeriods true
           = Order.create timeZoneOffset clock table fuel command activeProducts
               closingPeriods true).
Proof.
  intros tz clock table fuel command activeProducts closingPeriods.
  split; [| split; [| split; [| split]]].
  - intros order. rewrite !create_spec. cbn [negb].
    destruct (contactDetailsChecks command) as [[]|e|]; cbn [andThen]; try discriminate.
    destruct (productSelectionChecks _ _) as [resolved|e|]; cbn [andThen]; try discriminate.
    destruct (orderTypeSelectionChecks tz clock (inl command) closingPeriods false)
      as [[]|e|] eqn:Hchecks; cbn [andThen]; try discriminate.
    rewrite (checks_of_an_admin tz clock (inl command) closingPeriods Hchecks).
    cbn [andThen].
    destruct (leadTimeChecks _ _ _ _ _) as [[]|e|]; cbn [andThen]; try discriminate.
    intros H. exact H.
  - intros e Htype. apply create_non_admin_rejected.
    destruct (isType (NewOrderCommand.type command) OrderType.RESERVATION) eqn:His;
      [| reflexivity].
    apply type_is in His. contradiction.
  - rewrite create_spec. cbn [negb].
    destruct (contactDetailsChecks_outcome command) as [Hcontact _].
    destruct (productSelectionChecks_outcome (NewOrderCommand.products command)
                activeProducts) as [Hproducts _].
    destruct (orderTypeSelectionChecks_admin_outcome tz clock (inl command) closingPeriods)
      as [Hchecks _].
    destruct (contactDetailsChecks command) as [[]|e|]; cbn [andThen];
      [| discriminate | contradiction].
    destruct (productSelectionChecks _ _) as [resolved|e|]; cbn [andThen];
      [| discriminate | contradiction].
    destruct (orderTypeSelectionChecks _ _ _ _ _) as [[]|e|]; cbn [andThen];
      [discriminate | discriminate | contradiction].
  - intros e. rewrite create_spec. cbn [negb].
    destruct (contactDetailsChecks_outcome command) as [_ Hcontact].
    destruct (productSelectionChecks_outcome (NewOrderCommand.products command)
                activeProducts) as [_ Hproducts].
    destruct (orderTypeSelectionChecks_admin_outcome tz clock (inl command) closingPeriods)
      as [_ Hchecks].
    destruct (contactDetailsChecks command) as [[]|e'|]; cbn [andThen];
      [| intros H; injection H as <-; apply Hcontact; reflexivity | discriminate].
    destruct (productSelectionChecks _ _) as [resolved|e'|]; cbn [andThen];
      [| intros H; injection H as <-; apply Hproducts; reflexivity | discriminate].
    destruct (orderTypeSelectionChecks _ _ _ _ _) as [[]|e'|]; cbn [andThen];
      [discriminate | intros H; injection H as <-; apply Hchecks; reflexivity
      | discriminate].
  - intros table' fuel'. rewrite !create_spec. reflexivity.
Qed.

(** The pick-up of Thursday 4 April 2030 ordered on Monday 1 April at
    noon is accepted from both callers. *)
Lemma admin_only_relaxes_witness :
  Order.create easternDaylightTime (clockAt (april2030 1 12 0 0)) tableOfTheTestSuite 7
    (johnDoeOrders OrderType.PICK_UP (april2030 4 12 0 0)) [fakeProduct] [] true
  = Return (newOrder (johnDoeOrders OrderType.PICK_UP (april2030 4 12 0 0))
              [ {| ProductWithQuantity.product := fakeProduct;
                   ProductWithQuantity.quantity := 1 |} ]).
Proof.
  refine (proj1 (admin_only_relaxes easternDaylightTime (clockAt (april2030 1 12 0 0))
                   tableOfTheTestSuite 7
                   (johnDoeOrders OrderType.PICK_UP (april2030 4 12 0 0)) [fakeProduct] [])
            _ _).
  vm_compute. reflexivity.
Defined.

(** ** Updates and creations compared *)

(** X8. [updateWith] never changes the id of the order, whatever its
    outcome.  When it returns, the order has the type and the note of
    the command, and the same update applied again returns and leaves
    the order as the first application left it. *)
Theorem updateWith_is_idempotent :
  forall (timeZoneOffset : Z) (clock : Clock) (command : UpdateOrderCommand.t)
         (activeProducts : list Product.t) (closingPeriods : list ClosingPeriodInterface.t)
         (this this' : Order.t) (result : completion unit),
    Order.updateWith timeZoneOffset clock command activeProducts closingPeriods this
    = (result, this') ->
    Order.id this' = Order.id this
    /\ (result = Return tt ->
        Order.updateWith timeZoneOffset clock command activeProducts closingPeriods this'
        = (Return tt, this')
        /\ Order.type this' = UpdateOrderCommand.type command
        /\ Order.note this' = UpdateOrderCommand.note command).
Proof.
  intros tz clock command activeProducts closingPeriods this this' result.
  rewrite !updateWith_spec.
  destruct (strictEqualNumber (Order.id this) (UpdateOrderCommand.orderId command))
    eqn:Hid; cbn [negb].
  - destruct (productSelectionChecks _ _) as [resolved|e|].
    + destruct (orderTypeSelectionChecks _ _ _ _ _) as [[]|e|];
        intros H; injection H as <- <-;
        (split; [reflexivity | try discriminate]).
      intros _. cbn [updatedOrder Order.set_note Order.id withOrderTypeSelection
                     Order.set_products].
      rewrite Hid. cbn [negb]. repeat split.
    + intros H. injection H as <- <-. split; [reflexivity | discriminate].
    + intros H. injection H as <- <-. split; [reflexivity | discriminate].
  - intros H. injection H as <- <-. split; [reflexivity | discriminate].
Qed.

(** The update of the stored order 7 into a delivery, applied to the
    order it has already updated. *)
Lemma updateWith_is_idempotent_witness :
  Order.updateWith easternDaylightTime (clockAt (april2030 2 19 0 0))
    sameWeekDeliveryUpdate [fakeProduct] []
    (updatedOrder sameWeekDeliveryUpdate
       [ {| ProductWithQuantity.product := fakeProduct;
            ProductWithQuantity.quantity := 2 |} ]
       storedOrder)
  = (Return tt,
     updatedOrder sameWeekDeliveryUpdate
       [ {| ProductWithQuantity.product := fakeProduct;
            ProductWithQuantity.quantity := 2 |} ]
       storedOrder).
Proof.
  refine (proj1 (proj2
           (updateWith_is_idempotent easternDaylightTime (clockAt (april2030 2 19 0 0))
              sameWeekDeliveryUpdate [fakeProduct] [] storedOrder
              (updatedOrder sameWeekDeliveryUpdate
                 [ {| ProductWithQuantity.product := fakeProduct;
                      ProductWithQuantity.quantity := 2 |} ]
                 storedOrder)
              (Return tt) _) eq_refl)).
  vm_compute. reflexivity.
Defined.

Lemma same_selection_same_checks
  (timeZoneOffset : Z) (clock : Clock) (created : NewOrderCommand.t)
  (update : UpdateOrderCommand.t) (closingPeriods : list ClosingPeriodInterface.t)
  (isAdmin : bool) :
  sameSelection created update ->
  orderTypeSelectionChecks timeZoneOffset clock (inr update) closingPeriods isAdmin
  = orderTypeSelectionChecks timeZoneOffset clock (inl created) closingPeriods isAdmin.
Proof.
  intros [_ [Htype [Hpick [Hdelivery [Haddress [Hreservation _]]]]]].
  unfold orderTypeSelectionChecks.
  cbn [AnyOrderCommand.type AnyOrderCommand.pickUpDate AnyOrderCommand.deliveryDate
       AnyOrderCommand.deliveryAddress AnyOrderCommand.reservationDate].
  rewrite Htype, Hpick, Hdelivery, Haddress, Hreservation. reflexivity.
Qed.

(** X9. An update is judged as the creation of the same order by an
    admin.  For an order whose id the update names and a create command
    with valid contact details that asks for the same products, type,
    dates, address and note: the update returns exactly when the
    creation by an admin does, the order then has the products, the
    type, the dates, the address and the note of the created one, and
    an error of the creation is the error of the update. *)
Theorem update_is_judged_as_an_admin_creation :
  forall (timeZoneOffset : Z) (clock : Clock) (table : list AvailableDayForAPickUpOrder)
         (fuel : nat) (created : NewOrderCommand.t) (update : UpdateOrderCommand.t)
         (activeProducts : list Product.t) (closingPeriods : list ClosingPeriodInterface.t)
         (this : Order.t),
    sameSelection created update ->
    contactDetailsChecks created = Return tt ->
    strictEqualNumber (Order.id this) (UpdateOrderCommand.orderId update) = true ->
    (forall order,
        Order.create timeZoneOffset clock table fuel created activeProducts closingPeriods
          true = Return order ->
        exists this',
          Order.updateWith timeZoneOffset clock update activeProducts closingPeriods this
          = (Return tt, this')
          /\ Order.products this' = Order.products order
          /\ Order.type this' = Order.type order
          /\ Order.pickUpDate this' = Order.pickUpDate order
          /\ Order.deliveryDate this' = Order.deliveryDate order
          /\ Order.deliveryAddress this' = Order.deliveryAddress order
          /\ Order.reservationDate this' = Order.reservationDate order
          /\ Order.note this' = Order.note order)
    /\ (forall this',
           Order.updateWith timeZoneOffset clock update activeProducts closingPeriods this
           = (Return tt, this') ->
           exists order,
             Order.create timeZoneOffset clock table fuel created activeProducts
               closingPeriods true = Return order)
    /\ (forall e,
           Order.create timeZoneOffset clock table fuel created activeProducts
             closingPeriods true = Throw e ->
           fst (Order.updateWith timeZoneOffset clock update activeProducts closingPeriods
                  this) = Throw e).
Proof.
  intros tz clock table fuel created update activeProducts closingPeriods this
    Hsame Hcontact Hid.
  rewrite create_spec, updateWith_spec, Hcontact, Hid. cbn [negb andThen].
  rewrite (same_selection_same_checks tz clock created update closingPeriods true Hsame).
  destruct Hsame as [Hproducts [Htype [Hpick [Hdelivery [Haddress [Hreservation Hnote]]]]]].
  rewrite Hproducts.
  destruct (productSelectionChecks _ _) as [resolved|e'|]; cbn [andThen].
  - destruct (orderTypeSelectionChecks _ _ _ _ _) as [[]|e'|]; cbn [andThen fst].
    + split; [| split; [| discriminate]].
      * intros order H. injection H as <-. eexists. split; [reflexivity |].
        unfold updatedOrder, newOrder, withOrderTypeSelection.
        cbn [Order.set_note Order.products Order.type Order.pickUpDate Order.deliveryDate
             Order.deliveryAddress Order.reservationDate Order.note Order.set_products
             AnyOrderCommand.type AnyOrderCommand.pickUpDate AnyOrderCommand.deliveryDate
             AnyOrderCommand.deliveryAddress AnyOrderCommand.reservationDate].
        rewrite Htype, Hpick, Hdelivery, Haddress, Hreservation, Hnote.
        repeat split.
      * intros this' _. eexists. reflexivity.
    + split; [discriminate | split; [discriminate |]].
      intros e H. injection H as <-. reflexivity.
    + split; [discriminate | split; discriminate].
  - cbn [fst]. split; [discriminate | split; [discriminate |]].
    intros e H. injection H as <-. reflexivity.
  - split; [discriminate | split; discriminate].
Qed.

(** The delivery that [sameWeekDeliveryUpdate] asks of the stored
    order, asked as a creation. *)
Lemma update_is_judged_as_an_admin_creation_witness :
  exists this',
    Order.updateWith easternDaylightTime (clockAt (april2030 2 19 0 0))
      sameWeekDeliveryUpdate [fakeProduct] [] storedOrder
    = (Return tt, this')
    /\ Order.deliveryDate this' = Value (april2030 4 19 0 0).
Proof.
  destruct (proj1
    (update_is_judged_as_an_admin_creation easternDaylightTime
       (clockAt (april2030 2 19 0 0)) tableOfTheTestSuite 7
       {| NewOrderCommand.clientName := Value "John Doe";
          NewOrderCommand.clientPhoneNumber := Value "514-123-4567";
          NewOrderCommand.clientEmailAddress := Value "test@example.org";
          NewOrderCommand.products := UpdateOrderCommand.products sameWeekDeliveryUpdate;
          NewOrderCommand.type := Value OrderType.DELIVERY;
          NewOrderCommand.pickUpDate := Undefined;
          NewOrderCommand.deliveryDate := Value (april2030 4 19 0 0);
          NewOrderCommand.deliveryAddress := Value "Montreal";
          NewOrderCommand.reservationDate := Undefined;
          NewOrderCommand.note := Undefined |}
       sameWeekDeliveryUpdate [fakeProduct] [] storedOrder
       (conj eq_refl (conj eq_refl (conj eq_refl (conj eq_refl
          (conj eq_refl (conj eq_refl eq_refl))))))
       eq_refl eq_refl)
    _ eq_refl) as [this' [Hupdate [_ [_ [_ [Hdate _]]]]]].
  exists this'. split; [exact Hupdate | exact Hdate].
Defined.

(** X10. [create] does not look at the dates and the address of the
    types the command does not have: the outcome, order or error, is
    the one of the command with these fields left out. *)
Theorem fields_of_other_types_are_ignored :
  forall (timeZoneOffset : Z) (clock : Clock) (table : list AvailableDayForAPickUpOrder)
         (fuel : nat) (command : NewOrderCommand.t) (activeProducts : list Product.t)
         (closingPeriods : list ClosingPeriodInterface.t) (isAdmin : bool),
    Order.create timeZoneOffset clock table fuel (withoutFieldsOfOtherTypes command)
      activeProducts closingPeriods isAdmin
    = Order.create timeZoneOffset clock table fuel command activeProducts closingPeriods
        isAdmin.
Proof.
  intros tz clock table fuel command activeProducts closingPeriods isAdmin.
  rewrite !create_spec.
  change (contactDetailsChecks (withoutFieldsOfOtherTypes command))
    with (contactDetailsChecks command).
  change (NewOrderCommand.products (withoutFieldsOfOtherTypes command))
    with (NewOrderCommand.products command).
  assert (Hchecks :
    orderTypeSelectionChecks tz clock (inl (withoutFieldsOfOtherTypes command))
      closingPeriods isAdmin
    = orderTypeSelectionChecks tz clock (inl command) closingPeriods isAdmin).
  { unfold orderTypeSelectionChecks, Order.assertPickUpDateIsValid,
      Order.assertDeliveryDateIsValid, Order.assertDeliveryAddressIsValid,
      Order.assertReservationDateIsValid, isType.
    cbn [AnyOrderCommand.type AnyOrderCommand.pickUpDate AnyOrderCommand.deliveryDate
         AnyOrderCommand.deliveryAddress AnyOrderCommand.reservationDate
         withoutFieldsOfOtherTypes NewOrderCommand.type NewOrderCommand.pickUpDate
         NewOrderCommand.deliveryDate NewOrderCommand.deliveryAddress
         NewOrderCommand.reservationDate].
    unfold isType.
    destruct (Order.strictEqualString (NewOrderCommand.type command)
                (Value OrderType.PICK_UP));
      destruct (Order.strictEqualString (NewOrderCommand.type command)
                  (Value OrderType.DELIVERY));
      destruct (Order.strictEqualString (NewOrderCommand.type command)
                  (Value OrderType.RESERVATION)); reflexivity. }
  assert (Hlead :
    leadTimeChecks tz clock table fuel (withoutFieldsOfOtherTypes command)
    = leadTimeChecks tz clock table fuel command).
  { unfold leadTimeChecks, Order.assertPickUpDateIsEqualOrAfterTheFirstAvailableDay,
      Order.assertDeliveryDateIsEqualOrAfterTheFirstAvailableDay, isType.
    cbn [withoutFieldsOfOtherTypes NewOrderCommand.type NewOrderCommand.pickUpDate
         NewOrderCommand.deliveryDate].
    unfold isType.
    destruct (Order.strictEqualString (NewOrderCommand.type command)
                (Value OrderType.PICK_UP));
      destruct (Order.strictEqualString (NewOrderCommand.type command)
                  (Value OrderType.DELIVERY)); reflexivity. }
  assert (Horder :
    forall resolved,
      newOrder (withoutFieldsOfOtherTypes command) resolved = newOrder command resolved).
  { intros resolved. unfold newOrder, withOrderTypeSelection, isType.
    cbn [AnyOrderCommand.type AnyOrderCommand.pickUpDate AnyOrderCommand.deliveryDate
         AnyOrderCommand.deliveryAddress AnyOrderCommand.reservationDate
         withoutFieldsOfOtherTypes NewOrderCommand.type NewOrderCommand.pickUpDate
         NewOrderCommand.deliveryDate NewOrderCommand.deliveryAddress
         NewOrderCommand.reservationDate NewOrderCommand.note].
    unfold isType.
    destruct (Order.strictEqualString (NewOrderCommand.type command)
                (Value OrderType.PICK_UP));
      destruct (Order.strictEqualString (NewOrderCommand.type command)
                  (Value OrderType.DELIVERY));
      destruct (Order.strictEqualString (NewOrderCommand.type command)
                  (Value OrderType.RESERVATION)); reflexivity. }
  rewrite Hchecks, Hlead.
  destruct (contactDetailsChecks command) as [[]|e|]; cbn [andThen]; try reflexivity.
  destruct (productSelectionChecks _ _) as [resolved|e|]; cbn [andThen]; try reflexivity.
  rewrite Horder. reflexivity.
Qed.

(** ** Notice *)

Lemma accepted_by_an_admin_too
  (timeZoneOffset : Z) (clock : Clock) (table : list AvailableDayForAPickUpOrder)
  (fuel : nat) (command : NewOrderCommand.t) (activeProducts : list Product.t)
  (closingPeriods : list ClosingPeriodInterface.t) (order : Order.t) :
  Order.create timeZoneOffset clock table fuel command activeProducts closingPeriods false
  = Return order ->
  Order.create timeZoneOffset clock table fuel command activeProducts closingPeriods true
  = Return order.
Proof.
  rewrite !create_spec. cbn [negb].
  destruct (contactDetailsChecks command) as [[]|e|]; cbn [andThen]; try discriminate.
  destruct (productSelectionChecks _ _) as [resolved|e|]; cbn [andThen]; try discriminate.
  destruct (orderTypeSelectionChecks timeZoneOffset clock (inl command) closingPeriods false)
    as [[]|e|] eqn:Hchecks; cbn [andThen]; try discriminate.
  rewrite (checks_of_an_admin timeZoneOffset clock (inl command) closingPeriods Hchecks).
  cbn [andThen].
  destruct (leadTimeChecks _ _ _ _ _) as [[]|e|]; cbn [andThen]; try discriminate.
  intros H. exact H.
Qed.

Lemma created_passed_the_checks
  (timeZoneOffset : Z) (clock : Clock) (table : list AvailableDayForAPickUpOrder)
  (fuel : nat) (command : NewOrderCommand.t) (activeProducts : list Product.t)
  (closingPeriods : list ClosingPeriodInterface.t) (isAdmin : bool) (order : Order.t) :
  Order.create timeZoneOffset clock table fuel command activeProducts closingPeriods isAdmin
  = Return order ->
  orderTypeSelectionChecks timeZoneOffset clock (inl command) closingPeriods isAdmin
  = Return tt.
Proof.
  rewrite create_spec.
  destruct (contactDetailsChecks command) as [[]|e|]; cbn [andThen]; try discriminate.
  destruct (productSelectionChecks _ _) as [resolved|e|]; cbn [andThen]; try discriminate.
  destruct (orderTypeSelectionChecks _ _ _ _ _) as [[]|e|]; cbn [andThen];
    try discriminate.
  reflexivity.
Qed.

(** The loop returns a date a whole number of days, at least one, after
    the date it starts from. *)
Lemma loop_moves_forward (timeZoneOffset : Z) (day : nullable Z) (fuel : nat) :
  forall start found : Date,
    Order.getNextDateHavingDay_loop timeZoneOffset fuel day start = Return found ->
    exists k, 1 <= k /\ found = start + k * msPerDay.
Proof.
  induction fuel as [|fuel IH]; intros start found;
    cbn [Order.getNextDateHavingDay_loop]; [discriminate |].
  unfold JsDate.setDateToFollowingDay.
  destruct (negb _).
  - intros Hloop. destruct (IH _ _ Hloop) as [k [Hk ->]].
    exists (k + 1). split; [lia | lia].
  - intros H. injection H as <-. exists 1. split; lia.
Qed.

(** X11. A caller who is not an admin never gets a pick-up for the day
    of the order, whatever the pick-up table holds: the pick-up date of
    an order [create] returns to them is on a calendar day after the
    one [new Date()] reads, it is not before the day of the business
    clock, and it is after it when that clock reads an hour before
    19. *)
Theorem no_pick_up_on_the_day_of_the_order :
  forall (timeZoneOffset : Z) (clock : Clock) (table : list AvailableDayForAPickUpOrder)
         (fuel : nat) (command : NewOrderCommand.t) (activeProducts : list Product.t)
         (closingPeriods : list ClosingPeriodInterface.t) (order : Order.t) (date : Date),
    NewOrderCommand.type command = Value OrderType.PICK_UP ->
    NewOrderCommand.pickUpDate command = Value date ->
    Order.create timeZoneOffset clock table fuel command activeProducts closingPeriods false
    = Return order ->
    JsDate.calendarDay timeZoneOffset (newDate clock)
    < JsDate.calendarDay timeZoneOffset date
    /\ currentDay timeZoneOffset clock <= JsDate.calendarDay timeZoneOffset date
    /\ (JsDate.getHours timeZoneOffset (getCurrentDateAtCanadaEasternTimeZone clock) < 19 ->
        currentDay timeZoneOffset clock < JsDate.calendarDay timeZoneOffset date).
Proof.
  intros tz clock table fuel command activeProducts closingPeriods order date
    Htype Hdate Hcreate.
  pose proof (accepted_by_an_admin_too tz clock table fuel command activeProducts
                closingPeriods order Hcreate) as Hadmin.
  rewrite (create_pick_up_non_admin tz clock table fuel command activeProducts
             closingPeriods order date Htype Hdate Hadmin) in Hcreate.
  pose proof (created_passed_the_checks tz clock table fuel command activeProducts
                closingPeriods true order Hadmin) as Hchecks.
  rewrite (checks_of_a_pick_up tz clock closingPeriods (inl command) true Htype) in Hchecks.
  apply pick_up_date_accepted in Hchecks.
  destruct Hchecks as [date' [Heq [Hfuture _]]].
  cbn [AnyOrderCommand.pickUpDate] in Heq. rewrite Hdate in Heq. injection Heq as <-.
  rewrite pick_up_rule_steps in Hcreate. cbv zeta in Hcreate.
  destruct ((JsDate.calendarDay tz date
             - JsDate.calendarDay tz (effectiveNow tz clock) <? 7)
            && (JsDate.getDay tz (effectiveNow tz clock) - JsDate.getDay tz date =? 0))
    eqn:Hsame; [discriminate Hcreate |].
  destruct (Order.getNextDateHavingDay_loop tz fuel _ (newDate clock))
    as [found|e|] eqn:Hloop; cbn [andThen] in Hcreate;
    [| discriminate Hcreate | discriminate Hcreate].
  destruct (Z.ltb_spec (JsDate.calendarDay tz date) (JsDate.calendarDay tz found))
    as [Hearly | Hlate]; [discriminate Hcreate |].
  destruct (loop_moves_forward tz _ fuel _ _ Hloop) as [k [Hk ->]].
  rewrite calendarDay_plus_days in Hlate.
  split; [lia |]. split; [exact Hfuture |].
  intros Hhour. unfold effectiveNow in Hsame.
  rewrite (proj2 (Z.leb_gt _ _) Hhour) in Hsame.
  fold (currentDay tz clock) in Hsame.
  destruct (Z.eq_dec (JsDate.calendarDay tz date) (currentDay tz clock)) as [Heq | Hneq];
    [| lia].
  exfalso. apply andb_false_iff in Hsame. destruct Hsame as [Hsame | Hsame].
  - apply Z.ltb_ge in Hsame. lia.
  - apply Z.eqb_neq in Hsame. apply Hsame. unfold JsDate.getDay.
    fold (currentDay tz clock). rewrite Heq. lia.
Qed.

(** The pick-up of Thursday 4 April 2030 ordered on Monday 1 April at
    noon. *)
Lemma no_pick_up_on_the_day_of_the_order_witness :
  JsDate.calendarDay easternDaylightTime (newDate (clockAt (april2030 1 12 0 0)))
  < JsDate.calendarDay easternDaylightTime (april2030 4 12 0 0).
Proof.
  refine (proj1
           (no_pick_up_on_the_day_of_the_order easternDaylightTime
              (clockAt (april2030 1 12 0 0)) tableOfTheTestSuite 7
              (johnDoeOrders OrderType.PICK_UP (april2030 4 12 0 0)) [fakeProduct] []
              (newOrder (johnDoeOrders OrderType.PICK_UP (april2030 4 12 0 0))
                 [ {| ProductWithQuantity.product := fakeProduct;
                      ProductWithQuantity.quantity := 1 |} ])
              (april2030 4 12 0 0) eq_refl eq_refl _)).
  vm_compute. reflexivity.
Defined.

(** X12. A week of notice is enough for a pick-up.  When the pick-up
    table has a weekday for the day the order counts as placed and the
    loop may run 7 times, a pick-up an admin would be given, asked for
    a day 7 days or more after the day the order counts as placed and
    after the day [new Date()] reads, is given to a caller who is not an
    admin. *)
Theorem a_week_of_notice_is_enough :
  forall (timeZoneOffset : Z) (clock : Clock) (table : list AvailableDayForAPickUpOrder)
         (fuel : nat) (command : NewOrderCommand.t) (activeProducts : list Product.t)
         (closingPeriods : list ClosingPeriodInterface.t) (order : Order.t) (date : Date)
         (day : Z),
    NewOrderCommand.type command = Value OrderType.PICK_UP ->
    NewOrderCommand.pickUpDate command = Value date ->
    Order.create timeZoneOffset clock table fuel command activeProducts closingPeriods true
    = Return order ->
    tableEntry table (JsDate.getDay timeZoneOffset (effectiveNow timeZoneOffset clock))
    = Some day ->
    0 <= day < 7 ->
    (7 <= fuel)%nat ->
    JsDate.calendarDay timeZoneOffset (effectiveNow timeZoneOffset clock) + 7
    <= JsDate.calendarDay timeZoneOffset date ->
    JsDate.calendarDay timeZoneOffset (newDate clock) + 7
    <= JsDate.calendarDay timeZoneOffset date ->
    Order.create timeZoneOffset clock table fuel command activeProducts closingPeriods false
    = Return order.
Proof.
  intros tz clock table fuel command activeProducts closingPeriods order date day
    Htype Hdate Hadmin Hentry Hday Hfuel Hplaced Hnow.
  rewrite (create_pick_up_non_admin tz clock table fuel command activeProducts
             closingPeriods order date Htype Hdate Hadmin).
  rewrite pick_up_rule_steps. cbv zeta. rewrite Hentry.
  replace (JsDate.calendarDay tz date
           - JsDate.calendarDay tz (effectiveNow tz clock) <? 7) with false
    by (symmetry; apply Z.ltb_ge; lia).
  cbn [andb].
  pose proof (daysUntilNext_range (JsDate.getDay tz (newDate clock)) day) as Hpasses.
  rewrite loop_next_occurrence by (try exact Hday; lia).
  cbn [andThen]. unfold nextOccurrence. rewrite calendarDay_plus_days.
  replace (JsDate.calendarDay tz date
           <? JsDate.calendarDay tz (newDate clock)
              + daysUntilNext (JsDate.getDay tz (newDate clock)) day) with false
    by (symmetry; apply Z.ltb_ge; lia).
  reflexivity.
Qed.

(** The pick-up of Tuesday 9 April 2030 ordered on Monday 1 April at
    noon. *)
Lemma a_week_of_notice_is_enough_witness :
  Order.create easternDaylightTime (clockAt (april2030 1 12 0 0)) tableOfTheTestSuite 7
    (johnDoeOrders OrderType.PICK_UP (april2030 9 12 0 0)) [fakeProduct] [] false
  = Return (newOrder (johnDoeOrders OrderType.PICK_UP (april2030 9 12 0 0))
              [ {| ProductWithQuantity.product := fakeProduct;
                   ProductWithQuantity.quantity := 1 |} ]).
Proof.
  refine (a_week_of_notice_is_enough easternDaylightTime (clockAt (april2030 1 12 0 0))
            tableOfTheTestSuite 7
            (johnDoeOrders OrderType.PICK_UP (april2030 9 12 0 0)) [fakeProduct] []
            _ (april2030 9 12 0 0) Day.THURSDAY eq_refl eq_refl _ _ _ _ _ _).
  - vm_compute. reflexivity.
  - vm_compute. reflexivity.
  - vm_compute. split; [discriminate | reflexivity].
  - lia.
  - vm_compute. discriminate.
  - vm_compute. discriminate.
Defined.

(** X13. The notice a delivery needs, in days.  For a delivery an admin
    would be given (so on a Thursday that is not before today), the
    caller who is not an admin is refused with [has to be one of the
    next available Thursday] exactly when the Thursday is today or
    tomorrow, or is in two days and the business clock reads 19 hours or
    more; otherwise they are given the same order. *)
Theorem delivery_notice_in_days :
  forall (timeZoneOffset : Z) (clock : Clock) (table : list AvailableDayForAPickUpOrder)
         (fuel : nat) (command : NewOrderCommand.t) (activeProducts : list Product.t)
         (closingPeriods : list ClosingPeriodInterface.t) (order : Order.t) (date : Date),
    NewOrderCommand.type command = Value OrderType.DELIVERY ->
    NewOrderCommand.deliveryDate command = Value date ->
    Order.create timeZoneOffset clock table fuel command activeProducts closingPeriods true
    = Return order ->
    0 <= JsDate.calendarDay timeZoneOffset date - currentDay timeZoneOffset clock
    /\ (JsDate.calendarDay timeZoneOffset date - currentDay timeZoneOffset clock <= 1
        \/ (JsDate.calendarDay timeZoneOffset date - currentDay timeZoneOffset clock = 2
            /\ 19 <= JsDate.getHours timeZoneOffset
                       (getCurrentDateAtCanadaEasternTimeZone clock)) ->
        Order.create timeZoneOffset clock table fuel command activeProducts closingPeriods
          false
        = Throw (InvalidOrderError
                   ("delivery date " ++ JsDate.toISOString date
                    ++ " has to be one of the next available Thursday")))
    /\ (~ (JsDate.calendarDay timeZoneOffset date - currentDay timeZoneOffset clock <= 1
           \/ (JsDate.calendarDay timeZoneOffset date - currentDay timeZoneOffset clock = 2
               /\ 19 <= JsDate.getHours timeZoneOffset
                          (getCurrentDateAtCanadaEasternTimeZone clock))) ->
        Order.create timeZoneOffset clock table fuel command activeProducts closingPeriods
          false = Return order).
Proof.
  intros tz clock table fuel command activeProducts closingPeriods order date
    Htype Hdate Hadmin.
  pose proof (created_passed_the_checks tz clock table fuel command activeProducts
                closingPeriods true order Hadmin) as Hchecks.
  rewrite (checks_of_a_delivery tz clock closingPeriods (inl command) true Htype)
    in Hchecks.
  destruct (Order.assertDeliveryDateIsValid _ _ _ _ _) as [[]|e|] eqn:Hvalid;
    cbn [andThen] in Hchecks; try discriminate Hchecks.
  apply delivery_date_accepted in Hvalid.
  destruct Hvalid as [date' [Heq [Hfuture [Hthursday _]]]].
  cbn [AnyOrderCommand.deliveryDate] in Heq. rewrite Hdate in Heq. injection Heq as <-.
  rewrite (create_delivery_non_admin tz clock table fuel command activeProducts
             closingPeriods order date Htype Hdate Hadmin).
  unfold Order.assertDeliveryDateIsEqualOrAfterTheFirstAvailableDay.
  change (Order.strictEqualString (Value OrderType.DELIVERY) (Value OrderType.DELIVERY))
    with true.
  cbv iota zeta.
  unfold getNumberOfDaysBetweenFirstDateAndSecondDate, NUMBER_OF_DAYS_IN_A_WEEK,
    MAXIMUM_DAY_FOR_DELIVERY_SAME_WEEK, MAXIMUM_HOUR_FOR_DELIVERY_SAME_WEEK.
  fold (currentDay tz clock).
  rewrite Hthursday.
  assert (Hnow : JsDate.getDay tz (getCurrentDateAtCanadaEasternTimeZone clock)
                 = (currentDay tz clock + 4) mod 7) by reflexivity.
  rewrite Hnow.
  unfold JsDate.getDay in Hthursday.
  set (today := currentDay tz clock) in *.
  set (day := JsDate.calendarDay tz date) in *.
  set (hours := JsDate.getHours tz (getCurrentDateAtCanadaEasternTimeZone clock)).
  unfold Day.THURSDAY, Day.TUESDAY in *.
  split; [lia |].
  split.
  - intros Hshort.
    replace ((day - today <? 7) && ((today + 4) mod 7 <=? 4)
             && ((2 <? (today + 4) mod 7)
                 || (((today + 4) mod 7 =? 2) && (19 <=? hours)))) with true;
      [reflexivity |].
    symmetry. rewrite !andb_true_iff, orb_true_iff, andb_true_iff.
    rewrite Z.ltb_lt, Z.leb_le, Z.ltb_lt, Z.eqb_eq, Z.leb_le.
    clear - Hshort Hfuture Hthursday.
    Z.div_mod_to_equations. lia.
  - intros Hlong.
    replace ((day - today <? 7) && ((today + 4) mod 7 <=? 4)
             && ((2 <? (today + 4) mod 7)
                 || (((today + 4) mod 7 =? 2) && (19 <=? hours)))) with false;
      [reflexivity |].
    symmetry. apply not_true_is_false.
    rewrite !andb_true_iff, orb_true_iff, andb_true_iff.
    rewrite Z.ltb_lt, Z.leb_le, Z.ltb_lt, Z.eqb_eq, Z.leb_le.
    clear - Hlong Hfuture Hthursday.
    Z.div_mod_to_equations. lia.
Qed.

(** The delivery of Thursday 4 April 2030 ordered on Tuesday 2 April at
    19:00. *)
Lemma delivery_notice_in_days_witness :
  Order.create easternDaylightTime (clockAt (april2030 2 19 0 0)) tableOfTheTestSuite 7
    (johnDoeOrders OrderType.DELIVERY (april2030 4 12 0 0)) [fakeProduct] [] false
  = Throw (InvalidOrderError
             ("delivery date " ++ JsDate.toISOString (april2030 4 12 0 0)
              ++ " has to be one of the next available Thursday")).
Proof.
  refine (proj1 (proj2
           (delivery_notice_in_days easternDaylightTime (clockAt (april2030 2 19 0 0))
              tableOfTheTestSuite 7
              (johnDoeOrders OrderType.DELIVERY (april2030 4 12 0 0)) [fakeProduct] []
              (newOrder (johnDoeOrders OrderType.DELIVERY (april2030 4 12 0 0))
                 [ {| ProductWithQuantity.product := fakeProduct;
                      ProductWithQuantity.quantity := 1 |} ])
              (april2030 4 12 0 0) eq_refl eq_refl _)) _).
  - vm_compute. reflexivity.
  - right. vm_compute. split; [reflexivity | discriminate].
Defined.

(** ** The refusals of a closing period *)

(** X14. The refusals of [ClosingPeriod.factory.create], in the order
    the code tests them: no start date; a start date on a local
    calendar day before today; no end date; an end date on a local
    calendar day before today; an end date that is an earlier instant
    than the start date.  An end date equal to the start date is
    accepted. *)
Theorem closing_period_refusals :
  forall (zone : TimeZone) (clock : Clock) (command : NewClosingPeriodCommand.t),
    wellFormedZone zone ->
    (isAbsent (NewClosingPeriodCommand.startDate command) = true ->
     ClosingPeriod.create zone clock command
     = Throw (InvalidClosingPeriodError "start date has to be defined"))
    /\ (forall startDate,
           NewClosingPeriodCommand.startDate command = Value startDate ->
           (ZonedDate.calendarDay zone startDate
            < ZonedDate.calendarDay zone (newDate clock) ->
            ClosingPeriod.create zone clock command
            = Throw (InvalidClosingPeriodError "start date has to be in the future"))
           /\ (ZonedDate.calendarDay zone (newDate clock)
               <= ZonedDate.calendarDay zone startDate ->
               (isAbsent (NewClosingPeriodCommand.endDate command) = true ->
                ClosingPeriod.create zone clock command
                = Throw (InvalidClosingPeriodError "end date has to be defined"))
               /\ (forall endDate,
                      NewClosingPeriodCommand.endDate command = Value endDate ->
                      (ZonedDate.calendarDay zone endDate
                       < ZonedDate.calendarDay zone (newDate clock) ->
                       ClosingPeriod.create zone clock command
                       = Throw (InvalidClosingPeriodError
                                  "end date has to be in the future"))
                      /\ (ZonedDate.calendarDay zone (newDate clock)
                          <= ZonedDate.calendarDay zone endDate ->
                          endDate < startDate ->
                          ClosingPeriod.create zone clock command
                          = Throw (InvalidClosingPeriodError
                                     "end date has to be greater than start date"))
                      /\ (ZonedDate.calendarDay zone (newDate clock)
                          <= ZonedDate.calendarDay zone endDate ->
                          startDate <= endDate ->
                          ClosingPeriod.create zone clock command
                          = Return {| ClosingPeriod.id := Undefined;
                                      ClosingPeriod.startDate := Value startDate;
                                      ClosingPeriod.endDate := Value endDate |})))).
Proof.
  intros zone clock [startDate endDate] Hzone.
  cbn [NewClosingPeriodCommand.startDate NewClosingPeriodCommand.endDate].
  unfold ClosingPeriod.create, ClosingPeriod.assertStartDateIsValid,
    ClosingPeriod.assertEndDateIsValid.
  cbn [NewClosingPeriodCommand.startDate NewClosingPeriodCommand.endDate].
  split.
  - destruct startDate; [reflexivity | reflexivity | discriminate].
  - intros s ->. rewrite (isBeforeNowIgnoringHours_compares_days zone clock s Hzone).
    split.
    + intros Hpast. rewrite (proj2 (Z.ltb_lt _ _) Hpast). reflexivity.
    + intros Hfuture. rewrite (proj2 (Z.ltb_ge _ _) Hfuture). cbn [andThen]. split.
      * destruct endDate; [reflexivity | reflexivity | discriminate].
      * intros e ->. rewrite (isBeforeNowIgnoringHours_compares_days zone clock e Hzone).
        unfold ZonedDate.getTime. split; [| split].
        -- intros Hpast. rewrite (proj2 (Z.ltb_lt _ _) Hpast). reflexivity.
        -- intros Hend Horder. rewrite (proj2 (Z.ltb_ge _ _) Hend).
           rewrite (proj2 (Z.ltb_lt _ _) Horder). reflexivity.
        -- intros Hend Horder. rewrite (proj2 (Z.ltb_ge _ _) Hend).
           rewrite (proj2 (Z.ltb_ge _ _) Horder). reflexivity.
Qed.

(** Sunday 3 November 2030 in Eastern time, the day the clock goes
    back: a closing period of the single instant 01:30, standard time
    (the second time the wall clock shows 01:30), asked at 01:45,
    daylight time, 45 minutes before that instant. *)
Lemma closing_period_refusals_witness :
  ClosingPeriod.create easternTimeOfAutumn2030
    (clockAt (november2030Daylight 3 1 45))
    {| NewClosingPeriodCommand.startDate := Value (november2030Standard 3 1 30);
       NewClosingPeriodCommand.endDate := Value (november2030Standard 3 1 30) |}
  = Return {| ClosingPeriod.id := Undefined;
              ClosingPeriod.startDate := Value (november2030Standard 3 1 30);
              ClosingPeriod.endDate := Value (november2030Standard 3 1 30) |}.
Proof.
  refine (proj2 (proj2
           (proj2 (proj2
              (proj2 (closing_period_refusals easternTimeOfAutumn2030
                        (clockAt (november2030Daylight 3 1 45))
                        {| NewClosingPeriodCommand.startDate :=
                             Value (november2030Standard 3 1 30);
                           NewClosingPeriodCommand.endDate :=
                             Value (november2030Standard 3 1 30) |}
                        easternTimeOfAutumn2030_wellFormed)
                 (november2030Standard 3 1 30) eq_refl) _)
              (november2030Standard 3 1 30) eq_refl)) _ _);
    vm_compute; discriminate.
Defined.

(** ** The pattern of e-mail addresses *)

Lemma append_assoc (a b c : string) : (a ++ b) ++ c = a ++ (b ++ c).
Proof.
  induction a as [|x a IH]; cbn [append]; [reflexivity | rewrite IH; reflexivity].
Qed.

Lemma append_empty_r (a : string) : a ++ "" = a.
Proof.
  induction a as [|x a IH]; cbn [append]; [reflexivity | rewrite IH; reflexivity].
Qed.

Lemma append_is_empty (a b : string) : a ++ b = "" -> a = "" /\ b = "".
Proof.
  destruct a; cbn [append]; [intros ->; split; reflexivity | discriminate].
Qed.

Lemma allChars_append (member : ascii -> bool) (a b : string) :
  allChars member (a ++ b) = (allChars member a && allChars member b)%bool.
Proof.
  induction a as [|x a IH]; cbn [append allChars]; [reflexivity |].
  rewrite IH, andb_assoc. reflexivity.
Qed.

Lemma length_append (a b : string) :
  String.length (a ++ b) = (String.length a + String.length b)%nat.
Proof.
  induction a as [|x a IH]; cbn [append String.length]; [reflexivity |].
  rewrite IH. reflexivity.
Qed.

Lemma allChars_weaken (member member' : ascii -> bool) (s : string) :
  (forall c, member c = true -> member' c = true) ->
  allChars member s = true -> allChars member' s = true.
Proof.
  intros Hweaken. induction s as [|x s IH]; cbn [allChars]; [reflexivity |].
  intros H. apply andb_true_iff in H. destruct H as [Hx Hs].
  rewrite (Hweaken x Hx), (IH Hs). reflexivity.
Qed.

(** *** What a pattern stands for, constructor by constructor *)

Lemma denotes_nothing (s : string) : ~ denotes Regex.Nothing s.
Proof. intros H. inversion H. Qed.

Lemma denotes_epsilon_only (s : string) : denotes Regex.Epsilon s -> s = "".
Proof. intros H. inversion H. reflexivity. Qed.

Lemma denotes_class_only (member : ascii -> bool) (s : string) :
  denotes (Regex.Class member) s -> exists c, s = String c "" /\ member c = true.
Proof. intros H. inversion H; subst. exists c. split; [reflexivity | assumption]. Qed.

Lemma denotes_seq_only (r1 r2 : Regex.re) (s : string) :
  denotes (Regex.Seq r1 r2) s ->
  exists s1 s2, s = s1 ++ s2 /\ denotes r1 s1 /\ denotes r2 s2.
Proof. intros H. inversion H; subst. exists s1, s2. auto. Qed.

Lemma denotes_alt_only (r1 r2 : Regex.re) (s : string) :
  denotes (Regex.Alt r1 r2) s -> denotes r1 s \/ denotes r2 s.
Proof. intros H. inversion H; subst; auto. Qed.

(** A repetition that stands for a string with a first character
    starts with a round that has this character. *)
Lemma denotes_star_first (r : Regex.re) (c : ascii) (s : string) :
  denotes (Regex.Star r) (String c s) ->
  exists s1 s2, s = s1 ++ s2 /\ denotes r (String c s1) /\ denotes (Regex.Star r) s2.
Proof.
  intros H. remember (Regex.Star r) as repetition eqn:Hr.
  remember (String c s) as text eqn:Htext.
  revert s Htext.
  induction H as [| | | | | |r' s1 s2 Hround _ Hrest IH]; try discriminate Hr.
  - discriminate.
  - injection Hr as ->. intros s Htext. destruct s1 as [|x s1].
    + cbn [append] in Htext. exact (IH eq_refl s Htext).
    + cbn [append] in Htext. injection Htext as -> <-.
      exists s1, s2. auto.
Qed.

(** *** The matcher decides what the pattern stands for *)

Lemma acceptsEmpty_denotes (r : Regex.re) :
  Regex.acceptsEmpty r = true <-> denotes r "".
Proof.
  induction r as [| |member|r1 IH1 r2 IH2|r1 IH1 r2 IH2|r IH]; cbn [Regex.acceptsEmpty].
  - split; [discriminate | intros H; destruct (denotes_nothing _ H)].
  - split; [intros _; constructor | reflexivity].
  - split; [discriminate |]. intros H.
    destruct (denotes_class_only _ _ H) as [c [Hc _]]. discriminate Hc.
  - rewrite andb_true_iff, IH1, IH2. split.
    + intros [H1 H2]. exact (denotes_seq r1 r2 "" "" H1 H2).
    + intros H. destruct (denotes_seq_only _ _ _ H) as [s1 [s2 [Hs [H1 H2]]]].
      symmetry in Hs. apply append_is_empty in Hs. destruct Hs as [-> ->]. auto.
  - rewrite orb_true_iff, IH1, IH2. split.
    + intros [H | H]; [apply denotes_alt_l | apply denotes_alt_r]; exact H.
    + apply denotes_alt_only.
  - split; [intros _; constructor | reflexivity].
Qed.

Lemma derive_denotes (c : ascii) (r : Regex.re) :
  forall s, denotes (Regex.derive c r) s <-> denotes r (String c s).
Proof.
  induction r as [| |member|r1 IH1 r2 IH2|r1 IH1 r2 IH2|r IH]; intros s;
    cbn [Regex.derive].
  - split; intros H; destruct (denotes_nothing _ H).
  - split; intros H; [destruct (denotes_nothing _ H) |].
    apply denotes_epsilon_only in H. discriminate H.
  - split.
    + destruct (member c) eqn:Hc; intros H; [| destruct (denotes_nothing _ H)].
      apply denotes_epsilon_only in H. subst s. constructor. exact Hc.
    + intros H. destruct (denotes_class_only _ _ H) as [c' [Hs Hc]].
      injection Hs as <- ->. rewrite Hc. constructor.
  - assert (Hfirst :
      denotes (Regex.Seq (Regex.derive c r1) r2) s ->
      denotes (Regex.Seq r1 r2) (String c s)).
    { intros H. destruct (denotes_seq_only _ _ _ H) as [s1 [s2 [-> [H1 H2]]]].
      apply IH1 in H1. exact (denotes_seq r1 r2 (String c s1) s2 H1 H2). }
    split.
    + destruct (Regex.acceptsEmpty r1) eqn:Hempty; [| exact Hfirst].
      intros H. destruct (denotes_alt_only _ _ _ H) as [H' | H']; [exact (Hfirst H') |].
      apply IH2 in H'. apply acceptsEmpty_denotes in Hempty.
      exact (denotes_seq r1 r2 "" (String c s) Hempty H').
    + intros H. destruct (denotes_seq_only _ _ _ H) as [s1 [s2 [Hs [H1 H2]]]].
      destruct s1 as [|x s1]; cbn [append] in Hs.
      * subst s2. apply acceptsEmpty_denotes in H1. rewrite H1.
        apply denotes_alt_r. apply IH2. exact H2.
      * injection Hs as <- ->. apply IH1 in H1.
        pose proof (denotes_seq _ _ _ _ H1 H2) as Hseq.
        destruct (Regex.acceptsEmpty r1); [apply denotes_alt_l |]; exact Hseq.
  - split.
    + intros H. destruct (denotes_alt_only _ _ _ H) as [H' | H'];
        [apply denotes_alt_l, IH1 | apply denotes_alt_r, IH2]; exact H'.
    + intros H. destruct (denotes_alt_only _ _ _ H) as [H' | H'];
        [apply denotes_alt_l, IH1 | apply denotes_alt_r, IH2]; exact H'.
  - split.
    + intros H. destruct (denotes_seq_only _ _ _ H) as [s1 [s2 [-> [H1 H2]]]].
      apply IH in H1. exact (denotes_star_more r (String c s1) s2 H1 H2).
    + intros H. destruct (denotes_star_first _ _ _ H) as [s1 [s2 [-> [H1 H2]]]].
      apply IH in H1. exact (denotes_seq _ _ _ _ H1 H2).
Qed.

Lemma matches_denotes (s : string) :
  forall r, Regex.matches r s = true <-> denotes r s.
Proof.
  induction s as [|c s IH]; intros r; cbn [Regex.matches].
  - apply acceptsEmpty_denotes.
  - rewrite IH. apply derive_denotes.
Qed.

(** *** The pieces of the pattern *)

Lemma denotes_char (n : N) (s : string) :
  (n < 256)%N -> denotes (Regex.char n) s <-> s = charOf n.
Proof.
  intros Hn. unfold Regex.char, charOf, Regex.code. split.
  - intros H. destruct (denotes_class_only _ _ H) as [c [-> Hc]].
    apply N.eqb_eq in Hc. rewrite <- Hc, ascii_N_embedding. reflexivity.
  - intros ->. constructor. apply N.eqb_eq. apply N_ascii_embedding. exact Hn.
Qed.

Lemma denotes_star_class (member : ascii -> bool) (s : string) :
  denotes (Regex.Star (Regex.Class member)) s <-> allChars member s = true.
Proof.
  split.
  - intros H. remember (Regex.Star (Regex.Class member)) as repetition eqn:Hr.
    induction H as [| | | | | |r s1 s2 Hround _ Hrest IH]; try discriminate Hr.
    + reflexivity.
    + injection Hr as ->.
      destruct (denotes_class_only _ _ Hround) as [c [-> Hc]].
      cbn [append allChars]. rewrite Hc, (IH eq_refl). reflexivity.
  - induction s as [|c s IH]; cbn [allChars]; [intros _; constructor |].
    intros H. apply andb_true_iff in H. destruct H as [Hc Hs].
    exact (denotes_star_more _ (String c "") s (denotes_class member c Hc) (IH Hs)).
Qed.

Lemma denotes_plus_class (member : ascii -> bool) (s : string) :
  denotes (Regex.plus (Regex.Class member)) s <-> wordOf member s.
Proof.
  unfold Regex.plus, wordOf. split.
  - intros H. destruct (denotes_seq_only _ _ _ H) as [s1 [s2 [-> [H1 H2]]]].
    destruct (denotes_class_only _ _ H1) as [c [-> Hc]].
    apply denotes_star_class in H2. cbn [append allChars]. rewrite Hc, H2.
    split; [discriminate | reflexivity].
  - intros [Hs Hall]. destruct s as [|c s]; [contradiction |].
    cbn [allChars] in Hall. apply andb_true_iff in Hall. destruct Hall as [Hc Hall].
    apply denotes_star_class in Hall.
    exact (denotes_seq _ _ (String c "") s (denotes_class member c Hc) Hall).
Qed.

Lemma denotes_oneToThree_class (member : ascii -> bool) (s : string) :
  denotes (Regex.oneToThree (Regex.Class member)) s
  <-> allChars member s = true /\ (1 <= String.length s <= 3)%nat.
Proof.
  unfold Regex.oneToThree. split.
  - intros H. destruct (denotes_seq_only _ _ _ H) as [s1 [s2 [-> [H1 H2]]]].
    destruct (denotes_class_only _ _ H1) as [c1 [-> Hc1]].
    cbn [append allChars String.length]. rewrite Hc1.
    destruct (denotes_alt_only _ _ _ H2) as [H2' | H2'].
    { apply denotes_epsilon_only in H2'. subst s2. cbn. split; [reflexivity | lia]. }
    destruct (denotes_seq_only _ _ _ H2') as [s3 [s4 [-> [H3 H4]]]].
    destruct (denotes_class_only _ _ H3) as [c2 [-> Hc2]].
    cbn [append allChars String.length]. rewrite Hc2.
    destruct (denotes_alt_only _ _ _ H4) as [H4' | H4'].
    { apply denotes_epsilon_only in H4'. subst s4. cbn. split; [reflexivity | lia]. }
    destruct (denotes_class_only _ _ H4') as [c3 [-> Hc3]].
    cbn [allChars String.length]. rewrite Hc3. cbn. split; [reflexivity | lia].
  - intros [Hall Hlength].
    destruct s as [|c1 s]; cbn [String.length] in Hlength; [lia |].
    cbn [allChars] in Hall. apply andb_true_iff in Hall. destruct Hall as [Hc1 Hall].
    apply (denotes_seq _ _ (String c1 "") s (denotes_class member c1 Hc1)).
    destruct s as [|c2 s]; [apply denotes_alt_l; constructor |].
    cbn [allChars] in Hall. apply andb_true_iff in Hall. destruct Hall as [Hc2 Hall].
    apply denotes_alt_r.
    apply (denotes_seq _ _ (String c2 "") s (denotes_class member c2 Hc2)).
    destruct s as [|c3 s]; [apply denotes_alt_l; constructor |].
    cbn [allChars] in Hall. apply andb_true_iff in Hall. destruct Hall as [Hc3 Hall].
    apply denotes_alt_r.
    destruct s as [|c4 s]; [constructor; exact Hc3 |].
    cbn [String.length] in Hlength. lia.
Qed.

Lemma denotes_twoOrMore_class (member : ascii -> bool) (s : string) :
  denotes (Regex.twoOrMore (Regex.Class member)) s
  <-> allChars member s = true /\ (2 <= String.length s)%nat.
Proof.
  unfold Regex.twoOrMore. split.
  - intros H. destruct (denotes_seq_only _ _ _ H) as [s1 [s2 [-> [H1 H2]]]].
    destruct (denotes_class_only _ _ H1) as [c [-> Hc]].
    apply denotes_plus_class in H2. destruct H2 as [Hs2 Hall].
    cbn [append allChars String.length]. rewrite Hc, Hall.
    split; [reflexivity |]. destruct s2; [contradiction | cbn [String.length]; lia].
  - intros [Hall Hlength].
    destruct s as [|c s]; cbn [String.length] in Hlength; [lia |].
    cbn [allChars] in Hall. apply andb_true_iff in Hall. destruct Hall as [Hc Hall].
    apply (denotes_seq _ _ (String c "") s (denotes_class member c Hc)).
    apply denotes_plus_class. split; [| exact Hall].
    destruct s; [cbn [String.length] in Hlength; lia | discriminate].
Qed.

(** The atoms after the first: a repetition of a dot and an atom. *)
Lemma denotes_dotTail (member : ascii -> bool) (s : string) :
  denotes (Regex.Star (Regex.Seq (Regex.char 46) (Regex.plus (Regex.Class member)))) s
  <-> exists atoms, s = dotTail atoms /\ Forall (wordOf member) atoms.
Proof.
  split.
  - intros H.
    remember (Regex.Star (Regex.Seq (Regex.char 46) (Regex.plus (Regex.Class member))))
      as repetition eqn:Hr.
    induction H as [| | | | | |r s1 s2 Hround _ Hrest IH]; try discriminate Hr.
    + exists []. split; [reflexivity | constructor].
    + injection Hr as ->. destruct (IH eq_refl) as [atoms [-> Hatoms]].
      destruct (denotes_seq_only _ _ _ Hround) as [dot [atom [-> [Hdot Hatom]]]].
      apply denotes_char in Hdot; [| reflexivity]. subst dot.
      apply denotes_plus_class in Hatom.
      exists (atom :: atoms). split; [| constructor; assumption].
      cbn [dotTail]. rewrite append_assoc. reflexivity.
  - intros [atoms [-> Hatoms]].
    induction Hatoms as [|atom atoms Hatom _ IH]; cbn [dotTail]; [constructor |].
    change ("." ++ atom ++ dotTail atoms) with (("." ++ atom) ++ dotTail atoms).
    apply denotes_star_more; [| exact IH].
    apply (denotes_seq _ _ "." atom).
    + apply denotes_char; reflexivity.
    + apply denotes_plus_class. exact Hatom.
Qed.

(** The labels: a repetition of a label and a dot. *)
Lemma denotes_labelled (member : ascii -> bool) (s : string) :
  denotes (Regex.Star (Regex.Seq (Regex.plus (Regex.Class member)) (Regex.char 46))) s
  <-> exists labels, s = labelled labels /\ Forall (wordOf member) labels.
Proof.
  split.
  - intros H.
    remember (Regex.Star (Regex.Seq (Regex.plus (Regex.Class member)) (Regex.char 46)))
      as repetition eqn:Hr.
    induction H as [| | | | | |r s1 s2 Hround _ Hrest IH]; try discriminate Hr.
    + exists []. split; [reflexivity | constructor].
    + injection Hr as ->. destruct (IH eq_refl) as [labels [-> Hlabels]].
      destruct (denotes_seq_only _ _ _ Hround) as [label [dot [-> [Hlabel Hdot]]]].
      apply denotes_char in Hdot; [| reflexivity]. subst dot.
      apply denotes_plus_class in Hlabel.
      exists (label :: labels). split; [| constructor; assumption].
      cbn [labelled]. rewrite append_assoc. reflexivity.
  - intros [labels [-> Hlabels]].
    induction Hlabels as [|label labels Hlabel _ IH]; cbn [labelled]; [constructor |].
    rewrite <- append_assoc.
    apply denotes_star_more; [| exact IH].
    apply (denotes_seq _ _ label ".").
    + apply denotes_plus_class. exact Hlabel.
    + apply denotes_char; reflexivity.
Qed.

Lemma denotes_EMAIL_REGEX (s : string) :
  denotes Order.EMAIL_REGEX s
  <-> exists local domain,
      s = local ++ "@" ++ domain /\ isLocalPart local /\ isDomain domain.
Proof.
  unfold Order.EMAIL_REGEX. cbv zeta. cbn [Regex.sequence]. split.
  - intros H.
    destruct (denotes_seq_only _ _ _ H) as [local [rest [-> [Hlocal Hrest]]]].
    destruct (denotes_seq_only _ _ _ Hrest) as [at_ [rest' [-> [Hat Hrest']]]].
    apply denotes_char in Hat; [| reflexivity]. subst at_.
    destruct (denotes_seq_only _ _ _ Hrest') as [domain [nothing [-> [Hdomain Hend]]]].
    apply denotes_epsilon_only in Hend. subst nothing. rewrite append_empty_r.
    exists local, domain. split; [reflexivity |]. split.
    + destruct (denotes_alt_only _ _ _ Hlocal) as [Hatoms | Hquoted].
      * left. destruct (denotes_seq_only _ _ _ Hatoms) as [atom [tail [-> [Hatom Htail]]]].
        apply denotes_plus_class in Hatom. apply denotes_dotTail in Htail.
        destruct Htail as [atoms [-> Hatoms']]. exists atom, atoms. auto.
      * right.
        destruct (denotes_seq_only _ _ _ Hquoted) as [q1 [r1 [-> [Hq1 Hr1]]]].
        destruct (denotes_seq_only _ _ _ Hr1) as [body [r2 [-> [Hbody Hr2]]]].
        destruct (denotes_seq_only _ _ _ Hr2) as [q2 [r3 [-> [Hq2 Hr3]]]].
        apply denotes_char in Hq1; [| reflexivity].
        apply denotes_char in Hq2; [| reflexivity].
        apply denotes_epsilon_only in Hr3. subst q1 q2 r3.
        apply denotes_plus_class in Hbody.
        exists body. rewrite append_empty_r. auto.
    + destruct (denotes_alt_only _ _ _ Hdomain) as [Hip | Hname].
      * left.
        destruct (denotes_seq_only _ _ _ Hip) as [b1 [r1 [-> [Hb1 Hr1]]]].
        destruct (denotes_seq_only _ _ _ Hr1) as [n1 [r2 [-> [Hn1 Hr2]]]].
        destruct (denotes_seq_only _ _ _ Hr2) as [d1 [r3 [-> [Hd1 Hr3]]]].
        destruct (denotes_seq_only _ _ _ Hr3) as [n2 [r4 [-> [Hn2 Hr4]]]].
        destruct (denotes_seq_only _ _ _ Hr4) as [d2 [r5 [-> [Hd2 Hr5]]]].
        destruct (denotes_seq_only _ _ _ Hr5) as [n3 [r6 [-> [Hn3 Hr6]]]].
        destruct (denotes_seq_only _ _ _ Hr6) as [d3 [r7 [-> [Hd3 Hr7]]]].
        destruct (denotes_seq_only _ _ _ Hr7) as [n4 [r8 [-> [Hn4 Hr8]]]].
        destruct (denotes_seq_only _ _ _ Hr8) as [b2 [r9 [-> [Hb2 Hr9]]]].
        apply denotes_char in Hb1; [| reflexivity].
        apply denotes_char in Hd1; [| reflexivity].
        apply denotes_char in Hd2; [| reflexivity].
        apply denotes_char in Hd3; [| reflexivity].
        apply denotes_char in Hb2; [| reflexivity].
        apply denotes_epsilon_only in Hr9. subst b1 d1 d2 d3 b2 r9.
        apply denotes_oneToThree_class in Hn1, Hn2, Hn3, Hn4.
        exists n1, n2, n3, n4. split; [reflexivity | auto].
      * right.
        destruct (denotes_seq_only _ _ _ Hname) as [labels [tld [-> [Hlabels Htld]]]].
        apply denotes_twoOrMore_class in Htld. destruct Htld as [Hletters Hlength].
        destruct (denotes_seq_only _ _ _ Hlabels) as [one [more [-> [Hone Hmore]]]].
        apply denotes_labelled in Hmore. destruct Hmore as [rest [-> Hrest_]].
        destruct (denotes_seq_only _ _ _ Hone) as [label [dot [-> [Hlabel Hdot]]]].
        apply denotes_char in Hdot; [| reflexivity]. subst dot.
        apply denotes_plus_class in Hlabel.
        exists (label :: rest), tld. cbn [labelled]. rewrite (append_assoc label).
        split; [reflexivity |]. split; [discriminate |].
        split; [constructor; assumption | auto].
  - intros [local [domain [-> [Hlocal Hdomain]]]].
    apply denotes_seq.
    + destruct Hlocal as [[atom [atoms [-> [Hatom Hatoms]]]] | [body [-> Hbody]]].
      * apply denotes_alt_l. apply denotes_seq.
        -- apply denotes_plus_class. exact Hatom.
        -- apply denotes_dotTail. exists atoms. auto.
      * apply denotes_alt_r. apply denotes_seq; [apply denotes_char; reflexivity |].
        apply denotes_seq; [apply denotes_plus_class; exact Hbody |].
        rewrite <- (append_empty_r (charOf 34)) at 1.
        apply denotes_seq; [apply denotes_char; reflexivity | constructor].
    + apply (denotes_seq _ _ "@"); [apply denotes_char; reflexivity |].
      rewrite <- (append_empty_r domain).
      apply denotes_seq; [| constructor].
      destruct Hdomain as [[n1 [n2 [n3 [n4 [-> [H1 [H2 [H3 H4]]]]]]]]
                          | [labels [tld [-> [Hsome [Hlabels [Hletters Hlength]]]]]]].
      * apply denotes_alt_l.
        apply (denotes_seq _ _ "["); [apply denotes_char; reflexivity |].
        apply denotes_seq; [apply denotes_oneToThree_class; exact H1 |].
        apply (denotes_seq _ _ "."); [apply denotes_char; reflexivity |].
        apply denotes_seq; [apply denotes_oneToThree_class; exact H2 |].
        apply (denotes_seq _ _ "."); [apply denotes_char; reflexivity |].
        apply denotes_seq; [apply denotes_oneToThree_class; exact H3 |].
        apply (denotes_seq _ _ "."); [apply denotes_char; reflexivity |].
        apply denotes_seq; [apply denotes_oneToThree_class; exact H4 |].
        apply (denotes_seq _ _ "]" ""); [apply denotes_char; reflexivity | constructor].
      * apply denotes_alt_r. apply denotes_seq;
          [| apply denotes_twoOrMore_class; auto].
        destruct Hlabels as [|label labels Hlabel Hlabels]; [contradiction |].
        cbn [labelled]. rewrite <- append_assoc.
        apply denotes_seq.
        -- apply (denotes_seq _ _ label ".");
             [apply denotes_plus_class; exact Hlabel | apply denotes_char; reflexivity].
        -- apply denotes_labelled. exists labels. auto.
Qed.

Lemma allChars_dotTail (member char : ascii -> bool) (atoms : list string) :
  (forall c, member c = true -> char c = true) ->
  char "."%char = true ->
  Forall (wordOf member) atoms ->
  allChars char (dotTail atoms) = true.
Proof.
  intros Hweaken Hdot Hatoms.
  induction Hatoms as [|atom atoms [_ Hatom] _ IH]; cbn [dotTail]; [reflexivity |].
  cbn [append allChars]. rewrite Hdot, allChars_append, IH.
  rewrite (allChars_weaken member char atom Hweaken Hatom). reflexivity.
Qed.

Lemma allChars_labelled (member char : ascii -> bool) (labels : list string) :
  (forall c, member c = true -> char c = true) ->
  char "."%char = true ->
  Forall (wordOf member) labels ->
  allChars char (labelled labels) = true.
Proof.
  intros Hweaken Hdot Hlabels.
  induction Hlabels as [|label labels [_ Hlabel] _ IH]; cbn [labelled]; [reflexivity |].
  rewrite allChars_append. cbn [append allChars]. rewrite Hdot, IH.
  rewrite (allChars_weaken member char label Hweaken Hlabel). reflexivity.
Qed.

Lemma characters_without_space (c : ascii) :
  (Order.localPartChar c = true -> Regex.isWhiteSpace c = false)
  /\ (Order.domainLabelChar c = true -> Regex.isWhiteSpace c = false)
  /\ (Regex.isLetter c = true -> Regex.isWhiteSpace c = false)
  /\ (Regex.isDigit c = true -> Regex.isWhiteSpace c = false).
Proof.
  destruct c as [[] [] [] [] [] [] [] []]; vm_compute;
    repeat split; intros H; solve [reflexivity | discriminate H].
Qed.

(** X15. The addresses [assertClientEmailAddressIsValid] accepts are
    exactly the strings made of a local part, an [@] and a domain,
    where the local part is either atoms joined by dots (an atom is one
    character or more, none of them white space or one of
    [<>()[]\.,;:@] and the quote) or one character or more, none a line
    terminator, between two quotes, and the domain is either four
    numbers of one to three digits joined by dots between brackets or
    one label or more, each followed by a dot (a label is one or more
    letters, digits and hyphens), and then two letters or more. *)
Theorem accepted_email_addresses :
  forall address : nullable string,
    Order.assertClientEmailAddressIsValid address = Return tt
    <-> exists local domain,
        address = Value (local ++ "@" ++ domain)
        /\ isLocalPart local /\ isDomain domain.
Proof.
  intros address. unfold Order.assertClientEmailAddressIsValid.
  destruct address as [| |s]; cbn [isEmptyString];
    [split; [discriminate | intros [local [domain [H _]]]; discriminate H]
    |split; [discriminate | intros [local [domain [H _]]]; discriminate H] |].
  destruct s as [|c s].
  - split; [discriminate |]. intros [local [domain [H _]]].
    injection H as H. symmetry in H. apply append_is_empty in H.
    destruct H as [_ H]. discriminate H.
  - unfold Order.EMAIL_REGEX_test. cbn [Order.stringOf].
    destruct (Regex.matches Order.EMAIL_REGEX (String c s)) eqn:Hmatches; cbn [negb].
    + apply matches_denotes, denotes_EMAIL_REGEX in Hmatches.
      destruct Hmatches as [local [domain [-> Hshape]]].
      split; [intros _; exists local, domain; split; [reflexivity | exact Hshape]
             | reflexivity].
    + split; [discriminate |]. intros [local [domain [H Hshape]]].
      injection H as H.
      assert (Haccepted : Regex.matches Order.EMAIL_REGEX (String c s) = true).
      { apply matches_denotes, denotes_EMAIL_REGEX. exists local, domain.
        split; [exact H | exact Hshape]. }
      rewrite Hmatches in Haccepted. discriminate Haccepted.
Qed.

(** X16. What [assertClientEmailAddressIsValid] refuses.  An address
    that is absent or empty is refused with [client email address has
    to be defined].  A string that is not empty is refused with
    [invalid client email address {address}] when it has no [@], and
    when it has a white space character and does not start with a
    quote. *)
Theorem refused_email_addresses :
  forall address : nullable string,
    (isEmptyString address = true ->
     Order.assertClientEmailAddressIsValid address
     = Throw (InvalidOrderError "client email address has to be defined"))
    /\ (forall s,
           address = Value s ->
           s <> "" ->
           allChars (fun c => negb (N.eqb (Regex.code c) 64)) s = true
           \/ (allChars (fun c => negb (Regex.isWhiteSpace c)) s = false
               /\ forall rest, s <> charOf 34 ++ rest) ->
           Order.assertClientEmailAddressIsValid address
           = Throw (InvalidOrderError ("invalid client email address " ++ s))).
Proof.
  intros address. split.
  - intros Hempty. unfold Order.assertClientEmailAddressIsValid. rewrite Hempty.
    reflexivity.
  - intros s -> Hs Hrefused.
    destruct s as [|c s]; [contradiction |].
    unfold Order.assertClientEmailAddressIsValid, Order.EMAIL_REGEX_test.
    cbn [isEmptyString Order.stringOf].
    destruct (Regex.matches Order.EMAIL_REGEX (String c s)) eqn:Hmatches; cbn [negb];
      [exfalso | reflexivity].
    apply matches_denotes, denotes_EMAIL_REGEX in Hmatches.
    destruct Hmatches as [local [domain [Heq [Hlocal Hdomain]]]].
    rewrite Heq in Hrefused. clear Heq Hs c s.
    destruct Hrefused as [Hat | [Hspace Hquote]].
    + rewrite allChars_append in Hat. apply andb_true_iff in Hat.
      destruct Hat as [_ Hat]. discriminate Hat.
    + assert (Hplain :
        allChars (fun c => negb (Regex.isWhiteSpace c)) (local ++ "@" ++ domain) = true);
        [| rewrite Hplain in Hspace; discriminate Hspace].
      assert (Hweaken :
        forall member : ascii -> bool,
          (forall c, member c = true -> Regex.isWhiteSpace c = false) ->
          forall c, member c = true -> negb (Regex.isWhiteSpace c) = true).
      { intros member Hmember c Hc. rewrite (Hmember c Hc). reflexivity. }
      rewrite allChars_append. apply andb_true_iff. split.
      * destruct Hlocal as [[atom [atoms [-> [[_ Hatom] Hatoms]]]] | [body [-> _]]];
          [| destruct (Hquote _ eq_refl)].
        rewrite allChars_append. apply andb_true_iff. split.
        -- apply (allChars_weaken Order.localPartChar); [| exact Hatom].
           apply Hweaken. intros c. apply characters_without_space.
        -- apply (allChars_dotTail Order.localPartChar); [| reflexivity | exact Hatoms].
           apply Hweaken. intros c. apply characters_without_space.
      * cbn [append allChars].
        change (negb (Regex.isWhiteSpace "@"%char)) with true. cbn [andb].
        destruct Hdomain as [[n1 [n2 [n3 [n4 [-> [[H1 _] [[H2 _] [[H3 _] [H4 _]]]]]]]]]
                            | [labels [tld [-> [_ [Hlabels [Hletters _]]]]]]].
        -- assert (Hdigits :
             forall n, allChars Regex.isDigit n = true ->
                       allChars (fun c => negb (Regex.isWhiteSpace c)) n = true).
           { intros n. apply allChars_weaken. apply Hweaken.
             intros c. apply characters_without_space. }
           repeat first [rewrite allChars_append | progress cbn [append allChars]].
           rewrite (Hdigits n1 H1), (Hdigits n2 H2), (Hdigits n3 H3), (Hdigits n4 H4).
           reflexivity.
        -- rewrite allChars_append. apply andb_true_iff. split.
           ++ apply (allChars_labelled Order.domainLabelChar);
                [| reflexivity | exact Hlabels].
              apply Hweaken. intros c. apply characters_without_space.
           ++ apply (allChars_weaken Regex.isLetter); [| exact Hletters].
              apply Hweaken. intros c. apply characters_without_space.
Qed.

(** The address of the commands of the test suite. *)
Lemma accepted_email_addresses_witness :
  Order.assertClientEmailAddressIsValid (Value "test@example.org") = Return tt.
Proof.
  apply (proj2 (accepted_email_addresses (Value "test@example.org"))).
  exists "test", "example.org". split; [reflexivity |]. split.
  - left. exists "test", []. split; [reflexivity |].
    split; [split; [discriminate | reflexivity] | constructor].
  - right. exists ["example"], "org". split; [reflexivity |].
    split; [discriminate |].
    split; [constructor; [split; [discriminate | reflexivity] | constructor] |].
    split; [reflexivity | cbn; lia].
Defined.

(** The same address with a space before the [@]. *)
Lemma refused_email_addresses_witness :
  Order.assertClientEmailAddressIsValid (Value "test @example.org")
  = Throw (InvalidOrderError "invalid client email address test @example.org").
Proof.
  refine (proj2 (refused_email_addresses (Value "test @example.org"))
            "test @example.org" eq_refl _ _).
  - discriminate.
  - right. split; [reflexivity |]. intros rest H. vm_compute in H. discriminate H.
Defined.

(** ** The order of the checks of a creation *)

(** X17. [create] reports the first check that fails, in this order:
    the client name, the phone number, the e-mail address, the product
    lines, the product ids, the type.  Each of these errors is thrown
    whatever the rest of the command holds and whoever the caller
    is. *)
Theorem create_reports_the_first_failing_check :
  forall (timeZoneOffset : Z) (clock : Clock) (table : list AvailableDayForAPickUpOrder)
         (fuel : nat) (command : NewOrderCommand.t) (activeProducts : list Product.t)
         (closingPeriods : list ClosingPeriodInterface.t) (isAdmin : bool) (e : Error),
    (Order.assertClientNameIsValid (NewOrderCommand.clientName command) = Throw e ->
     Order.create timeZoneOffset clock table fuel command activeProducts closingPeriods
       isAdmin = Throw e)
    /\ (Order.assertClientNameIsValid (NewOrderCommand.clientName command) = Return tt ->
        (Order.assertClientPhoneNumberIsValid (NewOrderCommand.clientPhoneNumber command)
         = Throw e ->
         Order.create timeZoneOffset clock table fuel command activeProducts closingPeriods
           isAdmin = Throw e)
        /\ (Order.assertClientPhoneNumberIsValid (NewOrderCommand.clientPhoneNumber command)
            = Return tt ->
            (Order.assertClientEmailAddressIsValid
               (NewOrderCommand.clientEmailAddress command) = Throw e ->
             Order.create timeZoneOffset clock table fuel command activeProducts
               closingPeriods isAdmin = Throw e)
            /\ (Order.assertClientEmailAddressIsValid
                  (NewOrderCommand.clientEmailAddress command) = Return tt ->
                (Order.assertProductsAreValid (NewOrderCommand.products command)
                 = Throw e ->
                 Order.create timeZoneOffset clock table fuel command activeProducts
                   closingPeriods isAdmin = Throw e)
                /\ (Order.assertProductsAreValid (NewOrderCommand.products command)
                    = Return tt ->
                    (mapThrowing
                       (fun line => Order.toProductWithQuantity line activeProducts)
                       (NewOrderCommand.products command) = Throw e ->
                     Order.create timeZoneOffset clock table fuel command activeProducts
                       closingPeriods isAdmin = Throw e)
                    /\ (forall resolved,
                           mapThrowing
                             (fun line => Order.toProductWithQuantity line activeProducts)
                             (NewOrderCommand.products command) = Return resolved ->
                           Order.assertTypeIsValid (NewOrderCommand.type command) isAdmin
                           = Throw e ->
                           Order.create timeZoneOffset clock table fuel command
                             activeProducts closingPeriods isAdmin = Throw e))))).
Proof.
  intros tz clock table fuel command activeProducts closingPeriods isAdmin e.
  rewrite create_spec.
  unfold contactDetailsChecks, productSelectionChecks, orderTypeSelectionChecks.
  cbn [AnyOrderCommand.type].
  split; [intros ->; reflexivity |]. intros ->. cbn [andThen].
  split; [intros ->; reflexivity |]. intros ->. cbn [andThen].
  split; [intros ->; reflexivity |]. intros ->. cbn [andThen].
  split; [intros ->; reflexivity |]. intros ->. cbn [andThen].
  split; [intros ->; reflexivity |]. intros resolved -> ->. reflexivity.
Qed.

(** A reservation asked by a caller who is not an admin, for a product
    that is not active: the product is reported, not the caller. *)
Lemma create_reports_the_first_failing_check_witness :
  Order.create easternDaylightTime (clockAt (april2030 3 19 0 0)) tableOfTheTestSuite 7
    (johnDoeOrders OrderType.RESERVATION (april2030 4 19 0 0)) [] [] false
  = Throw (InvalidOrderError "product with id 42 not found").
Proof.
  refine (proj1 (proj2 (proj2 (proj2 (proj2
           (create_reports_the_first_failing_check easternDaylightTime
              (clockAt (april2030 3 19 0 0)) tableOfTheTestSuite 7
              (johnDoeOrders OrderType.RESERVATION (april2030 4 19 0 0)) [] [] false
              (InvalidOrderError "product with id 42 not found"))
           _) _) _) _) _); vm_compute; reflexivity.
Defined.

(** X18. [toProductWithQuantity] takes the first active product that
    has the id of the line: when several active products share the id,
    the later ones are never used; the snapshot holds that product as
    the active list has it and the quantity of the line. *)
Theorem first_active_product_with_the_id_is_taken :
  forall (line : ProductIdWithQuantity.t) (before : list Product.t) (product : Product.t)
         (after : list Product.t),
    (forall earlier, In earlier before ->
                     Product.id earlier <> ProductIdWithQuantity.productId line) ->
    Product.id product = ProductIdWithQuantity.productId line ->
    Order.toProductWithQuantity line (before ++ product :: after)%list
    = Return {| ProductWithQuantity.product := product;
                ProductWithQuantity.quantity := ProductIdWithQuantity.quantity line |}.
Proof.
  intros line before product after Hbefore Hid. unfold Order.toProductWithQuantity.
  induction before as [|earlier before IH]; cbn [app find].
  - rewrite Hid, Z.eqb_refl. reflexivity.
  - rewrite (proj2 (Z.eqb_neq _ _) (Hbefore earlier (or_introl eq_refl))).
    apply IH. intros q Hq. apply Hbefore. right. exact Hq.
Qed.

(** Two active products with the id 42: the line gets the first. *)
Lemma first_active_product_with_the_id_is_taken_witness :
  Order.toProductWithQuantity
    {| ProductIdWithQuantity.productId := 42; ProductIdWithQuantity.quantity := 3 |}
    [ {| Product.id := 41; Product.name := "another product"; Product.description := "";
         Product.price := 2; Product.status := "ACTIVE" |};
      fakeProduct;
      {| Product.id := 42; Product.name := "a later product"; Product.description := "";
         Product.price := 5; Product.status := "ACTIVE" |} ]
  = Return {| ProductWithQuantity.product := fakeProduct;
              ProductWithQuantity.quantity := 3 |}.
Proof.
  refine (first_active_product_with_the_id_is_taken
            {| ProductIdWithQuantity.productId := 42; ProductIdWithQuantity.quantity := 3 |}
            [ {| Product.id := 41; Product.name := "another product";
                 Product.description := ""; Product.price := 2;
                 Product.status := "ACTIVE" |} ]
            fakeProduct
            [ {| Product.id := 42; Product.name := "a later product";
                 Product.description := ""; Product.price := 5;
                 Product.status := "ACTIVE" |} ] _ eq_refl).
  intros earlier [<- | []]. discriminate.
Defined.
